(** * City simulation core (src/scripts/sim/city.js)

    A shallow embedding of the [City] class: the tile grid and its
    bounds-checked lookup, the build/demolish economy, the breadth-first
    tile search, and the mission evaluation done by [simulate].

    JavaScript numbers are modelled as [Z] (the code only ever adds,
    subtracts and compares integers).  A JavaScript exception is an
    explicit outcome [Throw] that carries the city as it was when the
    exception left the method.  Calls into collaborators that are not part
    of the class ([window.ui], the vehicle graph, the tile views, the
    building resources) are recorded in an event trace. *)

From Stdlib Require Import ZArith List Bool String Lia.
From stdpp Require Import base option list gmap fin_sets strings.

Local Open Scope Z_scope.

(** ** Data model *)

Module BuildingType.
(** Modelled from the spec: [buildings/buildingType.js] is not part of the
    sources; the spec describes the type as "enumerated: residential,
    road, ...".  Every other member of the enumeration is [other]. *)
Inductive t := residential | road | other (name : string).

#[global] Instance eq_dec : EqDecision t.
Proof. solve_decision. Defined.
End BuildingType.

Module Building.
(** The two properties of a building object that city.js reads:
    [building.type] and [building.residents?.count]. *)
Record t := mk { type : BuildingType.t; residents : option Z }.

#[global] Instance eq_dec : EqDecision t.
Proof. solve_decision. Defined.
End Building.

Module Tile.
(** Modelled from the spec: [tile.js] is not part of the sources.  A tile
    has "(x, y) coordinates", a "unique identity token" and an "optional
    owned Building". *)
Record t := mk { id : nat; x : Z; y : Z; building : option Building.t }.

#[global] Instance eq_dec : EqDecision t.
Proof. solve_decision. Defined.

(** [tile.setBuilding(b)] *)
Definition setBuilding (b : option Building.t) (tl : t) : t :=
  mk (id tl) (x tl) (y tl) b.

(** Modelled from the spec: [startTile.distanceTo(tile)] is "Manhattan
    distance on integer coordinates". *)
Definition distanceTo (a b : t) : Z :=
  Z.abs (x a - x b) + Z.abs (y a - y b).
End Tile.

Module Mission.
(** One entry of [levels[l]]: [{mission, citizens | buildings | road, done}].
    A property that the object literal does not have is [None]. *)
Record t := mk {
  mission : string;
  citizens : option Z;
  buildings : option Z;
  road : option Z;
  done : bool
}.

Definition set_done (m : t) : t :=
  mk (mission m) (citizens m) (buildings m) (road m) true.
End Mission.

(** Calls that leave the class. *)
Inductive Event :=
| Notify (type message : string)              (* window.ui.notify({type, message}) *)
| SoundEffect (name : string)                 (* window.ui.soundEffect(name) *)
| ToggleFinished                              (* window.ui.toggleFinished() *)
| UpdateTile (x y : option Z) (b : option Building.t)
                                              (* vehicleGraph.updateTile(x, y, b) *)
| RefreshView (x y : Z)                       (* tile.refreshView(this), by tile coordinates *)
| Dispose (b : Building.t).                   (* building.dispose() *)

Module City.
Record t := mk {
  size : Z;
  simTime : Z;
  tiles : list (list Tile.t);               (* tiles[x][y] *)
  level : Z;
  missionCounter : Z;
  levels : gmap Z (list (Z * Mission.t));   (* level -> missions in key order *)
  money : Z;
  events : list Event
}.

Definition set_simTime (v : Z) (c : t) : t :=
  mk (size c) v (tiles c) (level c) (missionCounter c) (levels c) (money c) (events c).
Definition set_tiles (v : list (list Tile.t)) (c : t) : t :=
  mk (size c) (simTime c) v (level c) (missionCounter c) (levels c) (money c) (events c).
Definition set_level (v : Z) (c : t) : t :=
  mk (size c) (simTime c) (tiles c) v (missionCounter c) (levels c) (money c) (events c).
Definition set_missionCounter (v : Z) (c : t) : t :=
  mk (size c) (simTime c) (tiles c) (level c) v (levels c) (money c) (events c).
Definition set_levels (v : gmap Z (list (Z * Mission.t))) (c : t) : t :=
  mk (size c) (simTime c) (tiles c) (level c) (missionCounter c) v (money c) (events c).
Definition set_money (v : Z) (c : t) : t :=
  mk (size c) (simTime c) (tiles c) (level c) (missionCounter c) (levels c) v (events c).
(** append one call to the trace *)
Definition emit (e : Event) (c : t) : t :=
  mk (size c) (simTime c) (tiles c) (level c) (missionCounter c) (levels c) (money c)
     (events c ++ [e]).
End City.

(** ** Outcomes of a method call *)

Inductive Error := TypeError.

Inductive Res (A : Type) :=
| Ok (a : A)
| Throw (e : Error) (c : City.t).
Arguments Ok {A} a.
Arguments Throw {A} e c.

#[global] Instance Res_ret : MRet Res := fun A a => Ok a.
#[global] Instance Res_bind : MBind Res := fun A B k r =>
  match r with
  | Ok a => k a
  | Throw e c => Throw e c
  end.

(** Loops: run [body] for each element of [l], threading the loop state. *)
Fixpoint foldM {A S : Type} (body : A -> S -> Res S) (l : list A) (s : S) : Res S :=
  match l with
  | [] => Ok s
  | a :: l' => s' ← body a s; foldM body l' s'
  end.

(** ** getTile (lines 122-132) *)

(** A coordinate argument is a number or [undefined] ([None]).  The result
    [None] stands for [null] (or [undefined]): both are falsy and both make
    a property access throw.  [this.tiles[x]] being [undefined] makes the
    index [[y]] throw. *)
Definition getTile (c : City.t) (x y : option Z) : Res (option Tile.t) :=
  match x, y with
  | Some x, Some y =>
      if (x <? 0) || (y <? 0) || (x >=? City.size c) || (y >=? City.size c)
      then Ok None
      else match City.tiles c !! Z.to_nat x with
           | None => Throw TypeError c
           | Some column => Ok (column !! Z.to_nat y)
           end
  | _, _ => Ok None
  end.

(** ** hasMoneyForBuild (lines 203-212) *)

Definition hasMoneyForBuild (c : City.t) (buildingType : BuildingType.t)
  : bool * City.t :=
  if bool_decide (buildingType = BuildingType.residential) && (City.money c >=? 500)
  then (true, City.set_money (City.money c - 500) c)
  else if bool_decide (buildingType = BuildingType.road) && (City.money c >=? 100)
  then (true, City.set_money (City.money c - 100) c)
  else (false, c).

(** ** population (lines 104-113) *)

(** [tile.building?.residents?.count ?? 0] *)
Definition residentCount (tl : Tile.t) : Z :=
  match Tile.building tl with
  | Some b => default 0 (Building.residents b)
  | None => 0
  end.

(** [this.getTile(x, y)] followed by a property access: [null] throws. *)
Definition tileAt (c : City.t) (x y : option Z) : Res Tile.t :=
  tl ← getTile c x y;
  match tl with
  | Some tl => Ok tl
  | None => Throw TypeError c
  end.

Definition population (c : City.t) : Res Z :=
  foldM (fun x => foldM (fun y pop =>
           tl ← tileAt c (Some x) (Some y);
           Ok (pop + residentCount tl))
         (seqZ 0 (City.size c)))
        (seqZ 0 (City.size c)) 0.

(** ** Writing to the tile object held at [tiles[x][y]] *)

(** The methods below mutate the tile object that [getTile(x, y)] returned.
    They only do so after the lookup gave a tile, so both coordinates are
    numbers there; the other case leaves the city alone. *)
Definition updateTileAt (x y : option Z) (f : Tile.t -> Tile.t) (c : City.t) : City.t :=
  match x, y with
  | Some x, Some y =>
      City.set_tiles (alter (alter f (Z.to_nat y)) (Z.to_nat x) (City.tiles c)) c
  | _, _ => c
  end.

(** [this.getTile(x, y)?.refreshView(this)] *)
Definition refreshViewAt (x y : option Z) (c : City.t) : Res City.t :=
  tl ← getTile c x y;
  match tl with
  | Some tl => Ok (City.emit (RefreshView (Tile.x tl) (Tile.y tl)) c)
  | None => Ok c
  end.

Definition shift (d : Z) (v : option Z) : option Z := (fun n => n + d) <$> v.

(** The four neighbour refreshes that end placeBuilding, bulldoze and destroy. *)
Definition refreshNeighbors (x y : option Z) (c : City.t) : Res City.t :=
  c ← refreshViewAt (shift (-1) x) y c;
  c ← refreshViewAt (shift 1 x) y c;
  c ← refreshViewAt x (shift (-1) y) c;
  refreshViewAt x (shift 1 y) c.

(** [tile.building.dispose(); tile.setBuilding(null); tile.refreshView(this)]
    and the neighbour refreshes, for the tile [tl] found at [(x, y)]. *)
Definition clearTile (x y : option Z) (tl : Tile.t) (b : Building.t) (c : City.t)
  : Res City.t :=
  let c := City.emit (Dispose b) c in
  let c := updateTileAt x y (Tile.setBuilding None) c in
  let c := City.emit (RefreshView (Tile.x tl) (Tile.y tl)) c in
  refreshNeighbors x y c.

(** ** bulldoze (lines 254-279) *)

Definition bulldoze (c : City.t) (x y : option Z) : Res City.t :=
  tl ← getTile c x y;
  match tl with
  | None => Throw TypeError c                 (* tile.building with tile === null *)
  | Some tl =>
      match Tile.building tl with
      | None => Ok c
      | Some b =>
          let c :=
            match Building.type b with
            | BuildingType.road =>
                let c := City.set_money (City.money c + 50) c in
                let c := City.emit (UpdateTile x y None) c in
                City.emit (Notify "moneyGive" "Estrada Destruida: +50$") c
            | BuildingType.residential =>
                let c := City.emit (Notify "moneyGive" "Edifício Destruido: +250$") c in
                City.set_money (City.money c + 250) c
            | BuildingType.other _ => c
            end in
          let c := City.emit (SoundEffect "bulldoze") c in
          clearTile x y tl b c
      end
  end.

(** ** destroy (lines 281-299) *)

Definition destroy (c : City.t) (x y : option Z) : Res City.t :=
  tl ← getTile c x y;
  match tl with
  | None => Throw TypeError c                 (* tile.building with tile === null *)
  | Some tl =>
      match Tile.building tl with
      | None => Ok c
      | Some b =>
          match Building.type b with
          | BuildingType.residential =>
              let c := City.emit (UpdateTile x y None) c in
              let c := City.emit (Notify "error" "Edifício Explodido!") c in
              let c := City.emit (Notify "error" "Residentes Não Sobreviveram!") c in
              let c := City.emit (SoundEffect "explosion") c in
              clearTile x y tl b c
          | _ => Ok c
          end
      end
  end.

(** ** placeBuilding (lines 220-247) *)

Section Placement.

(** [createBuilding(x, y, buildingType)] of buildings/buildingFactory.js,
    which is not part of the sources. *)
Variable createBuilding : option Z -> option Z -> BuildingType.t -> Building.t.

Definition placeBuilding (c : City.t) (x y : option Z) (buildingType : BuildingType.t)
  : Res City.t :=
  tl ← getTile c x y;
  match tl with
  | None => Ok c                              (* tile && ... is falsy *)
  | Some tl =>
      match Tile.building tl with
      | Some _ => Ok c
      | None =>
          let '(hasMoney, c) := hasMoneyForBuild c buildingType in
          if hasMoney then
            let c := City.emit (SoundEffect "building") c in
            let b := createBuilding x y buildingType in
            let c := updateTileAt x y (Tile.setBuilding (Some b)) c in
            let c := City.emit (RefreshView (Tile.x tl) (Tile.y tl)) c in
            c ← refreshNeighbors x y c;
            match Building.type b with
            | BuildingType.road =>
                let c := City.emit (UpdateTile x y (Some b)) c in
                Ok (City.emit (Notify "moneyTake" "Estrada Construida: -100$") c)
            | _ => Ok (City.emit (Notify "moneyTake" "Edifício Construido: -500$") c)
            end
          else Ok (City.emit (Notify "error" "Dinheiro Insuficiente.") c)
      end
  end.

End Placement.

(** ** getTileNeighbors (lines 356-373) *)

(** [if (cond) neighbors.push(this.getTile(x, y))] *)
Definition pushTile (c : City.t) (cond : bool) (x y : Z)
  (neighbors : list (option Tile.t)) : Res (list (option Tile.t)) :=
  if cond then tl ← getTile c (Some x) (Some y); Ok (neighbors ++ [tl])
  else Ok neighbors.

Definition getTileNeighbors (c : City.t) (x y : Z) : Res (list (option Tile.t)) :=
  neighbors ← pushTile c (x >? 0) (x - 1) y [];
  neighbors ← pushTile c (x <? City.size c - 1) (x + 1) y neighbors;
  neighbors ← pushTile c (y >? 0) x (y - 1) neighbors;
  pushTile c (y <? City.size c - 1) x (y + 1) neighbors.

(** ** findTile (lines 317-349) *)

(** The [while (tilesToSearch.length > 0)] loop.  The queue holds what
    [getTile] returned, so an entry can be [null].  Every turn of the loop
    spends one unit of [fuel]; [None] means the fuel ran out before the loop
    ended.  Beside the returned tile the loop reports [tested], the tiles
    that were handed to [filter], in call order. *)
Fixpoint searchLoop (fuel : nat) (c : City.t) (startTile : option Tile.t)
  (filter : Tile.t -> bool) (maxDistance : Z)
  (tilesToSearch : list (option Tile.t)) (visited : gset nat) (tested : list Tile.t)
  : option (Res (option Tile.t * list Tile.t)) :=
  match fuel with
  | O => None
  | S fuel =>
      match tilesToSearch with
      | [] => Some (Ok (None, tested))
      | None :: _ => Some (Throw TypeError c)             (* tile.id with tile === null *)
      | Some tile :: rest =>
          if decide (Tile.id tile ∈ visited)
          then searchLoop fuel c startTile filter maxDistance rest visited tested
          else
            let visited := {[Tile.id tile]} ∪ visited in
            match startTile with
            | None => Some (Throw TypeError c)            (* startTile.distanceTo *)
            | Some st =>
                if Tile.distanceTo st tile >? maxDistance
                then searchLoop fuel c startTile filter maxDistance rest visited tested
                else
                  match getTileNeighbors c (Tile.x tile) (Tile.y tile) with
                  | Throw e c' => Some (Throw e c')
                  | Ok neighbors =>
                      if filter tile
                      then Some (Ok (Some tile, tested ++ [tile]))
                      else searchLoop fuel c startTile filter maxDistance
                             (rest ++ neighbors) visited (tested ++ [tile])
                  end
            end
      end
  end.

(** Enough fuel for any search on [c]: see [searchLoop_fuel]. *)
Definition searchFuel (c : City.t) : nat :=
  5 * length (mjoin (City.tiles c)) + 2.

Definition findTile_traced (c : City.t) (start : option Z * option Z)
  (filter : Tile.t -> bool) (maxDistance : Z)
  : option (Res (option Tile.t * list Tile.t)) :=
  match getTile c start.1 start.2 with
  | Throw e c' => Some (Throw e c')
  | Ok startTile =>
      searchLoop (searchFuel c) c startTile filter maxDistance [startTile] ∅ []
  end.

(** What the method returns: the tile, or [null]. *)
Definition findTile (c : City.t) (start : option Z * option Z)
  (filter : Tile.t -> bool) (maxDistance : Z) : option (Res (option Tile.t)) :=
  r ← findTile_traced c start filter maxDistance;
  Some (p ← r; Ok p.1).

(** ** simulate (lines 138-197) *)

(** JavaScript truthiness of a numeric property that may be missing. *)
Definition truthy (v : option Z) : bool :=
  match v with
  | Some n => negb (n =? 0)
  | None => false
  end.

(** [v >= target]; a comparison with [undefined] is false. *)
Definition reaches (v : Z) (target : option Z) : bool :=
  match target with
  | Some n => v >=? n
  | None => false
  end.

(** Lines 166-178: the threshold test of one mission. *)
Definition checkMission (buildCount roadCount : Z) (c : City.t) (m : Mission.t)
  : Res Mission.t :=
  if truthy (Mission.citizens m) then
    p ← population c;
    Ok (if reaches p (Mission.citizens m) then Mission.set_done m else m)
  else if truthy (Mission.buildings m) then
    Ok (if reaches buildCount (Mission.buildings m) then Mission.set_done m else m)
  else if truthy (Mission.road m) then
    Ok (if reaches roadCount (Mission.road m) then Mission.set_done m else m)
  else Ok m.

(** Lines 164-183: the loop over [Object.keys(this.levels[this.level])].
    [seen] are the entries already handled, [todo] those still to come; the
    mission object is mutated in place, so the table of the city is rewritten
    at every turn.  The second component of the state is the local [counter]. *)
Fixpoint missionLoop (buildCount roadCount : Z) (seen todo : list (Z * Mission.t))
  (st : City.t * Z) : Res (City.t * Z) :=
  match todo with
  | [] => Ok st
  | (key, m) :: todo' =>
      let '(c, counter) := st in
      m ← checkMission buildCount roadCount c m;
      let c := City.set_levels
                 (<[City.level c := seen ++ (key, m) :: todo']> (City.levels c)) c in
      let st := if Mission.done m
                then (City.set_missionCounter (City.missionCounter c + 1) c, counter + 1)
                else (c, counter) in
      missionLoop buildCount roadCount (seen ++ [(key, m)]) todo' st
  end.

(** Lines 185-195. *)
Definition levelUp (counter : Z) (c : City.t) : City.t :=
  if counter =? 3 then
    if City.level c =? 1 then
      let c := City.set_level (City.level c + 1) c in
      let c := City.set_money (City.money c + 2500) c in
      City.emit (Notify "moneyGive" "Parabéns! Subiste de Nível: +2500$") c
    else if City.level c =? 2 then
      let c := City.emit (Notify "success" "Parabéns! Concluiste as Missões!") c in
      City.emit ToggleFinished c
    else c
  else c.

(** Lines 162-195: everything [simulate] does with the two tallies. *)
Definition evaluateMissions (buildCount roadCount : Z) (c : City.t) : Res City.t :=
  let c := City.set_missionCounter 0 c in
  match City.levels c !! City.level c with
  | None => Throw TypeError c                 (* Object.keys(undefined) *)
  | Some missions =>
      '(c, counter) ← missionLoop buildCount roadCount [] missions (c, 0);
      Ok (levelUp counter c)
  end.

Section Simulation.

(** [this.services]: each entry stands for [service.simulate(this)].  The
    services live in simService.js, which is not part of the sources. *)
Variable services : list (City.t -> City.t).

(** [tile.simulate(this)] of tile.js, which is not part of the sources. *)
Variable tileSimulate : Tile.t -> City.t -> City.t.

(** The state of the [while] loop: the city, [buildCount], [roadCount]. *)
Definition Tally : Type := City.t * Z * Z.

(** Lines 149-157: the body of the two [for] loops. *)
Definition scanTile (x y : Z) (st : Tally) : Res Tally :=
  let '(c, buildCount, roadCount) := st in
  tl ← tileAt c (Some x) (Some y);
  let '(buildCount, roadCount) :=
    match Tile.building tl with
    | Some building =>
        match Building.type building with
        | BuildingType.residential => (buildCount + 1, roadCount)
        | BuildingType.road => (buildCount, roadCount + 1)
        | BuildingType.other _ => (buildCount, roadCount)
        end
    | None => (buildCount, roadCount)
    end in
  tl ← tileAt c (Some x) (Some y);
  Ok (tileSimulate tl c, buildCount, roadCount).

(** Lines 147-159.  [this.size] is read when the scan starts: the size of
    the grid is fixed once the city is built. *)
Definition scanTiles (st : Tally) : Res Tally :=
  let size := City.size st.1.1 in
  foldM (fun x => foldM (scanTile x) (seqZ 0 size)) (seqZ 0 size) st.

(** Lines 143-159: one turn of the [while] loop. *)
Definition simulateStep (st : Tally) : Res Tally :=
  let '(c, buildCount, roadCount) := st in
  let c := fold_left (fun c service => service c) services c in
  scanTiles (c, buildCount, roadCount).

(** Lines 139-160: [while (count++ < steps)], that is [steps] turns. *)
Fixpoint simulateSteps (steps : nat) (st : Tally) : Res Tally :=
  match steps with
  | O => Ok st
  | S steps => st ← simulateStep st; simulateSteps steps st
  end.

Definition simulate (c : City.t) (steps : Z) : Res City.t :=
  '(c, buildCount, roadCount) ← simulateSteps (Z.to_nat steps) (c, 0, 0);
  c ← evaluateMissions buildCount roadCount c;
  Ok (City.set_simTime (City.simTime c + 1) c).

End Simulation.

(** ** The constructor (lines 56-98) *)

Definition initialLevels : gmap Z (list (Z * Mission.t)) :=
  <[1 := [(1, Mission.mk "Obtem 35 Residentes" (Some 35) None None false);
          (2, Mission.mk "5 Edifícios Construidos" None (Some 5) None false);
          (3, Mission.mk "Ter Pelo Menos 1 Rua" None None (Some 1) false)]]>
  (<[2 := [(1, Mission.mk "Obtem 75 Residentes" (Some 75) None None false);
           (2, Mission.mk "10 Edifícios Construidos" None (Some 10) None false);
           (3, Mission.mk "Ter Pelo Menos 5 Ruas" None None (Some 5) false)]]> ∅).

(** Modelled from the spec: [new Tile(x, y)] of tile.js, which is not part of
    the sources.  The "unique identity token" of the tile at [(x, y)] of a
    grid of [size] columns is [x * size + y]. *)
Definition newTile (size x y : Z) : Tile.t :=
  Tile.mk (Z.to_nat (x * size + y)) x y None.

(** [new City(size, money)]: every tile is created empty and its view is
    refreshed once.  The name, the scene groups and the vehicle graph are
    objects of the collaborators and have no field here. *)
Definition newCity (size money : Z) : City.t :=
  City.mk size 0
    ((fun x => (fun y => newTile size x y) <$> seqZ 0 size) <$> seqZ 0 size)
    1 0 initialLevels money
    (x ← seqZ 0 size; (fun y => RefreshView x y) <$> seqZ 0 size).

(** * Vocabulary of the properties *)

(** What the constructor establishes and no method of the class changes:
    [size] columns of [size] tiles, each tile knowing its own position. *)
Record wellFormed (c : City.t) : Prop := {
  wf_columns : length (City.tiles c) = Z.to_nat (City.size c);
  wf_rows : forall i column,
    City.tiles c !! i = Some column -> length column = Z.to_nat (City.size c);
  wf_coords : forall i j column tl,
    City.tiles c !! i = Some column -> column !! j = Some tl ->
    Tile.x tl = Z.of_nat i /\ Tile.y tl = Z.of_nat j
}.

(** [(x, y)] names a tile of the grid. *)
Definition inBounds (c : City.t) (x y : option Z) : Prop :=
  exists x' y', x = Some x' /\ y = Some y' /\
    0 <= x' < City.size c /\ 0 <= y' < City.size c.

(** [c'] is [c] with more calls in the trace and nothing else changed. *)
Definition onlyEmits (c c' : City.t) : Prop :=
  exists evs, c' = City.mk (City.size c) (City.simTime c) (City.tiles c) (City.level c)
                     (City.missionCounter c) (City.levels c) (City.money c)
                     (City.events c ++ evs).

Definition position (tl : Tile.t) : Z * Z := (Tile.x tl, Tile.y tl).

(** The positions stored in the tiles are the positions the tiles are at. *)
Definition wellFormedb (c : City.t) : bool :=
  bool_decide (fmap (M := list) (fmap (M := list) position) (City.tiles c)
               = (fun x => (fun y => (x, y)) <$> seqZ 0 (City.size c))
                   <$> seqZ 0 (City.size c)).

(** The building costs as the spec lists them: residential 500, road 100,
    and no cost for any other type. *)
Definition buildCost (ty : BuildingType.t) : option Z :=
  match ty with
  | BuildingType.residential => Some 500
  | BuildingType.road => Some 100
  | BuildingType.other _ => None
  end.

(** Sample cities for the worked inputs below. *)
Definition house (residents : Z) : Building.t :=
  Building.mk BuildingType.residential (Some residents).

Definition street : Building.t := Building.mk BuildingType.road None.

Definition withBuilding (x y : Z) (b : Building.t) (c : City.t) : City.t :=
  updateTileAt (Some x) (Some y) (Tile.setBuilding (Some b)) c.

(** A 2 x 2 city with a house at (0, 0) and a road at (0, 1). *)
Definition smallTown : City.t :=
  withBuilding 0 1 street (withBuilding 0 0 (house 4) (newCity 2 0)).

(** [tl] is one of the tile objects of the grid. *)
Definition inGrid (c : City.t) (tl : Tile.t) : Prop := tl ∈ mjoin (City.tiles c).

(** The identities a search on [c] can ever put in [visited]. *)
Definition gridIds (c : City.t) : gset nat :=
  list_to_set (Tile.id <$> mjoin (City.tiles c)).

(** What is left to do: five units for every identity not yet visited (a
    visit removes one queue entry and adds at most four), one per queue
    entry. *)
Definition potential (c : City.t) (tilesToSearch : list (option Tile.t))
  (visited : gset nat) : nat :=
  5 * size (gridIds c ∖ visited) + length tilesToSearch.

(** Every queue entry that is a tile is a tile of the grid. *)
Definition queueInGrid (c : City.t) (tilesToSearch : list (option Tile.t)) : Prop :=
  forall tl, Some tl ∈ tilesToSearch -> inGrid c tl.

(** Every queue entry is a tile of the grid (no [null] among them). *)
Definition allTiles (c : City.t) (tilesToSearch : list (option Tile.t)) : Prop :=
  Forall (fun o => exists tl, o = Some tl /\ inGrid c tl) tilesToSearch.

(** What holds of the tiles handed to [filter]. *)
Definition testedOk (c : City.t) (st : Tile.t) (maxDistance : Z)
  (visited : gset nat) (tested : list Tile.t) : Prop :=
  (forall t, t ∈ tested ->
     inGrid c t /\ Tile.distanceTo st t <= maxDistance /\ Tile.id t ∈ visited) /\
  NoDup (Tile.id <$> tested).

(** The test of one mission, once the population is known to be [p]. *)
Definition checked (p buildCount roadCount : Z) (m : Mission.t) : Mission.t :=
  if truthy (Mission.citizens m) then
    if reaches p (Mission.citizens m) then Mission.set_done m else m
  else if truthy (Mission.buildings m) then
    if reaches buildCount (Mission.buildings m) then Mission.set_done m else m
  else if truthy (Mission.road m) then
    if reaches roadCount (Mission.road m) then Mission.set_done m else m
  else m.

Definition checkedAll (p buildCount roadCount : Z) (ms : list (Z * Mission.t))
  : list (Z * Mission.t) :=
  (fun km => (km.1, checked p buildCount roadCount km.2)) <$> ms.

(** How many entries have their flag set. *)
Definition doneCount (ms : list (Z * Mission.t)) : Z :=
  Z.of_nat (length (List.filter (fun km => Mission.done km.2) ms)).

(** The missions [ms] are the missions [ms0] up to the flags. *)
Definition sameMissions (ms ms0 : list (Z * Mission.t)) : Prop :=
  Forall2 (fun km km0 =>
    km.1 = km0.1 /\
    Mission.mission km.2 = Mission.mission km0.2 /\
    Mission.citizens km.2 = Mission.citizens km0.2 /\
    Mission.buildings km.2 = Mission.buildings km0.2 /\
    Mission.road km.2 = Mission.road km0.2) ms ms0.

(** The mission table is the constructor's table up to the flags, and the
    level is one of its two levels. *)
Definition missionsOk (c : City.t) : Prop :=
  (forall l ms0, initialLevels !! l = Some ms0 ->
     exists ms, City.levels c !! l = Some ms /\ sameMissions ms ms0) /\
  (City.level c = 1 \/ City.level c = 2).

(** Mission [key] of level [l] has its flag set. *)
Definition missionDone (c : City.t) (l key : Z) : Prop :=
  exists ms m, City.levels c !! l = Some ms /\ (key, m) ∈ ms /\ Mission.done m = true.

(** What the hooks of the collaborators are trusted with: they may change
    what the tiles hold (and anything not named here), but they keep the grid
    well formed and do not touch the size, the clock, the level or the
    mission table. *)
Definition keepsFrame (hook : City.t -> City.t) : Prop :=
  forall c, wellFormed c ->
    wellFormed (hook c) /\ City.size (hook c) = City.size c /\
    City.simTime (hook c) = City.simTime c /\ City.level (hook c) = City.level c /\
    City.levels (hook c) = City.levels c.

(** The loop state [st] belongs to a run that started from [c0]. *)
Definition framed (c0 : City.t) (st : Tally) : Prop :=
  wellFormed st.1.1 /\ City.size st.1.1 = City.size c0 /\
  City.simTime st.1.1 = City.simTime c0 /\ City.level st.1.1 = City.level c0 /\
  City.levels st.1.1 = City.levels c0.

(** A tile hook that does nothing. *)
Definition idle (tl : Tile.t) (c : City.t) : City.t := c.

(** A tile hook that moves one resident into a house. *)
Definition moveIn (tl : Tile.t) (c : City.t) : City.t :=
  updateTileAt (Some (Tile.x tl)) (Some (Tile.y tl))
    (fun t => match Tile.building t with
              | Some (Building.mk BuildingType.residential (Some n)) =>
                  Tile.setBuilding (Some (house (n + 1))) t
              | _ => t
              end) c.

(** A 2 x 2 city with three houses and no road. *)
Definition threeHouses : City.t :=
  withBuilding 1 0 (house 1) (withBuilding 0 1 (house 1)
    (withBuilding 0 0 (house 1) (newCity 2 0))).

(** A 3 x 3 city with five houses of seven residents and one road. *)
Definition fullTown : City.t :=
  withBuilding 2 2 street (withBuilding 1 1 (house 7) (withBuilding 1 0 (house 7)
    (withBuilding 0 2 (house 7) (withBuilding 0 1 (house 7)
      (withBuilding 0 0 (house 7) (newCity 3 100)))))).

(** The flags of the missions of level [l], in key order. *)
Definition flags (c : City.t) (l : Z) : option (list bool) :=
  fmap (M := list) (fun km : Z * Mission.t => Mission.done km.2) <$> City.levels c !! l.

(** A sequence of calls [simulate(steps)], one per entry of [calls]. *)
Definition simulateMany (services : list (City.t -> City.t))
  (tileSimulate : Tile.t -> City.t -> City.t) (calls : list Z) (c : City.t)
  : Res City.t :=
  foldM (fun steps c => simulate services tileSimulate c steps) calls c.

(** The sum of [f] over a list. *)
Definition sumZ {A : Type} (f : A -> Z) (l : list A) : Z :=
  foldr (fun a acc => f a + acc) 0 l.

(** 1 for a tile that holds a residential building, 0 otherwise. *)
Definition isHouse (tl : Tile.t) : Z :=
  match Tile.building tl with
  | Some b => if bool_decide (Building.type b = BuildingType.residential) then 1 else 0
  | None => 0
  end.

(** 1 for a tile that holds a road, 0 otherwise. *)
Definition isRoad (tl : Tile.t) : Z :=
  match Tile.building tl with
  | Some b => if bool_decide (Building.type b = BuildingType.road) then 1 else 0
  | None => 0
  end.

(** A tile hook that leaves the grid as it is (it may do anything else). *)
Definition keepsGrid (hook : City.t -> City.t) : Prop :=
  forall c, City.size (hook c) = City.size c /\ City.tiles (hook c) = City.tiles c.

(** [c'] differs from [c] at most in the tile at [(x, y)], the treasury and
    the trace: the size, the clock, the level, the mission table and its
    counter are the same, and so is every other tile. *)
Definition sameElsewhere (x y : option Z) (c c' : City.t) : Prop :=
  City.size c' = City.size c /\ City.simTime c' = City.simTime c /\
  City.level c' = City.level c /\ City.levels c' = City.levels c /\
  City.missionCounter c' = City.missionCounter c /\
  forall x' y' r, (x', y') <> (x, y) ->
    getTile c x' y' = Ok r -> getTile c' x' y' = Ok r.

(** What bulldoze pays back: 50 for a road, 250 for a residential building,
    nothing for any other type (lines 259-266). *)
Definition refund (ty : BuildingType.t) : Z :=
  match ty with
  | BuildingType.road => 50
  | BuildingType.residential => 250
  | BuildingType.other _ => 0
  end.

(** [smallTown] with 130 in the treasury. *)
Definition fundedTown : City.t := City.set_money 130 smallTown.

(** A factory that builds what it is asked for, without residents. *)
Definition plainFactory (x y : option Z) (ty : BuildingType.t) : Building.t :=
  Building.mk ty None.

(** No two tiles of the grid share an identity. *)
Definition uniqueIds (c : City.t) : Prop := NoDup (Tile.id <$> mjoin (City.tiles c)).

(** The state of a search that has not found a match yet: every visited
    tile within the distance has been tested and failed the filter, every
    neighbour of a tested tile is visited or waits in the queue, and so does
    the start tile. *)
Definition searchInv (c : City.t) (st : Tile.t) (filter : Tile.t -> bool)
  (maxDistance : Z) (tilesToSearch : list (option Tile.t)) (visited : gset nat)
  (tested : list Tile.t) : Prop :=
  (forall t, inGrid c t -> Tile.id t ∈ visited ->
     Tile.distanceTo st t <= maxDistance -> t ∈ tested) /\
  (forall t, t ∈ tested -> filter t = false) /\
  (forall t n, t ∈ tested -> inGrid c n -> Tile.distanceTo t n = 1 ->
     Tile.id n ∈ visited \/ Some n ∈ tilesToSearch) /\
  (Tile.id st ∈ visited \/ Some st ∈ tilesToSearch) /\
  allTiles c tilesToSearch.

(** The missions of level 2 with every flag set. *)
Definition finishedMissions : list (Z * Mission.t) :=
  [(1, Mission.mk "Obtem 75 Residentes" (Some 75) None None true);
   (2, Mission.mk "10 Edifícios Construidos" None (Some 10) None true);
   (3, Mission.mk "Ter Pelo Menos 5 Ruas" None None (Some 5) true)].

(** [smallTown] at level 2 with the campaign completed. *)
Definition finishedTown : City.t :=
  City.set_level 2 (City.set_levels (<[2 := finishedMissions]> initialLevels) smallTown).

(** The order in which a search meets the tiles.  [k] is the distance of
    the layer being worked on: every queue entry not yet visited is at
    distance [k] or [k + 1], those at [k] before those at [k + 1]; every tile
    nearer than [k] (and within the limit) has been tested, every tile at
    distance [k] is visited or queued, and every tested tile is visited. *)
Definition layerInv (c : City.t) (st : Tile.t) (maxDistance k : Z)
  (tilesToSearch : list (option Tile.t)) (visited : gset nat)
  (tested : list Tile.t) : Prop :=
  (forall q, Some q ∈ tilesToSearch -> Tile.id q ∉ visited ->
     k <= Tile.distanceTo st q <= k + 1) /\
  (forall l1 q l2, tilesToSearch = l1 ++ Some q :: l2 -> Tile.id q ∉ visited ->
     Tile.distanceTo st q = k + 1 ->
     forall q', Some q' ∈ l2 -> Tile.id q' ∉ visited -> Tile.distanceTo st q' = k + 1) /\
  (forall t, inGrid c t -> Tile.distanceTo st t < k ->
     Tile.distanceTo st t <= maxDistance -> t ∈ tested) /\
  (forall t, inGrid c t -> Tile.distanceTo st t = k ->
     Tile.distanceTo st t <= maxDistance -> Tile.id t ∈ visited \/ Some t ∈ tilesToSearch) /\
  (forall t, t ∈ tested -> Tile.id t ∈ visited).

(** The calls to [vehicleGraph.updateTile] in a trace, in order. *)
Definition graphCalls (evs : list Event) : list Event :=
  List.filter (fun e => match e with UpdateTile _ _ _ => true | _ => false end) evs.

(** The targets of the three missions of a level, as the table of lines
    56-67 gives them: residents, residential buildings, roads. *)
Definition thresholds (l : Z) : Z * Z * Z :=
  if l =? 1 then (35, 5, 1) else (75, 10, 5).

(** [smallTown] after one call of simulate: the city has a road, so the call
    sets the flag of the road mission of level 1. *)
Definition roadDone : City.t :=
  match simulate [] idle smallTown 1 with
  | Ok c => c
  | Throw _ c => c
  end.

(** [roadDone] after the bulldozing of its only road: the flag of the road
    mission is set and the city has no road any more. *)
Definition roadLost : City.t :=
  match bulldoze roadDone (Some 0) (Some 1) with
  | Ok c => c
  | Throw _ c => c
  end.

(** * Properties *)

(** ** Outcomes *)

Lemma bind_Ok {A B} (a : A) (k : A -> Res B) : (Ok a ≫= k) = k a.
Proof. reflexivity. Qed.

Lemma bind_Throw {A B} e c (k : A -> Res B) : (Throw e c ≫= k) = Throw e c.
Proof. reflexivity. Qed.

Ltac res_simpl := repeat (rewrite ?bind_Ok, ?bind_Throw; simpl).

(** ** The grid invariant *)

Lemma onlyEmits_refl c : onlyEmits c c.
Proof. exists []. destruct c; simpl. by rewrite app_nil_r. Qed.

Lemma onlyEmits_trans c1 c2 c3 : onlyEmits c1 c2 -> onlyEmits c2 c3 -> onlyEmits c1 c3.
Proof.
  intros [e1 ->] [e2 ->]. exists (e1 ++ e2). simpl. by rewrite app_assoc.
Qed.

Lemma onlyEmits_emit e c : onlyEmits c (City.emit e c).
Proof. by exists [e]. Qed.

Lemma onlyEmits_wf c c' : onlyEmits c c' -> wellFormed c -> wellFormed c'.
Proof. intros [evs ->] [H1 H2 H3]. by split. Qed.

(** The invariant reads [size] and [tiles] and nothing else. *)
Lemma wellFormed_ext c c' :
  City.size c' = City.size c -> City.tiles c' = City.tiles c ->
  wellFormed c -> wellFormed c'.
Proof. intros Hs Ht [H1 H2 H3]. split; rewrite ?Hs, ?Ht; done. Qed.

Lemma getTile_undefined_x c y : getTile c None y = Ok None.
Proof. reflexivity. Qed.

Lemma getTile_undefined_y c x : getTile c x None = Ok None.
Proof. by destruct x. Qed.

Lemma getTile_outside c x y :
  x < 0 \/ y < 0 \/ City.size c <= x \/ City.size c <= y ->
  getTile c (Some x) (Some y) = Ok None.
Proof.
  intros H. unfold getTile.
  destruct (x <? 0) eqn:E1, (y <? 0) eqn:E2, (x >=? City.size c) eqn:E3,
    (y >=? City.size c) eqn:E4; simpl; try reflexivity; lia.
Qed.

Lemma getTile_not_inBounds c x y : ~ inBounds c x y -> getTile c x y = Ok None.
Proof.
  intros H. destruct x as [x|]; [|apply getTile_undefined_x].
  destruct y as [y|]; [|apply getTile_undefined_y].
  apply getTile_outside.
  destruct (decide (x < 0)); [by left|].
  destruct (decide (y < 0)); [by right; left|].
  destruct (decide (City.size c <= x)); [by right; right; left|].
  destruct (decide (City.size c <= y)); [by right; right; right|].
  exfalso. apply H. exists x, y. repeat split; lia.
Qed.

(** Whatever [getTile] returns is a tile of the grid. *)
Lemma getTile_elem c x y tl :
  getTile c x y = Ok (Some tl) -> tl ∈ mjoin (City.tiles c).
Proof.
  unfold getTile. destruct x as [x|], y as [y|]; try discriminate.
  destruct (_ || _); [discriminate|].
  destruct (City.tiles c !! Z.to_nat x) as [column|] eqn:Hc; [|discriminate].
  intros [= Hy]. apply list_elem_of_join. exists column. split.
  - eapply list_elem_of_lookup_2; eauto.
  - eapply list_elem_of_lookup_2; eauto.
Qed.

(** Inside the bounds the lookup finds the tile stored at that position. *)
Lemma getTile_inside c x y :
  wellFormed c -> 0 <= x < City.size c -> 0 <= y < City.size c ->
  exists column tl,
    City.tiles c !! Z.to_nat x = Some column /\ column !! Z.to_nat y = Some tl /\
    getTile c (Some x) (Some y) = Ok (Some tl) /\ Tile.x tl = x /\ Tile.y tl = y.
Proof.
  intros [H1 H2 H3] Hx Hy.
  destruct (lookup_lt_is_Some_2 (City.tiles c) (Z.to_nat x)) as [column Hc]; [lia|].
  destruct (lookup_lt_is_Some_2 column (Z.to_nat y)) as [tl Ht].
  { rewrite (H2 _ _ Hc). lia. }
  exists column, tl. repeat split; try done.
  - unfold getTile.
    destruct (x <? 0) eqn:E1, (y <? 0) eqn:E2, (x >=? City.size c) eqn:E3,
      (y >=? City.size c) eqn:E4; simpl; try lia.
    by rewrite Hc, Ht.
  - destruct (H3 _ _ _ _ Hc Ht) as [-> _]. lia.
  - destruct (H3 _ _ _ _ Hc Ht) as [_ ->]. lia.
Qed.

(** On a well-formed grid the lookup never throws. *)
Lemma getTile_total c x y : wellFormed c -> exists r, getTile c x y = Ok r.
Proof.
  intros Hwf. destruct x as [x|]; [|by eexists].
  destruct y as [y|]; [|by eexists].
  destruct (decide (0 <= x < City.size c /\ 0 <= y < City.size c)) as [[Hx Hy]|Hn].
  - destruct (getTile_inside c x y Hwf Hx Hy) as (? & tl & _ & _ & -> & _). by eexists.
  - rewrite getTile_outside; [by eexists|lia].
Qed.

(** ** Tile updates and view refreshes *)

Lemma updateTileAt_wf x y f c :
  (forall tl, Tile.x (f tl) = Tile.x tl /\ Tile.y (f tl) = Tile.y tl) ->
  wellFormed c -> wellFormed (updateTileAt x y f c).
Proof.
  intros Hf [H1 H2 H3]. destruct x as [x|], y as [y|]; try by split.
  unfold updateTileAt. split; simpl.
  - by rewrite length_alter.
  - intros i column Hi.
    destruct (decide (i = Z.to_nat x)) as [->|Hne].
    + rewrite list_lookup_alter_eq in Hi.
      destruct (City.tiles c !! Z.to_nat x) as [col|] eqn:Hc; [|discriminate].
      injection Hi as <-. rewrite length_alter. eauto.
    + rewrite list_lookup_alter_ne in Hi by done. eauto.
  - intros i j column tl Hi Hj.
    destruct (decide (i = Z.to_nat x)) as [->|Hne].
    + rewrite list_lookup_alter_eq in Hi.
      destruct (City.tiles c !! Z.to_nat x) as [col|] eqn:Hc; [|discriminate].
      injection Hi as <-.
      destruct (decide (j = Z.to_nat y)) as [->|Hnj].
      * rewrite list_lookup_alter_eq in Hj.
        destruct (col !! Z.to_nat y) as [t0|] eqn:Ht; [|discriminate].
        injection Hj as <-. destruct (Hf t0) as [-> ->]. eauto.
      * rewrite list_lookup_alter_ne in Hj by done. eauto.
    + rewrite list_lookup_alter_ne in Hi by done. eauto.
Qed.

(** After the update the lookup at the same place finds the updated tile. *)
Lemma getTile_updateTileAt c x y f tl :
  getTile c x y = Ok (Some tl) ->
  getTile (updateTileAt x y f c) x y = Ok (Some (f tl)).
Proof.
  unfold getTile, updateTileAt. destruct x as [x|], y as [y|]; try discriminate.
  simpl. destruct (_ || _); [discriminate|].
  destruct (City.tiles c !! Z.to_nat x) as [column|] eqn:Hc; [|discriminate].
  intros [= Hy]. rewrite list_lookup_alter_eq, Hc. simpl.
  by rewrite list_lookup_alter_eq, Hy.
Qed.

Lemma refreshViewAt_ok x y c :
  wellFormed c -> exists c', refreshViewAt x y c = Ok c' /\ onlyEmits c c'.
Proof.
  intros Hwf. unfold refreshViewAt.
  destruct (getTile_total c x y Hwf) as [[tl|] ->]; res_simpl; eexists; split; eauto.
  - apply onlyEmits_emit.
  - apply onlyEmits_refl.
Qed.

Lemma refreshNeighbors_ok x y c :
  wellFormed c -> exists c', refreshNeighbors x y c = Ok c' /\ onlyEmits c c'.
Proof.
  intros Hwf. unfold refreshNeighbors.
  destruct (refreshViewAt_ok (shift (-1) x) y c Hwf) as (c1 & -> & E1). res_simpl.
  pose proof (onlyEmits_wf _ _ E1 Hwf) as W1.
  destruct (refreshViewAt_ok (shift 1 x) y c1 W1) as (c2 & -> & E2). res_simpl.
  pose proof (onlyEmits_wf _ _ E2 W1) as W2.
  destruct (refreshViewAt_ok x (shift (-1) y) c2 W2) as (c3 & -> & E3). res_simpl.
  pose proof (onlyEmits_wf _ _ E3 W2) as W3.
  destruct (refreshViewAt_ok x (shift 1 y) c3 W3) as (c4 & -> & E4).
  exists c4. split; [done|]. eauto using onlyEmits_trans.
Qed.

Lemma onlyEmits_fields c c' :
  onlyEmits c c' ->
  City.size c' = City.size c /\ City.tiles c' = City.tiles c /\
  City.money c' = City.money c /\ City.simTime c' = City.simTime c /\
  City.level c' = City.level c /\ City.levels c' = City.levels c /\
  City.missionCounter c' = City.missionCounter c.
Proof. by intros [evs ->]. Qed.

Lemma updateTileAt_fields x y f c :
  City.size (updateTileAt x y f c) = City.size c /\
  City.money (updateTileAt x y f c) = City.money c /\
  City.simTime (updateTileAt x y f c) = City.simTime c /\
  City.level (updateTileAt x y f c) = City.level c /\
  City.levels (updateTileAt x y f c) = City.levels c /\
  City.missionCounter (updateTileAt x y f c) = City.missionCounter c.
Proof. unfold updateTileAt. by destruct x, y. Qed.

Lemma updateTileAt_tiles_ext x y f c c' :
  City.tiles c' = City.tiles c ->
  City.tiles (updateTileAt x y f c') = City.tiles (updateTileAt x y f c).
Proof. intros H. unfold updateTileAt. destruct x, y; simpl; by rewrite ?H. Qed.

(** The lookup reads [size] and [tiles] and nothing else. *)
Lemma getTile_ext c c' x y r :
  City.size c' = City.size c -> City.tiles c' = City.tiles c ->
  getTile c x y = Ok r -> getTile c' x y = Ok r.
Proof.
  intros Hs Ht. unfold getTile. rewrite Hs, Ht.
  destruct x, y; try done. destruct (_ || _); [done|].
  by destruct (City.tiles c !! _).
Qed.

(** What the common tail of bulldoze and destroy leaves behind: the tile is
    empty, the trace is longer, nothing else has changed. *)
Lemma clearTile_ok x y tl b c :
  wellFormed c -> getTile c x y = Ok (Some tl) ->
  exists c', clearTile x y tl b c = Ok c' /\
    City.tiles c' = City.tiles (updateTileAt x y (Tile.setBuilding None) c) /\
    getTile c' x y = Ok (Some (Tile.setBuilding None tl)) /\
    City.money c' = City.money c /\ City.size c' = City.size c /\
    City.simTime c' = City.simTime c /\ City.level c' = City.level c /\
    City.levels c' = City.levels c /\ City.missionCounter c' = City.missionCounter c /\
    wellFormed c'.
Proof.
  intros Hwf Hget. unfold clearTile.
  set (c0 := City.emit (Dispose b) c).
  set (c1 := updateTileAt x y (Tile.setBuilding None) c0).
  set (c2 := City.emit (RefreshView _ _) c1).
  assert (W1 : wellFormed c1).
  { apply updateTileAt_wf; [done|].
    by apply (onlyEmits_wf _ _ (onlyEmits_emit _ _)). }
  assert (W2 : wellFormed c2) by apply (onlyEmits_wf _ _ (onlyEmits_emit _ _) W1).
  destruct (refreshNeighbors_ok x y c2 W2) as (c3 & -> & E3).
  assert (E13 : onlyEmits c1 c3) by (eapply onlyEmits_trans; [apply onlyEmits_emit|done]).
  destruct (onlyEmits_fields _ _ E13) as (S3 & T3 & M3 & St3 & L3 & Ls3 & Mc3).
  destruct (updateTileAt_fields x y (Tile.setBuilding None) c0)
    as (S1 & M1 & St1 & L1 & Ls1 & Mc1).
  exists c3. split; [done|].
  split; [rewrite T3; by apply updateTileAt_tiles_ext|].
  split.
  { apply (getTile_ext c1); [done..|]. apply getTile_updateTileAt.
    by apply (getTile_ext c). }
  split; [by rewrite M3; unfold c1; rewrite M1|].
  split; [by rewrite S3; unfold c1; rewrite S1|].
  split; [by rewrite St3; unfold c1; rewrite St1|].
  split; [by rewrite L3; unfold c1; rewrite L1|].
  split; [by rewrite Ls3; unfold c1; rewrite Ls1|].
  split; [by rewrite Mc3; unfold c1; rewrite Mc1|].
  by apply (onlyEmits_wf c1).
Qed.

(** ** A decidable form of the grid invariant, and the constructor *)

Lemma wellFormedb_true c : wellFormedb c = true -> wellFormed c.
Proof.
  unfold wellFormedb. intros H%bool_decide_eq_true.
  assert (Hcol : forall i column, City.tiles c !! i = Some column ->
            position <$> column = (fun y => (Z.of_nat i, y)) <$> seqZ 0 (City.size c)).
  { intros i column Hi.
    assert (Hl : (fmap (M := list) position <$> City.tiles c) !! i
                 = Some (position <$> column)) by (by rewrite list_lookup_fmap, Hi).
    rewrite H, list_lookup_fmap in Hl.
    destruct (seqZ 0 (City.size c) !! i) as [x|] eqn:Hx; [|discriminate].
    apply lookup_seqZ in Hx as [-> _]. simpl in Hl. injection Hl as <-.
    by rewrite Z.add_0_l. }
  split.
  - apply (f_equal length) in H. by rewrite !length_fmap, length_seqZ in H.
  - intros i column Hi. apply Hcol in Hi. apply (f_equal length) in Hi.
    by rewrite !length_fmap, length_seqZ in Hi.
  - intros i j column tl Hi Hj. apply Hcol in Hi.
    assert (Hl : (position <$> column) !! j = Some (position tl))
      by (by rewrite list_lookup_fmap, Hj).
    rewrite Hi, list_lookup_fmap in Hl.
    destruct (seqZ 0 (City.size c) !! j) as [y|] eqn:Hy; [|discriminate].
    apply lookup_seqZ in Hy as [-> _]. simpl in Hl.
    unfold position in Hl. injection Hl as Hx Hy. split; lia.
Qed.

(** The constructor establishes the invariant. *)
Lemma newCity_wellFormed size money : wellFormed (newCity size money).
Proof.
  apply wellFormedb_true, bool_decide_eq_true. simpl.
  rewrite <- list_fmap_compose. apply list_fmap_ext. intros _ x _. simpl.
  rewrite <- list_fmap_compose. by apply list_fmap_ext.
Qed.

(** ** The economy: hasMoneyForBuild, bulldoze, destroy *)

(** C5: hasMoneyForBuild answers true exactly when the type has a scheduled
    cost (500 for residential, 100 for road) that the treasury covers; it then
    deducts exactly that cost and changes nothing else.  In every other case,
    a type outside the schedule included, it answers false and the city is
    unchanged. *)
Theorem hasMoneyForBuild_debits_scheduled_cost (c : City.t) (ty : BuildingType.t) :
  ((hasMoneyForBuild c ty).1 = true <->
     exists cost, buildCost ty = Some cost /\ cost <= City.money c) /\
  (forall cost, buildCost ty = Some cost -> cost <= City.money c ->
     hasMoneyForBuild c ty = (true, City.set_money (City.money c - cost) c)) /\
  ((hasMoneyForBuild c ty).1 = false -> (hasMoneyForBuild c ty).2 = c) /\
  (buildCost ty = None -> hasMoneyForBuild c ty = (false, c)).
Proof.
  unfold hasMoneyForBuild.
  destruct ty as [| |name]; simpl.
  - destruct (City.money c >=? 500) eqn:E; simpl.
    + repeat split; try done.
      * intros _. exists 500. split; [done|lia].
      * by intros cost [= <-] _.
    + repeat split; try done.
      * intros (cost & [= <-] & Hc). lia.
      * intros cost [= <-] Hc. lia.
  - destruct (City.money c >=? 100) eqn:E; simpl.
    + repeat split; try done.
      * intros _. exists 100. split; [done|lia].
      * by intros cost [= <-] _.
    + repeat split; try done.
      * intros (cost & [= <-] & Hc). lia.
      * intros cost [= <-] Hc. lia.
  - repeat split; try done. by intros (cost & ? & _).
Qed.

Lemma bulldoze_outside c x y :
  ~ inBounds c x y -> bulldoze c x y = Throw TypeError c.
Proof. intros H. unfold bulldoze. by rewrite getTile_not_inBounds. Qed.

Lemma destroy_outside c x y :
  ~ inBounds c x y -> destroy c x y = Throw TypeError c.
Proof. intros H. unfold destroy. by rewrite getTile_not_inBounds. Qed.

(** placeBuilding tests [tile && ...] and so does return on the same input. *)
Lemma placeBuilding_outside createBuilding c x y ty :
  ~ inBounds c x y -> placeBuilding createBuilding c x y ty = Ok c.
Proof. intros H. unfold placeBuilding. by rewrite getTile_not_inBounds. Qed.

(** C3: outside the grid, or with an undefined coordinate, bulldoze and
    destroy do not return: [tile] is null and [tile.building] throws a
    TypeError.  The city is as it was (no mutation, no notification), but the
    call is not a silent no-op.  On a 6 x 6 city: *)
Theorem bulldoze_destroy_outside_throw :
  let c := newCity 6 1000 in
  bulldoze c (Some (-1)) (Some 0) = Throw TypeError c /\
  bulldoze c (Some 0) (Some 6) = Throw TypeError c /\
  bulldoze c None (Some 0) = Throw TypeError c /\
  destroy c (Some 6) (Some 0) = Throw TypeError c /\
  destroy c (Some 0) (Some (-1)) = Throw TypeError c /\
  destroy c (Some 0) None = Throw TypeError c.
Proof.
  intros c.
  assert (H : forall x y, (x < 0 \/ y < 0 \/ 6 <= x \/ 6 <= y) ->
            ~ inBounds c (Some x) (Some y)).
  { intros x y Hxy (x' & y' & [= <-] & [= <-] & Hx & Hy). simpl in *. lia. }
  repeat apply conj.
  - apply bulldoze_outside, H. lia.
  - apply bulldoze_outside, H. lia.
  - apply bulldoze_outside. by intros (x' & y' & ? & _).
  - apply destroy_outside, H. lia.
  - apply destroy_outside, H. lia.
  - apply destroy_outside. by intros (x' & y' & _ & ? & _).
Qed.

(** C6: on a parcel of the grid, bulldoze credits exactly 50 for a road and
    exactly 250 for a residential building, and empties the parcel; on an
    empty parcel it changes nothing. *)
Theorem bulldoze_refunds (c : City.t) (x y : option Z) :
  wellFormed c -> inBounds c x y ->
  exists tl, getTile c x y = Ok (Some tl) /\
    (forall b, Tile.building tl = Some b -> Building.type b = BuildingType.road ->
       exists c', bulldoze c x y = Ok c' /\
         City.money c' = City.money c + 50 /\
         getTile c' x y = Ok (Some (Tile.setBuilding None tl))) /\
    (forall b, Tile.building tl = Some b -> Building.type b = BuildingType.residential ->
       exists c', bulldoze c x y = Ok c' /\
         City.money c' = City.money c + 250 /\
         getTile c' x y = Ok (Some (Tile.setBuilding None tl))) /\
    (Tile.building tl = None -> bulldoze c x y = Ok c).
Proof.
  intros Hwf (x' & y' & -> & -> & Hx & Hy).
  destruct (getTile_inside c x' y' Hwf Hx Hy) as (column & tl & _ & _ & Hget & _).
  exists tl. split; [done|]. unfold bulldoze. rewrite Hget. res_simpl.
  repeat apply conj.
  - intros b -> ->.
    set (c1 := City.emit (SoundEffect "bulldoze") _).
    assert (E : onlyEmits (City.set_money (City.money c + 50) c) c1).
    { eapply onlyEmits_trans; [apply onlyEmits_emit|].
      eapply onlyEmits_trans; apply onlyEmits_emit. }
    destruct (onlyEmits_fields _ _ E) as (S1 & T1 & M1 & _).
    destruct (clearTile_ok (Some x') (Some y') tl b c1) as (c' & -> & _ & G & M & _).
    { apply (onlyEmits_wf _ _ E). by destruct Hwf. }
    { by apply (getTile_ext c). }
    exists c'. split; [done|]. split; [|done]. by rewrite M, M1.
  - intros b -> ->.
    set (c1 := City.emit (SoundEffect "bulldoze") _).
    assert (W : wellFormed c1) by (by destruct Hwf).
    destruct (clearTile_ok (Some x') (Some y') tl b c1) as (c' & -> & _ & G & M & _);
      [done|by apply (getTile_ext c)|].
    exists c'. split; [done|]. split; [|done]. by rewrite M.
  - by intros ->.
Qed.

Lemma smallTown_wellFormed : wellFormed smallTown.
Proof. apply wellFormedb_true. by vm_compute. Qed.

Lemma bulldoze_refunds_witness :
  wellFormed smallTown /\ inBounds smallTown (Some 0) (Some 1) /\
  exists tl, getTile smallTown (Some 0) (Some 1) = Ok (Some tl) /\
    (forall b, Tile.building tl = Some b -> Building.type b = BuildingType.road ->
       exists c', bulldoze smallTown (Some 0) (Some 1) = Ok c' /\
         City.money c' = City.money smallTown + 50 /\
         getTile c' (Some 0) (Some 1) = Ok (Some (Tile.setBuilding None tl))) /\
    (forall b, Tile.building tl = Some b -> Building.type b = BuildingType.residential ->
       exists c', bulldoze smallTown (Some 0) (Some 1) = Ok c' /\
         City.money c' = City.money smallTown + 250 /\
         getTile c' (Some 0) (Some 1) = Ok (Some (Tile.setBuilding None tl))) /\
    (Tile.building tl = None -> bulldoze smallTown (Some 0) (Some 1) = Ok smallTown).
Proof.
  assert (W : wellFormed smallTown) by (apply wellFormedb_true; by vm_compute).
  assert (B : inBounds smallTown (Some 0) (Some 1)).
  { exists 0, 1. repeat split; vm_compute; congruence. }
  split; [exact W|]. split; [exact B|].
  exact (bulldoze_refunds smallTown (Some 0) (Some 1) W B).
Defined.

(** C7: on a parcel of the grid, destroy leaves a road (and any other
    non-residential building) and the whole city as they are; on a residential
    building it empties the parcel and the treasury does not move. *)
Theorem destroy_only_residential (c : City.t) (x y : option Z) :
  wellFormed c -> inBounds c x y ->
  exists tl, getTile c x y = Ok (Some tl) /\
    (forall b, Tile.building tl = Some b ->
       Building.type b <> BuildingType.residential -> destroy c x y = Ok c) /\
    (forall b, Tile.building tl = Some b -> Building.type b = BuildingType.residential ->
       exists c', destroy c x y = Ok c' /\
         City.money c' = City.money c /\
         getTile c' x y = Ok (Some (Tile.setBuilding None tl))).
Proof.
  intros Hwf (x' & y' & -> & -> & Hx & Hy).
  destruct (getTile_inside c x' y' Hwf Hx Hy) as (column & tl & _ & _ & Hget & _).
  exists tl. split; [done|]. unfold destroy. rewrite Hget. res_simpl.
  split.
  - intros b -> Hty. by destruct (Building.type b).
  - intros b -> ->.
    set (c1 := City.emit (SoundEffect "explosion") _).
    assert (E : onlyEmits c c1).
    { eapply onlyEmits_trans; [apply onlyEmits_emit|].
      eapply onlyEmits_trans; [apply onlyEmits_emit|].
      eapply onlyEmits_trans; apply onlyEmits_emit. }
    destruct (onlyEmits_fields _ _ E) as (S1 & T1 & M1 & _).
    destruct (clearTile_ok (Some x') (Some y') tl b c1) as (c' & -> & _ & G & M & _).
    { by apply (onlyEmits_wf _ _ E). }
    { by apply (getTile_ext c). }
    exists c'. split; [done|]. split; [|done]. by rewrite M, M1.
Qed.

Lemma destroy_only_residential_witness :
  wellFormed smallTown /\ inBounds smallTown (Some 0) (Some 0) /\
  exists tl, getTile smallTown (Some 0) (Some 0) = Ok (Some tl) /\
    (forall b, Tile.building tl = Some b ->
       Building.type b <> BuildingType.residential ->
       destroy smallTown (Some 0) (Some 0) = Ok smallTown) /\
    (forall b, Tile.building tl = Some b -> Building.type b = BuildingType.residential ->
       exists c', destroy smallTown (Some 0) (Some 0) = Ok c' /\
         City.money c' = City.money smallTown /\
         getTile c' (Some 0) (Some 0) = Ok (Some (Tile.setBuilding None tl))).
Proof.
  assert (W : wellFormed smallTown) by (apply wellFormedb_true; by vm_compute).
  assert (B : inBounds smallTown (Some 0) (Some 0)).
  { exists 0, 0. repeat split; vm_compute; congruence. }
  split; [exact W|]. split; [exact B|].
  exact (destroy_only_residential smallTown (Some 0) (Some 0) W B).
Defined.

(** ** findTile: the search ends *)

Lemma pushTile_spec c cond x y ns ns' :
  pushTile c cond x y ns = Ok ns' ->
  exists extra, ns' = ns ++ extra /\ (length extra <= 1)%nat /\
    forall tl, Some tl ∈ extra -> inGrid c tl.
Proof.
  unfold pushTile. destruct cond.
  - destruct (getTile c (Some x) (Some y)) as [r|] eqn:G; [|discriminate].
    res_simpl. intros [= <-]. exists [r]. repeat split; [simpl; lia|].
    intros tl H%list_elem_of_singleton. subst r. by eapply getTile_elem.
  - intros [= <-]. exists []. rewrite app_nil_r. repeat split; [simpl; lia|].
    intros tl H. by apply not_elem_of_nil in H.
Qed.

Lemma getTileNeighbors_spec c x y ns :
  getTileNeighbors c x y = Ok ns ->
  (length ns <= 4)%nat /\ queueInGrid c ns.
Proof.
  unfold getTileNeighbors.
  destruct (pushTile c (x >? 0) (x - 1) y []) as [n1|] eqn:P1; [|discriminate].
  res_simpl.
  destruct (pushTile c (x <? City.size c - 1) (x + 1) y n1) as [n2|] eqn:P2;
    [|discriminate].
  res_simpl.
  destruct (pushTile c (y >? 0) x (y - 1) n2) as [n3|] eqn:P3; [|discriminate].
  res_simpl. intros P4.
  apply pushTile_spec in P1 as (e1 & -> & L1 & G1).
  apply pushTile_spec in P2 as (e2 & -> & L2 & G2).
  apply pushTile_spec in P3 as (e3 & -> & L3 & G3).
  apply pushTile_spec in P4 as (e4 & -> & L4 & G4).
  split.
  - rewrite !length_app. simpl. lia.
  - intros tl. rewrite !elem_of_app. intros [[[[H|H]|H]|H]|H]; eauto.
    by apply not_elem_of_nil in H.
Qed.

Lemma inGrid_gridIds c tl : inGrid c tl -> Tile.id tl ∈ gridIds c.
Proof.
  intros H. unfold gridIds. apply elem_of_list_to_set.
  by apply list_elem_of_fmap_2.
Qed.

Lemma size_list_to_set_le (l : list nat) :
  (size (list_to_set (C := gset nat) l) <= length l)%nat.
Proof.
  induction l as [|a l IH].
  - rewrite list_to_set_nil, size_empty. simpl. lia.
  - rewrite list_to_set_cons, size_union_alt, size_singleton.
    assert (Hs : (size (list_to_set (C := gset nat) l ∖ {[a]})
                  <= size (list_to_set (C := gset nat) l))%nat)
      by (apply subseteq_size, subseteq_difference_l; reflexivity).
    simpl. lia.
Qed.

Lemma visit_decreases (ids visited : gset nat) (i : nat) :
  i ∈ ids -> i ∉ visited ->
  (size (ids ∖ ({[i]} ∪ visited)) < size (ids ∖ visited))%nat.
Proof.
  intros Hi Hv. apply subset_size. split.
  - intros j [Hj Hn]%elem_of_difference. apply elem_of_difference. split; [done|].
    intros Hjv. apply Hn, elem_of_union. by right.
  - intros H. assert (Hd : i ∈ ids ∖ ({[i]} ∪ visited)).
    { apply H, elem_of_difference. by split. }
    apply elem_of_difference in Hd as [_ Hd]. apply Hd, elem_of_union. left.
    by apply elem_of_singleton.
Qed.

(** With more fuel than the potential the loop ends: in a value or in an
    exception, never by running dry. *)
Lemma searchLoop_fuel c startTile filter maxDistance :
  forall fuel tilesToSearch visited tested,
    queueInGrid c tilesToSearch ->
    (potential c tilesToSearch visited < fuel)%nat ->
    is_Some (searchLoop fuel c startTile filter maxDistance tilesToSearch visited tested).
Proof.
  induction fuel as [|fuel IH]; intros queue visited tested Hq Hp; [lia|].
  simpl. destruct queue as [|[tile|] rest]; [by eexists| |by eexists].
  assert (Hrest : queueInGrid c rest).
  { intros tl Htl. apply Hq. by right. }
  assert (Htile : inGrid c tile) by (apply Hq; left).
  unfold potential in Hp. simpl in Hp.
  destruct (decide (Tile.id tile ∈ visited)) as [Hin|Hnin].
  { apply IH; [done|]. unfold potential. lia. }
  pose proof (visit_decreases (gridIds c) visited (Tile.id tile)
                (inGrid_gridIds _ _ Htile) Hnin) as Hdec.
  destruct startTile as [st|]; [|by eexists].
  destruct (_ >? _).
  { apply IH; [done|]. unfold potential. lia. }
  destruct (getTileNeighbors c (Tile.x tile) (Tile.y tile)) as [ns|] eqn:Hn;
    [|by eexists].
  destruct (filter tile); [by eexists|].
  apply getTileNeighbors_spec in Hn as [Hlen Hns].
  apply IH.
  - intros tl. rewrite elem_of_app. intros [H|H]; eauto.
  - unfold potential. rewrite length_app. lia.
Qed.

(** More fuel does not change an answer. *)
Lemma searchLoop_more_fuel c startTile filter maxDistance :
  forall fuel fuel' tilesToSearch visited tested r,
    searchLoop fuel c startTile filter maxDistance tilesToSearch visited tested = Some r ->
    (fuel <= fuel')%nat ->
    searchLoop fuel' c startTile filter maxDistance tilesToSearch visited tested = Some r.
Proof.
  induction fuel as [|fuel IH]; intros fuel' queue visited tested r H Hle; [discriminate|].
  destruct fuel' as [|fuel']; [lia|]. simpl in *.
  destruct queue as [|[tile|] rest]; try done.
  destruct (decide (Tile.id tile ∈ visited)); [apply IH; [done|lia]|].
  destruct startTile as [st|]; [|done].
  destruct (_ >? _); [apply IH; [done|lia]|].
  destruct (getTileNeighbors c (Tile.x tile) (Tile.y tile)); [|done].
  destruct (filter tile); [done|]. apply IH; [done|lia].
Qed.

Lemma searchFuel_enough c startTile :
  (potential c [startTile] ∅ < searchFuel c)%nat.
Proof.
  unfold potential, searchFuel, gridIds. simpl.
  pose proof (size_list_to_set_le (Tile.id <$> mjoin (City.tiles c))) as H.
  rewrite length_fmap in H.
  assert (Hs : (size (list_to_set (C := gset nat) (Tile.id <$> mjoin (City.tiles c)) ∖ ∅)
                <= size (list_to_set (C := gset nat) (Tile.id <$> mjoin (City.tiles c))))%nat)
    by (apply subseteq_size, subseteq_difference_l; reflexivity).
  lia.
Qed.

(** findTile always ends, whatever the city, start, filter and distance. *)
Lemma findTile_traced_ends c start filter maxDistance :
  is_Some (findTile_traced c start filter maxDistance).
Proof.
  unfold findTile_traced.
  destruct (getTile c start.1 start.2) as [startTile|] eqn:G; [|by eexists].
  apply searchLoop_fuel; [|apply searchFuel_enough].
  intros tl H%list_elem_of_singleton. subst startTile. by eapply getTile_elem.
Qed.

(** ** findTile: what the search touches *)

Lemma allTiles_queueInGrid c q : allTiles c q -> queueInGrid c q.
Proof.
  intros H tl Htl. unfold allTiles in H. rewrite Forall_forall in H.
  destruct (H _ Htl) as (tl' & Heq & Hg). by injection Heq as ->.
Qed.

(** A tile of a well-formed grid sits inside the bounds, at its own position. *)
Lemma inGrid_getTile c tl :
  wellFormed c -> inGrid c tl ->
  0 <= Tile.x tl < City.size c /\ 0 <= Tile.y tl < City.size c /\
  getTile c (Some (Tile.x tl)) (Some (Tile.y tl)) = Ok (Some tl).
Proof.
  intros Hwf Hin. pose proof Hwf as [H1 H2 H3].
  apply list_elem_of_join in Hin as (column & Htl & Hcol).
  apply list_elem_of_lookup_1 in Hcol as [i Hi].
  apply list_elem_of_lookup_1 in Htl as [j Hj].
  destruct (H3 _ _ _ _ Hi Hj) as [Hx Hy].
  pose proof (lookup_lt_Some _ _ _ Hi) as Li.
  pose proof (lookup_lt_Some _ _ _ Hj) as Lj.
  rewrite (H2 _ _ Hi) in Lj.
  assert (Bx : 0 <= Tile.x tl < City.size c) by lia.
  assert (By : 0 <= Tile.y tl < City.size c) by lia.
  split; [done|]. split; [done|].
  destruct (getTile_inside c _ _ Hwf Bx By) as (col' & tl' & Hc' & Ht' & -> & _).
  rewrite Hx, Nat2Z.id in Hc'. rewrite Hy, Nat2Z.id in Ht'. congruence.
Qed.

Lemma pushTile_allTiles c cond x y ns :
  wellFormed c ->
  (cond = true -> 0 <= x < City.size c /\ 0 <= y < City.size c) ->
  allTiles c ns ->
  exists ns', pushTile c cond x y ns = Ok ns' /\ allTiles c ns'.
Proof.
  intros Hwf Hc Hns. unfold pushTile. destruct cond; [|by exists ns].
  destruct (Hc eq_refl) as [Hx Hy].
  destruct (getTile_inside c x y Hwf Hx Hy) as (col & tl & _ & _ & G & _).
  rewrite G. res_simpl. eexists. split; [done|].
  apply Forall_app. split; [done|]. apply Forall_singleton.
  exists tl. split; [done|]. by eapply getTile_elem.
Qed.

(** On a well-formed grid the neighbours of a tile are tiles. *)
Lemma getTileNeighbors_allTiles c tl :
  wellFormed c -> inGrid c tl ->
  exists ns, getTileNeighbors c (Tile.x tl) (Tile.y tl) = Ok ns /\ allTiles c ns.
Proof.
  intros Hwf Hin. destruct (inGrid_getTile c tl Hwf Hin) as (Hx & Hy & _).
  unfold getTileNeighbors.
  destruct (pushTile_allTiles c (Tile.x tl >? 0) (Tile.x tl - 1) (Tile.y tl) [] Hwf)
    as (n1 & -> & A1); [lia|by apply Forall_nil|]. res_simpl.
  destruct (pushTile_allTiles c (Tile.x tl <? City.size c - 1) (Tile.x tl + 1)
              (Tile.y tl) n1 Hwf) as (n2 & -> & A2); [lia|done|]. res_simpl.
  destruct (pushTile_allTiles c (Tile.y tl >? 0) (Tile.x tl) (Tile.y tl - 1) n2 Hwf)
    as (n3 & -> & A3); [lia|done|]. res_simpl.
  apply pushTile_allTiles; [done|lia|done].
Qed.

(** On a well-formed grid a search that starts from a tile does not throw. *)
Lemma searchLoop_no_throw c st filter maxDistance :
  wellFormed c ->
  forall fuel tilesToSearch visited tested e c',
    allTiles c tilesToSearch ->
    searchLoop fuel c (Some st) filter maxDistance tilesToSearch visited tested
    <> Some (Throw e c').
Proof.
  intros Hwf. induction fuel as [|fuel IH]; intros queue visited tested e c' Hq; [done|].
  simpl. destruct queue as [|o rest]; [done|].
  apply Forall_cons in Hq as [(tile & -> & Htile) Hrest].
  destruct (decide (Tile.id tile ∈ visited)); [by apply IH|].
  destruct (_ >? _); [by apply IH|].
  destruct (getTileNeighbors_allTiles c tile Hwf Htile) as (ns & -> & Hns).
  destruct (filter tile); [done|]. apply IH. by apply Forall_app.
Qed.

(** The tiles handed to [filter] are tiles of the grid within [maxDistance]
    of the start, each handed over once; a returned tile is one of them and
    satisfies [filter]. *)
Lemma searchLoop_result c st filter maxDistance :
  forall fuel tilesToSearch visited tested r tested',
    searchLoop fuel c (Some st) filter maxDistance tilesToSearch visited tested
      = Some (Ok (r, tested')) ->
    queueInGrid c tilesToSearch ->
    testedOk c st maxDistance visited tested ->
    (forall t, t ∈ tested' -> inGrid c t /\ Tile.distanceTo st t <= maxDistance) /\
    NoDup (Tile.id <$> tested') /\
    (forall t, r = Some t -> filter t = true /\ t ∈ tested').
Proof.
  induction fuel as [|fuel IH]; intros queue visited tested r tested' H Hq Ht;
    [discriminate|].
  simpl in H. destruct queue as [|[tile|] rest]; [|  |discriminate].
  { injection H as <- <-. destruct Ht as [Ht Hnd]. repeat apply conj; [|done|done].
    intros t Hin. destruct (Ht t Hin) as (? & ? & _). done. }
  assert (Hrest : queueInGrid c rest) by (intros tl Htl; apply Hq; by right).
  assert (Htile : inGrid c tile) by (apply Hq; left).
  destruct (decide (Tile.id tile ∈ visited)) as [Hin|Hnin]; [by eapply IH|].
  assert (Hgrow : testedOk c st maxDistance ({[Tile.id tile]} ∪ visited) tested).
  { destruct Ht as [Ht Hnd]. split; [|done]. intros t Hin.
    destruct (Ht t Hin) as (? & ? & ?). repeat split; [done..|].
    apply elem_of_union. by right. }
  destruct (Tile.distanceTo st tile >? maxDistance) eqn:Hd; [by eapply IH|].
  assert (Hadd : testedOk c st maxDistance ({[Tile.id tile]} ∪ visited) (tested ++ [tile])).
  { destruct Hgrow as [Hg Hnd]. split.
    - intros t [Hin| ->%list_elem_of_singleton]%elem_of_app; [by apply Hg|].
      repeat split; [done|lia|]. apply elem_of_union. left. by apply elem_of_singleton.
    - rewrite fmap_app. apply NoDup_app. split; [done|]. split; [|apply NoDup_singleton].
      intros i Hi ->%list_elem_of_singleton. apply Hnin.
      apply list_elem_of_fmap in Hi as (t & Hid & Hin). destruct Ht as [Ht _].
      destruct (Ht t Hin) as (_ & _ & Hv). by rewrite Hid. }
  destruct (getTileNeighbors c (Tile.x tile) (Tile.y tile)) as [ns|] eqn:Hn;
    [|discriminate].
  destruct (filter tile) eqn:Hf.
  - injection H as <- <-. destruct Hadd as [Ha Hnd]. repeat apply conj; [|done|].
    + intros t Hin. destruct (Ha t Hin) as (? & ? & _). done.
    + intros t [= <-]. split; [done|]. apply elem_of_app. right. by left.
  - eapply IH; [exact H| |done].
    apply getTileNeighbors_spec in Hn as [_ Hns].
    intros tl. rewrite elem_of_app. intros [?|?]; eauto.
Qed.

(** From a start inside the bounds the search returns, and what it tested
    and returned is as [searchLoop_result] says. *)
Lemma findTile_traced_ok c start filter maxDistance :
  wellFormed c -> inBounds c start.1 start.2 ->
  exists st r tested,
    getTile c start.1 start.2 = Ok (Some st) /\ inGrid c st /\
    findTile_traced c start filter maxDistance = Some (Ok (r, tested)) /\
    (forall fuel, (searchFuel c <= fuel)%nat ->
       searchLoop fuel c (Some st) filter maxDistance [Some st] ∅ []
       = Some (Ok (r, tested))) /\
    (forall t, t ∈ tested -> inGrid c t /\ Tile.distanceTo st t <= maxDistance) /\
    NoDup (Tile.id <$> tested) /\
    (forall t, r = Some t -> filter t = true /\ t ∈ tested).
Proof.
  intros Hwf (x & y & Hx & Hy & Bx & By).
  destruct (getTile_inside c x y Hwf Bx By) as (col & st & _ & _ & G & _).
  rewrite <- Hx, <- Hy in G.
  assert (Hst : inGrid c st) by (by eapply getTile_elem).
  assert (Hq : allTiles c [Some st]).
  { apply Forall_singleton. by exists st. }
  destruct (searchLoop_fuel c (Some st) filter maxDistance (searchFuel c) [Some st] ∅ [])
    as [res Hres]; [by apply allTiles_queueInGrid|apply searchFuel_enough|].
  destruct res as [[r tested]|e c'].
  2: { exfalso. by eapply searchLoop_no_throw. }
  exists st, r, tested. split; [done|]. split; [done|].
  split; [unfold findTile_traced; by rewrite G|].
  split; [intros fuel Hf; by eapply searchLoop_more_fuel|].
  eapply searchLoop_result; [exact Hres|by apply allTiles_queueInGrid|].
  split; [|apply NoDup_nil_2]. intros t Ht. by apply not_elem_of_nil in Ht.
Qed.

(** C10: on a well-formed grid, findTile from a start inside the bounds ends
    with a tile of the grid or with null: the tiles it enqueues are tiles of
    the grid, each identity is admitted once, and more fuel than [searchFuel]
    changes nothing.  From a start outside the bounds it throws: the start
    tile is null and findTile reads [tile.id] of it. *)
Theorem findTile_inBounds_start_terminates (c : City.t) (start : option Z * option Z)
  (filter : Tile.t -> bool) (maxDistance : Z) :
  wellFormed c ->
  (inBounds c start.1 start.2 ->
     exists st r tested,
       getTile c start.1 start.2 = Ok (Some st) /\
       findTile_traced c start filter maxDistance = Some (Ok (r, tested)) /\
       findTile c start filter maxDistance = Some (Ok r) /\
       (forall fuel, (searchFuel c <= fuel)%nat ->
          searchLoop fuel c (Some st) filter maxDistance [Some st] ∅ []
          = Some (Ok (r, tested))) /\
       (forall t, r = Some t -> inGrid c t /\ filter t = true) /\
       (forall t, t ∈ tested -> inGrid c t) /\
       NoDup (Tile.id <$> tested) /\
       (forall tl, inGrid c tl ->
          exists ns, getTileNeighbors c (Tile.x tl) (Tile.y tl) = Ok ns /\
                     allTiles c ns)) /\
  (~ inBounds c start.1 start.2 ->
     findTile c start filter maxDistance = Some (Throw TypeError c)).
Proof.
  intros Hwf. split.
  - intros Hb.
    destruct (findTile_traced_ok c start filter maxDistance Hwf Hb)
      as (st & r & tested & G & Hst & F & Hfuel & Ht & Hnd & Hr).
    exists st, r, tested. split; [done|]. split; [done|].
    split; [unfold findTile; by rewrite F|]. split; [done|].
    split.
    { intros t Hrt. destruct (Hr t Hrt) as [Hf Hin]. split; [|done].
      by destruct (Ht t Hin). }
    split; [intros t Hin; by destruct (Ht t Hin)|]. split; [done|].
    intros tl Hin. by apply getTileNeighbors_allTiles.
  - intros Hb. unfold findTile, findTile_traced.
    rewrite (getTile_not_inBounds _ _ _ Hb).
    replace (searchFuel c) with (S (searchFuel c - 1)) by (unfold searchFuel; lia).
    reflexivity.
Qed.

Lemma findTile_inBounds_start_terminates_witness :
  wellFormed smallTown /\
  (inBounds smallTown (Some 1) (Some 1) ->
     exists st r tested,
       getTile smallTown (Some 1) (Some 1) = Ok (Some st) /\
       findTile_traced smallTown (Some 1, Some 1)
         (fun t => bool_decide (Tile.building t = Some street)) 2
         = Some (Ok (r, tested)) /\
       findTile smallTown (Some 1, Some 1)
         (fun t => bool_decide (Tile.building t = Some street)) 2 = Some (Ok r) /\
       (forall fuel, (searchFuel smallTown <= fuel)%nat ->
          searchLoop fuel smallTown (Some st)
            (fun t => bool_decide (Tile.building t = Some street)) 2 [Some st] ∅ []
          = Some (Ok (r, tested))) /\
       (forall t, r = Some t ->
          inGrid smallTown t /\ bool_decide (Tile.building t = Some street) = true) /\
       (forall t, t ∈ tested -> inGrid smallTown t) /\
       NoDup (Tile.id <$> tested) /\
       (forall tl, inGrid smallTown tl ->
          exists ns, getTileNeighbors smallTown (Tile.x tl) (Tile.y tl) = Ok ns /\
                     allTiles smallTown ns)) /\
  (~ inBounds smallTown (Some 1) (Some 1) ->
     findTile smallTown (Some 1, Some 1)
       (fun t => bool_decide (Tile.building t = Some street)) 2
     = Some (Throw TypeError smallTown)).
Proof.
  assert (W : wellFormed smallTown) by (apply wellFormedb_true; by vm_compute).
  split; [exact W|].
  exact (findTile_inBounds_start_terminates smallTown (Some 1, Some 1)
           (fun t => bool_decide (Tile.building t = Some street)) 2 W).
Defined.

(** ** Loops *)

Lemma foldM_ext_Ok {A S : Type} (f g : A -> S -> Res S) l s r :
  (forall a s s', f a s = Ok s' -> g a s = Ok s') ->
  foldM f l s = Ok r -> foldM g l s = Ok r.
Proof.
  intros Hfg. revert s. induction l as [|a l IH]; intros s; simpl; [done|].
  destruct (f a s) as [s'|] eqn:E; [|discriminate].
  rewrite (Hfg _ _ _ E). res_simpl. apply IH.
Qed.

Lemma foldM_invariant {A S : Type} (I : S -> Prop) (body : A -> S -> Res S) l s :
  (forall a s, a ∈ l -> I s -> exists s', body a s = Ok s' /\ I s') ->
  I s -> exists s', foldM body l s = Ok s' /\ I s'.
Proof.
  revert s. induction l as [|a l IH]; intros s Hbody Hs; simpl; [by exists s|].
  destruct (Hbody a s) as (s1 & -> & H1); [by left|done|]. res_simpl.
  apply IH; [|done]. intros a' s' Hin. apply Hbody. by right.
Qed.

(** ** population *)

Lemma tileAt_ext c c' x y tl :
  City.size c' = City.size c -> City.tiles c' = City.tiles c ->
  tileAt c x y = Ok tl -> tileAt c' x y = Ok tl.
Proof.
  intros Hs Ht. unfold tileAt.
  destruct (getTile c x y) as [[t|]|] eqn:G; try discriminate.
  rewrite (getTile_ext c c' x y _ Hs Ht G). by res_simpl.
Qed.

Lemma tileAt_inside c x y :
  wellFormed c -> 0 <= x < City.size c -> 0 <= y < City.size c ->
  exists tl, tileAt c (Some x) (Some y) = Ok tl /\
             getTile c (Some x) (Some y) = Ok (Some tl).
Proof.
  intros Hwf Hx Hy.
  destruct (getTile_inside c x y Hwf Hx Hy) as (col & tl & _ & _ & G & _).
  exists tl. split; [|done]. unfold tileAt. by rewrite G.
Qed.

(** The getter reads [size] and [tiles] and nothing else. *)
Lemma population_ext c c' p :
  City.size c' = City.size c -> City.tiles c' = City.tiles c ->
  population c = Ok p -> population c' = Ok p.
Proof.
  intros Hs Ht. unfold population. rewrite Hs.
  apply foldM_ext_Ok. intros x s s'. apply foldM_ext_Ok. intros y q q'.
  destruct (tileAt c (Some x) (Some y)) as [tl|] eqn:E; [|discriminate].
  by rewrite (tileAt_ext c c' _ _ _ Hs Ht E).
Qed.

Lemma population_total c : wellFormed c -> exists p, population c = Ok p.
Proof.
  intros Hwf. unfold population.
  destruct (foldM_invariant (fun _ => True)
              (fun x => foldM (fun y pop =>
                 tl ← tileAt c (Some x) (Some y); Ok (pop + residentCount tl))
                 (seqZ 0 (City.size c)))
              (seqZ 0 (City.size c)) 0) as (p & Hp & _); [|done|by exists p].
  intros x s Hx%elem_of_seqZ _.
  apply foldM_invariant; [|done].
  intros y q Hy%elem_of_seqZ _.
  destruct (tileAt_inside c x y Hwf) as (tl & -> & _); [lia..|].
  res_simpl. by eexists.
Qed.

(** ** Mission evaluation *)

Lemma checkMission_checked buildCount roadCount c p m :
  population c = Ok p ->
  checkMission buildCount roadCount c m = Ok (checked p buildCount roadCount m).
Proof.
  intros Hp. unfold checkMission, checked. rewrite Hp. res_simpl.
  by repeat destruct (truthy _).
Qed.

Lemma checked_done p buildCount roadCount m :
  Mission.done m = true -> Mission.done (checked p buildCount roadCount m) = true.
Proof.
  intros H. unfold checked.
  repeat (destruct (truthy _); [by destruct (reaches _ _)|]). done.
Qed.

Lemma doneCount_cons km ms :
  doneCount (km :: ms) = (if Mission.done km.2 then 1 else 0) + doneCount ms.
Proof.
  unfold doneCount. simpl. destruct (Mission.done km.2); simpl; lia.
Qed.

(** The loop is a map over the missions of the level: it rewrites the table
    entry of the level, adds the number of set flags to both counters, and
    leaves the rest of the city alone. *)
Lemma missionLoop_checked buildCount roadCount p :
  forall todo seen c counter,
    population c = Ok p ->
    City.levels c !! City.level c = Some (seen ++ todo) ->
    exists c',
      missionLoop buildCount roadCount seen todo (c, counter)
        = Ok (c', counter + doneCount (checkedAll p buildCount roadCount todo)) /\
      City.levels c'
        = <[City.level c := seen ++ checkedAll p buildCount roadCount todo]> (City.levels c) /\
      City.missionCounter c'
        = City.missionCounter c + doneCount (checkedAll p buildCount roadCount todo) /\
      City.level c' = City.level c /\ City.money c' = City.money c /\
      City.simTime c' = City.simTime c /\ City.size c' = City.size c /\
      City.tiles c' = City.tiles c /\ City.events c' = City.events c.
Proof.
  induction todo as [|[key m] todo IH]; intros seen c counter Hp Hl.
  - exists c. simpl. unfold doneCount. simpl. rewrite !Z.add_0_r.
    repeat apply conj; try done. by rewrite insert_id.
  - simpl. rewrite (checkMission_checked _ _ _ _ _ Hp). res_simpl.
    set (m' := checked p buildCount roadCount m).
    set (c1 := City.set_levels _ c).
    assert (Hl1 : forall c2, City.levels c2 = City.levels c1 ->
              City.level c2 = City.level c ->
              City.levels c2 !! City.level c2 = Some ((seen ++ [(key, m')]) ++ todo)).
    { intros c2 -> ->. unfold c1. simpl. rewrite lookup_insert_eq.
      by rewrite <- app_assoc. }
    assert (Hfin : forall c2,
              City.levels c2 = City.levels c1 -> City.level c2 = City.level c ->
              <[City.level c2 := (seen ++ [(key, m')])
                                 ++ checkedAll p buildCount roadCount todo]> (City.levels c2)
              = <[City.level c := seen ++ (key, m')
                                 :: checkedAll p buildCount roadCount todo]> (City.levels c)).
    { intros c2 -> ->. unfold c1. simpl. rewrite insert_insert_eq.
      by rewrite <- app_assoc. }
    rewrite doneCount_cons. simpl. fold m'. destruct (Mission.done m') eqn:Hd.
    + destruct (IH (seen ++ [(key, m')])
                  (City.set_missionCounter (City.missionCounter c + 1) c1) (counter + 1))
        as (c' & -> & Hlev & Hmc & Hlv & Hmo & Hst & Hsz & Hti & Hev).
      { by apply (population_ext c). }
      { by apply Hl1. }
      exists c'. split; [f_equal; f_equal; lia|].
      split; [rewrite Hlev; by apply Hfin|].
      split; [rewrite Hmc; simpl; lia|]. done.
    + destruct (IH (seen ++ [(key, m')]) c1 counter)
        as (c' & -> & Hlev & Hmc & Hlv & Hmo & Hst & Hsz & Hti & Hev).
      { by apply (population_ext c). }
      { by apply Hl1. }
      exists c'. split; [f_equal; f_equal; lia|].
      split; [rewrite Hlev; by apply Hfin|].
      split; [rewrite Hmc; simpl; lia|]. done.
Qed.

Lemma levelUp_frame counter c :
  City.simTime (levelUp counter c) = City.simTime c /\
  City.size (levelUp counter c) = City.size c /\
  City.tiles (levelUp counter c) = City.tiles c /\
  City.levels (levelUp counter c) = City.levels c /\
  City.missionCounter (levelUp counter c) = City.missionCounter c.
Proof.
  unfold levelUp. destruct (counter =? 3); [|done].
  destruct (City.level c =? 1); [done|]. by destruct (City.level c =? 2).
Qed.

(** The level only ever goes from 1 to 2, and the 2500 come with that step. *)
Lemma levelUp_level counter c :
  (counter = 3 /\ City.level c = 1 /\
   City.level (levelUp counter c) = 2 /\
   City.money (levelUp counter c) = City.money c + 2500) \/
  (~ (counter = 3 /\ City.level c = 1) /\
   City.level (levelUp counter c) = City.level c /\
   City.money (levelUp counter c) = City.money c).
Proof.
  unfold levelUp. destruct (counter =? 3) eqn:E3; [|right; repeat split; lia].
  destruct (City.level c =? 1) eqn:E1.
  - left. simpl. repeat split; lia.
  - right. destruct (City.level c =? 2); repeat split; simpl; lia.
Qed.

(** What lines 162-195 do to a city whose population is [p] and whose level
    has the missions [ms]. *)
Lemma evaluateMissions_checked buildCount roadCount c p ms :
  population c = Ok p ->
  City.levels c !! City.level c = Some ms ->
  exists c1,
    evaluateMissions buildCount roadCount c
      = Ok (levelUp (doneCount (checkedAll p buildCount roadCount ms)) c1) /\
    City.levels c1
      = <[City.level c := checkedAll p buildCount roadCount ms]> (City.levels c) /\
    City.missionCounter c1 = doneCount (checkedAll p buildCount roadCount ms) /\
    City.level c1 = City.level c /\ City.money c1 = City.money c /\
    City.simTime c1 = City.simTime c /\ City.size c1 = City.size c /\
    City.tiles c1 = City.tiles c /\ City.events c1 = City.events c.
Proof.
  intros Hp Hl. unfold evaluateMissions. simpl. rewrite Hl.
  destruct (missionLoop_checked buildCount roadCount p ms []
              (City.set_missionCounter 0 c) 0)
    as (c1 & -> & Hlev & Hmc & Hrest); [by apply (population_ext c)|done|].
  res_simpl. exists c1. split; [done|]. split; [done|]. split; [|done].
  rewrite Hmc. simpl. lia.
Qed.

Lemma checkedAll_sameMissions p buildCount roadCount ms ms0 :
  sameMissions ms ms0 -> sameMissions (checkedAll p buildCount roadCount ms) ms0.
Proof.
  unfold sameMissions, checkedAll. intros H.
  apply Forall2_fmap_l. eapply Forall2_impl; [exact H|].
  intros [k m] [k0 m0]. simpl. intros (? & ? & ? & ? & ?).
  unfold checked.
  repeat (destruct (truthy _); [by destruct (reaches _ _)|]). done.
Qed.

Lemma checkedAll_done p buildCount roadCount ms key m :
  (key, m) ∈ ms -> Mission.done m = true ->
  exists m', (key, m') ∈ checkedAll p buildCount roadCount ms /\ Mission.done m' = true.
Proof.
  intros Hin Hd. exists (checked p buildCount roadCount m). split.
  - unfold checkedAll.
    by apply (list_elem_of_fmap_2
                (fun km : Z * Mission.t => (km.1, checked p buildCount roadCount km.2))
                ms (key, m)).
  - by apply checked_done.
Qed.

Section SimulationProperties.

Variable services : list (City.t -> City.t).
Variable tileSimulate : Tile.t -> City.t -> City.t.

Hypothesis services_frame : Forall keepsFrame services.
Hypothesis tileSimulate_frame : forall tl, keepsFrame (tileSimulate tl).

Lemma scanTile_framed c0 x y st :
  0 <= x < City.size c0 -> 0 <= y < City.size c0 -> framed c0 st ->
  exists st', scanTile tileSimulate x y st = Ok st' /\ framed c0 st'.
Proof.
  destruct st as [[c bc] rc]. intros Hx Hy (Hwf & Hs & Ht & Hl & Hls). simpl in *.
  destruct (tileAt_inside c x y Hwf) as (tl & E & _); [lia..|].
  unfold scanTile. rewrite E. res_simpl.
  destruct (tileSimulate_frame tl c Hwf) as (W & S1 & T1 & L1 & Ls1).
  destruct (Tile.building tl) as [b|]; [destruct (Building.type b)|];
    res_simpl; eexists; (split; [done|]); unfold framed; simpl;
    (split; [exact W|]); (split; [congruence|]); (split; [congruence|]);
    split; congruence.
Qed.

Lemma scanTiles_framed c0 st :
  framed c0 st -> exists st', scanTiles tileSimulate st = Ok st' /\ framed c0 st'.
Proof.
  intros Hst. unfold scanTiles.
  assert (Hs : City.size st.1.1 = City.size c0) by (by destruct Hst as (_ & ? & _)).
  rewrite Hs. apply foldM_invariant; [|done].
  intros x s Hx%elem_of_seqZ Hfr. apply foldM_invariant; [|done].
  intros y s' Hy%elem_of_seqZ Hfr'. apply scanTile_framed; [lia..|done].
Qed.

Lemma hooks_framed c0 (hooks : list (City.t -> City.t)) buildCount roadCount :
  Forall keepsFrame hooks ->
  forall c, framed c0 (c, buildCount, roadCount) ->
    framed c0 (fold_left (fun c service => service c) hooks c, buildCount, roadCount).
Proof.
  induction 1 as [|hook hooks Hh Hhs IH]; intros c Hc; simpl; [done|].
  apply IH. destruct Hc as (Hwf & Hs & Ht & Hl & Hls). simpl in *.
  destruct (Hh c Hwf) as (W & S1 & T1 & L1 & Ls1).
  unfold framed; simpl. split; [exact W|]. split; [congruence|].
  split; [congruence|]. split; congruence.
Qed.

Lemma simulateStep_framed c0 st :
  framed c0 st ->
  exists st', simulateStep services tileSimulate st = Ok st' /\ framed c0 st'.
Proof.
  destruct st as [[c bc] rc]. intros Hst. unfold simulateStep.
  apply scanTiles_framed.
  by apply hooks_framed.
Qed.

Lemma simulateSteps_framed c0 steps :
  forall st, framed c0 st ->
    exists st', simulateSteps services tileSimulate steps st = Ok st' /\ framed c0 st'.
Proof.
  induction steps as [|steps IH]; intros st Hst; simpl; [by exists st|].
  destruct (simulateStep_framed c0 st Hst) as (st1 & -> & H1). res_simpl.
  by apply IH.
Qed.

(** One call of simulate on a well-formed city with a sound mission table:
    it returns, the invariants hold again, the clock has moved by one, and
    no flag that was set has been cleared. *)
Lemma simulate_ok c steps :
  wellFormed c -> missionsOk c ->
  exists c', simulate services tileSimulate c steps = Ok c' /\
    wellFormed c' /\ missionsOk c' /\
    City.simTime c' = City.simTime c + 1 /\
    (forall l key, missionDone c l key -> missionDone c' l key).
Proof.
  intros Hwf [Htab Hlev]. unfold simulate.
  destruct (simulateSteps_framed c (Z.to_nat steps) (c, 0, 0))
    as ([[c1 bc] rc] & -> & (W1 & S1 & T1 & L1 & Ls1)); [by split|].
  simpl in *. res_simpl.
  destruct (population_total c1 W1) as [p Hp].
  assert (Hms : exists ms ms0, City.levels c1 !! City.level c1 = Some ms
                 /\ initialLevels !! City.level c1 = Some ms0 /\ sameMissions ms ms0).
  { rewrite L1, Ls1. destruct Hlev as [-> | ->].
    - destruct (Htab 1 _ eq_refl) as (ms & ? & ?). by eexists _, _.
    - destruct (Htab 2 _ eq_refl) as (ms & ? & ?). by eexists _, _. }
  destruct Hms as (ms & ms0 & Hl & Hl0 & Hsame).
  destruct (evaluateMissions_checked bc rc c1 p ms Hp Hl)
    as (c2 & -> & Hls2 & _ & Hlv2 & _ & Ht2 & Hs2 & Hti2 & _).
  res_simpl. eexists. split; [done|].
  destruct (levelUp_frame (doneCount (checkedAll p bc rc ms)) c2)
    as (Ft & Fs & Fti & Fls & _).
  split; [|split; [|split]].
  - apply (wellFormed_ext c1); [simpl; congruence|simpl; congruence|done].
  - split; simpl.
    + intros l ms1 Hl1. rewrite Fls, Hls2.
      destruct (decide (l = City.level c1)) as [->|Hne].
      * rewrite lookup_insert_eq. eexists. split; [done|].
        apply checkedAll_sameMissions. congruence.
      * rewrite lookup_insert_ne by done. rewrite Ls1. by apply Htab.
    + destruct (levelUp_level (doneCount (checkedAll p bc rc ms)) c2)
        as [(_ & _ & -> & _)|(_ & -> & _)]; [by right|]. congruence.
  - simpl. rewrite Ft, Ht2, T1. done.
  - intros l key (ms1 & m & Hl1 & Hin & Hd). unfold missionDone. simpl.
    rewrite Fls, Hls2. destruct (decide (l = City.level c1)) as [->|Hne].
    + rewrite lookup_insert_eq. rewrite <- Ls1, Hl in Hl1. injection Hl1 as <-.
      destruct (checkedAll_done p bc rc ms key m Hin Hd) as (m' & Hin' & Hd').
      by eexists _, m'.
    + rewrite lookup_insert_ne by done. rewrite Ls1. by eexists _, m.
Qed.

End SimulationProperties.

(** ** Sample hooks and cities *)

Lemma idle_keepsFrame tl : keepsFrame (idle tl).
Proof. by intros c Hwf. Qed.

Lemma moveIn_keepsFrame tl : keepsFrame (moveIn tl).
Proof.
  intros c Hwf. unfold moveIn. split.
  - apply updateTileAt_wf; [|done].
    intros t. destruct (Tile.building t) as [[[| |?] [n|]]|]; done.
  - pose proof (updateTileAt_fields (Some (Tile.x tl)) (Some (Tile.y tl))
      (fun t => match Tile.building t with
                | Some (Building.mk BuildingType.residential (Some n)) =>
                    Tile.setBuilding (Some (house (n + 1))) t
                | _ => t
                end) c) as (? & _ & ? & ? & ? & _).
    done.
Qed.

Lemma sameMissions_refl ms : sameMissions ms ms.
Proof. unfold sameMissions. apply Forall_Forall2_diag, Forall_forall. done. Qed.

(** The constructor's table is sound. *)
Lemma initial_missionsOk c :
  City.levels c = initialLevels -> City.level c = 1 -> missionsOk c.
Proof.
  intros Hl Hv. split; [|by left]. intros l ms0 H. rewrite Hl.
  exists ms0. split; [done|apply sameMissions_refl].
Qed.

(** ** The mission engine *)

(** C1 (the code differs): [buildCount] and [roadCount] are set to zero
    before the [while] loop and never again, so they add up over the steps of
    one call.  With three houses, one scan counts 3; [simulate(2)] hands 6 to
    the mission test and marks "5 Edifícios Construidos" as done, which
    [simulate(1)] on the same city does not. *)
Theorem tallies_accumulate_across_steps :
  scanTiles idle (threeHouses, 0, 0) = Ok (threeHouses, 3, 0) /\
  simulateSteps [] idle 2 (threeHouses, 0, 0) = Ok (threeHouses, 6, 0) /\
  (exists c', simulate [] idle threeHouses 1 = Ok c' /\
              flags c' 1 = Some [false; false; false]) /\
  (exists c', simulate [] idle threeHouses 2 = Ok c' /\
              flags c' 1 = Some [false; true; false]).
Proof.
  split; [by vm_compute|]. split; [by vm_compute|].
  split; eexists; (split; [vm_compute; reflexivity|by vm_compute]).
Qed.

(** C2, as the claim states it, fails: two steps move the clock by one. *)
Lemma simTime_two_steps_counterexample :
  exists c', simulate [] idle smallTown 2 = Ok c' /\
    City.simTime c' = City.simTime smallTown + 1 /\
    City.simTime c' <> City.simTime smallTown + 2.
Proof.
  eexists. split; [vm_compute; reflexivity|]. split; [by vm_compute|].
  vm_compute. discriminate.
Qed.

Section MissionEngine.

Variable services : list (City.t -> City.t).
Variable tileSimulate : Tile.t -> City.t -> City.t.

(** C2 (amended): every call of simulate returns with the clock advanced by
    exactly one, whatever the number of steps. *)
Theorem simulate_advances_clock_by_one (c : City.t) (steps : Z) :
  Forall keepsFrame services -> (forall tl, keepsFrame (tileSimulate tl)) ->
  wellFormed c -> missionsOk c ->
  exists c', simulate services tileSimulate c steps = Ok c' /\
    City.simTime c' = City.simTime c + 1.
Proof.
  intros Hs Ht Hwf Hm.
  destruct (simulate_ok services tileSimulate Hs Ht c steps Hwf Hm)
    as (c' & E & _ & _ & T & _).
  by exists c'.
Qed.

(** C4: at level 1, when the mission test of a call sees a population of at
    least 35, a buildCount of at least 5 and a roadCount of at least 1, the
    call ends at level 2 with exactly 2500 more in the treasury than the city
    had when the test began. *)
Theorem level_one_completion_credits_2500 (c c1 : City.t) (steps buildCount roadCount p : Z) :
  simulateSteps services tileSimulate (Z.to_nat steps) (c, 0, 0)
    = Ok (c1, buildCount, roadCount) ->
  missionsOk c1 -> City.level c1 = 1 ->
  population c1 = Ok p -> 35 <= p -> 5 <= buildCount -> 1 <= roadCount ->
  exists c', simulate services tileSimulate c steps = Ok c' /\
    City.level c' = 2 /\ City.money c' = City.money c1 + 2500 /\
    City.missionCounter c' = 3.
Proof.
  intros Hsteps [Htab _] Hlev Hp Hpop Hbc Hrc. unfold simulate. rewrite Hsteps. res_simpl.
  destruct (Htab 1 _ eq_refl) as (ms & Hl & Hsame).
  rewrite <- Hlev in Hl.
  destruct (evaluateMissions_checked buildCount roadCount c1 p ms Hp Hl)
    as (c2 & -> & _ & Hmc & Hlv2 & Hmo2 & _).
  res_simpl.
  assert (Hcount : doneCount (checkedAll p buildCount roadCount ms) = 3).
  { unfold sameMissions in Hsame.
    apply Forall2_cons_inv_r in Hsame as ([k1 m1] & ms1 & (_ & _ & C1 & _) & Hsame & ->).
    apply Forall2_cons_inv_r in Hsame as ([k2 m2] & ms2 & (_ & _ & C2 & B2 & _) & Hsame & ->).
    apply Forall2_cons_inv_r in Hsame as ([k3 m3] & ms3 & (_ & _ & C3 & B3 & R3) & Hsame & ->).
    apply Forall2_nil_inv_r in Hsame as ->. simpl in *.
    unfold doneCount, checkedAll, checked. simpl.
    rewrite C1, C2, B2, C3, B3, R3. simpl.
    destruct (p >=? 35) eqn:E1; [|lia].
    destruct (buildCount >=? 5) eqn:E2; [|lia].
    destruct (roadCount >=? 1) eqn:E3; [|lia]. done. }
  rewrite Hcount.
  destruct (levelUp_level 3 c2) as [(_ & _ & L & M)|(Hn & _)]; [|exfalso; apply Hn; split; congruence].
  destruct (levelUp_frame 3 c2) as (_ & _ & _ & _ & Mc).
  eexists. split; [done|]. simpl. rewrite L, M, Mc. repeat split; congruence.
Qed.

(** C9: over any sequence of simulate calls, a mission flag that is set stays
    set, whatever the hooks do to the buildings in between. *)
Theorem mission_flags_monotonic (c : City.t) (calls : list Z) :
  Forall keepsFrame services -> (forall tl, keepsFrame (tileSimulate tl)) ->
  wellFormed c -> missionsOk c ->
  exists c', simulateMany services tileSimulate calls c = Ok c' /\
    forall l key, missionDone c l key -> missionDone c' l key.
Proof.
  intros Hs Ht. revert c. induction calls as [|steps calls IH]; intros c Hwf Hm.
  - by exists c.
  - unfold simulateMany. simpl.
    destruct (simulate_ok services tileSimulate Hs Ht c steps Hwf Hm)
      as (c1 & -> & W1 & M1 & _ & D1).
    res_simpl. destruct (IH c1 W1 M1) as (c' & E & D).
    exists c'. split; [done|]. intros l key Hd. by apply D, D1.
Qed.

End MissionEngine.

Lemma smallTown_missionsOk : missionsOk smallTown.
Proof. by apply initial_missionsOk. Qed.

Lemma fullTown_missionsOk : missionsOk fullTown.
Proof. by apply initial_missionsOk. Qed.

Lemma simulate_advances_clock_by_one_witness :
  Forall keepsFrame [] /\ (forall tl, keepsFrame (moveIn tl)) /\
  wellFormed smallTown /\ missionsOk smallTown /\
  exists c', simulate [] moveIn smallTown 3 = Ok c' /\
    City.simTime c' = City.simTime smallTown + 1.
Proof.
  assert (S : Forall keepsFrame []) by apply Forall_nil_2.
  assert (W : wellFormed smallTown) by (apply wellFormedb_true; by vm_compute).
  split; [exact S|]. split; [exact moveIn_keepsFrame|].
  split; [exact W|]. split; [exact smallTown_missionsOk|].
  exact (simulate_advances_clock_by_one [] moveIn smallTown 3 S moveIn_keepsFrame W
           smallTown_missionsOk).
Defined.

Lemma level_one_completion_credits_2500_witness :
  simulateSteps [] idle (Z.to_nat 1) (fullTown, 0, 0) = Ok (fullTown, 5, 1) /\
  missionsOk fullTown /\ City.level fullTown = 1 /\
  population fullTown = Ok 35 /\ 35 <= 35 /\ 5 <= 5 /\ 1 <= 1 /\
  exists c', simulate [] idle fullTown 1 = Ok c' /\
    City.level c' = 2 /\ City.money c' = City.money fullTown + 2500 /\
    City.missionCounter c' = 3.
Proof.
  assert (S : simulateSteps [] idle (Z.to_nat 1) (fullTown, 0, 0) = Ok (fullTown, 5, 1))
    by (by vm_compute).
  assert (L : City.level fullTown = 1) by reflexivity.
  assert (P : population fullTown = Ok 35) by (by vm_compute).
  assert (H35 : 35 <= 35) by lia.
  assert (H5 : 5 <= 5) by lia.
  assert (H1 : 1 <= 1) by lia.
  split; [exact S|]. split; [exact fullTown_missionsOk|]. split; [exact L|].
  split; [exact P|]. split; [exact H35|]. split; [exact H5|]. split; [exact H1|].
  exact (level_one_completion_credits_2500 [] idle fullTown fullTown 1 5 1 35
           S fullTown_missionsOk L P H35 H5 H1).
Defined.

(** The road mission of level 1 is set by a call of simulate on [smallTown]
    and is still set after the road has been bulldozed. *)
Lemma roadLost_history :
  simulate [] idle smallTown 1 = Ok roadDone /\
  flags smallTown 1 = Some [false; false; false] /\
  flags roadDone 1 = Some [false; false; true] /\
  bulldoze roadDone (Some 0) (Some 1) = Ok roadLost /\
  flags roadLost 1 = Some [false; false; true] /\
  City.level roadLost = 1 /\
  sumZ isRoad (mjoin (City.tiles roadLost)) = 0.
Proof. repeat apply conj; by vm_compute. Qed.

Lemma roadLost_wellFormed : wellFormed roadLost.
Proof. apply wellFormedb_true. by vm_compute. Qed.

Lemma roadLost_missionsOk : missionsOk roadLost.
Proof.
  assert (E : City.levels roadLost
              = <[1 := [(1, Mission.mk "Obtem 35 Residentes" (Some 35) None None false);
                        (2, Mission.mk "5 Edifícios Construidos" None (Some 5) None false);
                        (3, Mission.mk "Ter Pelo Menos 1 Rua" None None (Some 1) true)]]>
                  initialLevels) by (by vm_compute).
  split; [|left; by vm_compute]. intros l ms0 H. rewrite E.
  destruct (decide (l = 1)) as [->|Hne].
  - rewrite lookup_insert_eq. eexists. split; [done|].
    vm_compute in H. injection H as <-. repeat constructor.
  - rewrite lookup_insert_ne by done. exists ms0. split; [done|apply sameMissions_refl].
Qed.

Lemma roadLost_flag : missionDone roadLost 1 3.
Proof.
  exists [(1, Mission.mk "Obtem 35 Residentes" (Some 35) None None false);
          (2, Mission.mk "5 Edifícios Construidos" None (Some 5) None false);
          (3, Mission.mk "Ter Pelo Menos 1 Rua" None None (Some 1) true)],
         (Mission.mk "Ter Pelo Menos 1 Rua" None None (Some 1) true).
  split; [by vm_compute|]. split; [|done]. rewrite !elem_of_cons. auto.
Qed.

(** Two more calls on [roadLost], with a hook that builds no road: every
    scan counts no road, and the city stays at level 1. *)
Lemma roadLost_later :
  exists c', simulateMany [] moveIn [1; 2] roadLost = Ok c' /\
    City.level c' = 1 /\ sumZ isRoad (mjoin (City.tiles c')) = 0 /\
    flags c' 1 = Some [false; false; true].
Proof. eexists. split; [vm_compute; reflexivity|]. repeat apply conj; by vm_compute. Qed.

Lemma mission_flags_monotonic_witness :
  Forall keepsFrame [] /\ (forall tl, keepsFrame (moveIn tl)) /\
  wellFormed roadLost /\ missionsOk roadLost /\
  missionDone roadLost 1 3 /\ sumZ isRoad (mjoin (City.tiles roadLost)) = 0 /\
  exists c', simulateMany [] moveIn [1; 2] roadLost = Ok c' /\
    (forall l key, missionDone roadLost l key -> missionDone c' l key) /\
    City.level c' = City.level roadLost /\
    sumZ isRoad (mjoin (City.tiles c')) = 0 /\ missionDone c' 1 3.
Proof.
  assert (S : Forall keepsFrame []) by apply Forall_nil_2.
  destruct roadLost_history as (_ & _ & _ & _ & _ & L & R).
  destruct roadLost_later as (c1 & E1 & L1 & R1 & _).
  split; [exact S|]. split; [exact moveIn_keepsFrame|].
  split; [exact roadLost_wellFormed|]. split; [exact roadLost_missionsOk|].
  split; [exact roadLost_flag|]. split; [exact R|].
  destruct (mission_flags_monotonic [] moveIn roadLost [1; 2] S moveIn_keepsFrame
              roadLost_wellFormed roadLost_missionsOk) as (c' & E & D).
  assert (c1 = c') as -> by congruence.
  exists c'. split; [exact E|]. split; [exact D|]. split; [congruence|].
  split; [exact R1|]. apply D. exact roadLost_flag.
Defined.

(** ** Worked runs *)

(** The road mission of level 1 is done after one call on [smallTown], and
    [moveIn] has moved one resident into the house. *)
Example smallTown_one_call :
  exists c', simulate [] moveIn smallTown 1 = Ok c' /\
    flags c' 1 = Some [false; false; true] /\ population c' = Ok 5 /\
    City.missionCounter c' = 1.
Proof. eexists. split; [vm_compute; reflexivity|]. by vm_compute. Qed.

(** A search from (1, 1) for the road of [smallTown] tests (1, 1), (0, 1)
    in that order and returns the tile at (0, 1). *)
Example smallTown_find_road :
  findTile_traced smallTown (Some 1, Some 1)
    (fun t => bool_decide (Tile.building t = Some street)) 2
  = Some (Ok (Some (Tile.mk 1 0 1 (Some street)),
              [Tile.mk 3 1 1 None; Tile.mk 1 0 1 (Some street)])).
Proof. by vm_compute. Qed.

(** The scenario of the spec: a 2 x 2 city with 600; a house at (0, 0)
    leaves 100, a road at (0, 1) leaves 0, bulldozing the house gives 250. *)
Example scenario_600 :
  exists c1 c2 c3,
    placeBuilding (fun _ _ ty => Building.mk ty None) (newCity 2 600)
      (Some 0) (Some 0) BuildingType.residential = Ok c1 /\ City.money c1 = 100 /\
    placeBuilding (fun _ _ ty => Building.mk ty None) c1
      (Some 0) (Some 1) BuildingType.road = Ok c2 /\ City.money c2 = 0 /\
    bulldoze c2 (Some 0) (Some 0) = Ok c3 /\ City.money c3 = 250.
Proof.
  eexists _, _, _.
  split; [vm_compute; reflexivity|]. split; [reflexivity|].
  split; [vm_compute; reflexivity|]. split; [reflexivity|].
  split; [vm_compute; reflexivity|]. reflexivity.
Qed.

(** * Further properties *)

(** ** Scans of the whole grid *)

Lemma sumZ_app {A : Type} (f : A -> Z) l1 l2 : sumZ f (l1 ++ l2) = sumZ f l1 + sumZ f l2.
Proof. induction l1 as [|a l1 IH]; simpl; [done|]. rewrite IH. lia. Qed.

Lemma sumZ_join {A : Type} (f : A -> Z) (ls : list (list A)) :
  sumZ f (mjoin ls) = sumZ (sumZ f) ls.
Proof. induction ls as [|l ls IH]; simpl; [done|]. by rewrite sumZ_app, IH. Qed.

(** A [for] loop over the indices of [l] whose body handles the element at
    the index and keeps [I] is a left fold over [l]. *)
Lemma foldM_indices {A St : Type} (I : St -> Prop) (l : list A)
  (body : Z -> St -> Res St) (g : A -> St -> St) :
  forall m s,
    (forall i a s, I s -> l !! i = Some a ->
       body (m + Z.of_nat i) s = Ok (g a s) /\ I (g a s)) ->
    I s ->
    foldM body (seqZ m (Z.of_nat (length l))) s = Ok (fold_left (fun s a => g a s) l s)
    /\ I (fold_left (fun s a => g a s) l s).
Proof.
  induction l as [|a l IH]; intros m s Hbody Hs; [done|].
  rewrite seqZ_cons by (simpl; lia).
  replace (Z.pred (Z.of_nat (length (a :: l)))) with (Z.of_nat (length l)) by (simpl; lia).
  simpl foldM. simpl fold_left.
  destruct (Hbody 0%nat a s Hs eq_refl) as [E Ha].
  rewrite Z.add_0_r in E. rewrite E. res_simpl.
  apply IH; [|done]. intros i a' s' Hs' Hi.
  replace (Z.succ m + Z.of_nat i) with (m + Z.of_nat (S i)) by lia.
  by apply Hbody.
Qed.

(** The two nested [for] loops of population and simulate visit the tiles
    of a well-formed grid once each, column by column. *)
Lemma foldM_grid {St : Type} (I : St -> Prop) (c : City.t)
  (body : Z -> Z -> St -> Res St) (g : Tile.t -> St -> St) s :
  wellFormed c ->
  (forall i j column tl s, I s ->
     City.tiles c !! i = Some column -> column !! j = Some tl ->
     body (Z.of_nat i) (Z.of_nat j) s = Ok (g tl s) /\ I (g tl s)) ->
  I s ->
  foldM (fun x => foldM (body x) (seqZ 0 (City.size c))) (seqZ 0 (City.size c)) s
    = Ok (fold_left (fun s tl => g tl s) (mjoin (City.tiles c)) s)
  /\ I (fold_left (fun s tl => g tl s) (mjoin (City.tiles c)) s).
Proof.
  intros [H1 H2 H3] Hbody Hs.
  destruct (decide (City.size c <= 0)) as [Hneg|Hpos].
  { rewrite seqZ_nil by done. simpl.
    assert (E : City.tiles c = []) by (apply length_zero_iff_nil; lia).
    by rewrite E. }
  assert (Hsize : City.size c = Z.of_nat (length (City.tiles c))) by lia.
  assert (Hjoin : forall (ls : list (list Tile.t)) s0,
            fold_left (fun s tl => g tl s) (mjoin ls) s0
            = fold_left (fun s col => fold_left (fun s tl => g tl s) col s) ls s0).
  { induction ls as [|l ls IH]; intros s0; simpl; [done|].
    by rewrite fold_left_app, IH. }
  rewrite Hjoin.
  set (inner := fun x => foldM (body x) (seqZ 0 (City.size c))).
  rewrite Hsize.
  apply (foldM_indices I (City.tiles c) inner
           (fun col s => fold_left (fun s tl => g tl s) col s)); [|done].
  intros i column s0 Hs0 Hi. rewrite Z.add_0_l. unfold inner.
  replace (City.size c) with (Z.of_nat (length column))
    by (rewrite (H2 _ _ Hi); lia).
  apply (foldM_indices I column (body (Z.of_nat i)) g); [|done].
  intros j tl s1 Hs1 Hj. rewrite Z.add_0_l. by eapply Hbody.
Qed.

Lemma getTile_lookup c i j column tl :
  wellFormed c -> City.tiles c !! i = Some column -> column !! j = Some tl ->
  getTile c (Some (Z.of_nat i)) (Some (Z.of_nat j)) = Ok (Some tl).
Proof.
  intros Hwf Hi Hj. pose proof Hwf as [H1 H2 H3].
  pose proof (lookup_lt_Some _ _ _ Hi) as Li.
  pose proof (lookup_lt_Some _ _ _ Hj) as Lj. rewrite (H2 _ _ Hi) in Lj.
  destruct (getTile_inside c (Z.of_nat i) (Z.of_nat j) Hwf) as (col' & tl' & Hc & Ht & G & _);
    [lia..|].
  rewrite Nat2Z.id in Hc, Ht. congruence.
Qed.

Lemma fold_left_sumZ {A : Type} (f : A -> Z) l s :
  fold_left (fun s a => s + f a) l s = s + sumZ f l.
Proof.
  revert s. induction l as [|a l IH]; intros s; simpl; [lia|]. rewrite IH. lia.
Qed.

(** ** getTile *)

(** X1: on a well-formed grid, getTile finds inside the bounds the tile that
    stores exactly the coordinates asked for, and answers null everywhere
    else, an undefined coordinate included. *)
Theorem getTile_inside_tile_outside_null (c : City.t) (x y : Z) :
  wellFormed c ->
  (0 <= x < City.size c /\ 0 <= y < City.size c ->
     exists tl, getTile c (Some x) (Some y) = Ok (Some tl) /\
       Tile.x tl = x /\ Tile.y tl = y /\ inGrid c tl) /\
  (~ (0 <= x < City.size c /\ 0 <= y < City.size c) ->
     getTile c (Some x) (Some y) = Ok None) /\
  getTile c None (Some y) = Ok None /\ getTile c (Some x) None = Ok None /\
  getTile c None None = Ok None.
Proof.
  intros Hwf. split; [|split; [|done]].
  - intros [Hx Hy].
    destruct (getTile_inside c x y Hwf Hx Hy) as (col & tl & _ & _ & G & Ex & Ey).
    exists tl. repeat apply conj; try done. by eapply getTile_elem.
  - intros Hn. apply getTile_outside. lia.
Qed.

Lemma getTile_inside_tile_outside_null_witness :
  wellFormed smallTown /\
  (0 <= 0 < City.size smallTown /\ 0 <= 1 < City.size smallTown ->
     exists tl, getTile smallTown (Some 0) (Some 1) = Ok (Some tl) /\
       Tile.x tl = 0 /\ Tile.y tl = 1 /\ inGrid smallTown tl) /\
  (~ (0 <= 0 < City.size smallTown /\ 0 <= 1 < City.size smallTown) ->
     getTile smallTown (Some 0) (Some 1) = Ok None) /\
  getTile smallTown None (Some 1) = Ok None /\ getTile smallTown (Some 0) None = Ok None /\
  getTile smallTown None None = Ok None.
Proof.
  assert (W : wellFormed smallTown) by (apply wellFormedb_true; by vm_compute).
  split; [exact W|].
  exact (getTile_inside_tile_outside_null smallTown 0 1 W).
Defined.

(** ** population *)

Lemma population_sum (c : City.t) :
  wellFormed c ->
  population c = Ok (sumZ residentCount (mjoin (City.tiles c))).
Proof.
  intros Hwf. unfold population.
  destruct (foldM_grid (fun _ => True) c
              (fun x y pop => tl ← tileAt c (Some x) (Some y); Ok (pop + residentCount tl))
              (fun tl pop => pop + residentCount tl) 0 Hwf) as [E _]; [|done|].
  { intros i j column tl s _ Hi Hj. split; [|done].
    unfold tileAt. by rewrite (getTile_lookup c i j column tl Hwf Hi Hj). }
  rewrite E. f_equal. rewrite fold_left_sumZ. lia.
Qed.

(** X2: on a well-formed grid the population getter returns the sum of the
    resident counts of all tiles; a tile without a building, or a building
    without residents, counts for 0. *)
Theorem population_is_sum_of_residents (c : City.t) :
  wellFormed c ->
  population c = Ok (sumZ residentCount (mjoin (City.tiles c))).
Proof. apply population_sum. Qed.

Lemma population_is_sum_of_residents_witness :
  wellFormed smallTown /\
  population smallTown = Ok (sumZ residentCount (mjoin (City.tiles smallTown))).
Proof.
  assert (W : wellFormed smallTown) by (apply wellFormedb_true; by vm_compute).
  split; [exact W|]. exact (population_is_sum_of_residents smallTown W).
Defined.

(** ** The tallies of simulate *)

Lemma fold_left_tally (tileSimulate : Tile.t -> City.t -> City.t) l c bc rc :
  (forall tl, keepsGrid (tileSimulate tl)) ->
  exists c',
    fold_left (fun (s : City.t * Z * Z) tl =>
                 (tileSimulate tl s.1.1, s.1.2 + isHouse tl, s.2 + isRoad tl)) l (c, bc, rc)
    = (c', bc + sumZ isHouse l, rc + sumZ isRoad l) /\
    City.size c' = City.size c /\ City.tiles c' = City.tiles c.
Proof.
  intros Hk. revert c bc rc. induction l as [|tl l IH]; intros c bc rc; simpl.
  - exists c. by rewrite !Z.add_0_r.
  - destruct (IH (tileSimulate tl c) (bc + isHouse tl) (rc + isRoad tl))
      as (c' & -> & Hs & Ht).
    destruct (Hk tl c) as [Ks Kt].
    exists c'. split; [f_equal; [f_equal|]; lia|]. split; congruence.
Qed.

Lemma scanTile_counts (tileSimulate : Tile.t -> City.t -> City.t) c x y tl bc rc :
  tileAt c (Some x) (Some y) = Ok tl ->
  scanTile tileSimulate x y (c, bc, rc)
  = Ok (tileSimulate tl c, bc + isHouse tl, rc + isRoad tl).
Proof.
  intros E. unfold scanTile, isHouse, isRoad. rewrite E. res_simpl.
  destruct (Tile.building tl) as [b|]; [|by rewrite !Z.add_0_r].
  destruct (Building.type b); simpl; by rewrite ?Z.add_0_r.
Qed.

(** One scan of the grid adds the number of residential tiles to
    [buildCount] and the number of road tiles to [roadCount]. *)
Lemma scanTiles_counts (tileSimulate : Tile.t -> City.t -> City.t) c bc rc :
  (forall tl, keepsGrid (tileSimulate tl)) -> wellFormed c ->
  exists c', scanTiles tileSimulate (c, bc, rc)
             = Ok (c', bc + sumZ isHouse (mjoin (City.tiles c)),
                       rc + sumZ isRoad (mjoin (City.tiles c))) /\
    City.size c' = City.size c /\ City.tiles c' = City.tiles c.
Proof.
  intros Hk Hwf. unfold scanTiles. simpl.
  destruct (foldM_grid
              (fun s : Tally => City.size s.1.1 = City.size c /\ City.tiles s.1.1 = City.tiles c)
              c (scanTile tileSimulate)
              (fun tl (s : Tally) =>
                 (tileSimulate tl s.1.1, s.1.2 + isHouse tl, s.2 + isRoad tl))
              (c, bc, rc) Hwf) as [E _]; [|done|].
  { intros i j column tl [[c0 b0] r0] [Hs Ht] Hi Hj. simpl in Hs, Ht.
    rewrite (scanTile_counts tileSimulate c0 _ _ tl).
    - split; [done|]. simpl. destruct (Hk tl c0) as [Ks Kt]. split; congruence.
    - unfold tileAt.
      by rewrite (getTile_ext c c0 _ _ _ Hs Ht (getTile_lookup c i j column tl Hwf Hi Hj)). }
  destruct (fold_left_tally tileSimulate (mjoin (City.tiles c)) c bc rc Hk)
    as (c' & Hf & Hs & Ht).
  exists c'. split; [|done]. rewrite E. f_equal. exact Hf.
Qed.

Lemma keepsGrid_wellFormed hook c : keepsGrid hook -> wellFormed c -> wellFormed (hook c).
Proof. intros Hk Hwf. destruct (Hk c) as [Hs Ht]. by apply (wellFormed_ext c). Qed.

Lemma hooks_keepGrid (hooks : list (City.t -> City.t)) c :
  Forall keepsGrid hooks ->
  City.size (fold_left (fun c service => service c) hooks c) = City.size c /\
  City.tiles (fold_left (fun c service => service c) hooks c) = City.tiles c.
Proof.
  intros H. revert c. induction H as [|hook hooks Hh _ IH]; intros c; simpl; [done|].
  destruct (IH (hook c)) as [-> ->]. apply Hh.
Qed.

(** X3: when the hooks leave the grid alone, the tallies that reach the
    mission test after [steps] steps are [steps] times the number of
    residential tiles and [steps] times the number of road tiles; for one
    step they are those numbers themselves. *)
Theorem simulateSteps_tallies (services : list (City.t -> City.t))
  (tileSimulate : Tile.t -> City.t -> City.t) (c : City.t) (steps : nat) :
  Forall keepsGrid services -> (forall tl, keepsGrid (tileSimulate tl)) ->
  wellFormed c ->
  exists c', simulateSteps services tileSimulate steps (c, 0, 0)
             = Ok (c', Z.of_nat steps * sumZ isHouse (mjoin (City.tiles c)),
                       Z.of_nat steps * sumZ isRoad (mjoin (City.tiles c))) /\
    City.size c' = City.size c /\ City.tiles c' = City.tiles c.
Proof.
  intros Hs Ht Hwf.
  assert (Hgen : forall n c0 bc rc,
            City.size c0 = City.size c -> City.tiles c0 = City.tiles c ->
            exists c', simulateSteps services tileSimulate n (c0, bc, rc)
                       = Ok (c', bc + Z.of_nat n * sumZ isHouse (mjoin (City.tiles c)),
                                 rc + Z.of_nat n * sumZ isRoad (mjoin (City.tiles c))) /\
              City.size c' = City.size c /\ City.tiles c' = City.tiles c).
  { induction n as [|n IH]; intros c0 bc rc S0 T0.
    - exists c0. simpl. by rewrite !Z.add_0_r.
    - simpl. destruct (hooks_keepGrid services c0 Hs) as [S1 T1].
      set (c1 := fold_left _ services c0) in *.
      destruct (scanTiles_counts tileSimulate c1 bc rc Ht) as (c2 & -> & S2 & T2).
      { apply (wellFormed_ext c); [congruence..|done]. }
      res_simpl. destruct (IH c2 (bc + sumZ isHouse (mjoin (City.tiles c1)))
                             (rc + sumZ isRoad (mjoin (City.tiles c1))))
        as (c' & -> & S' & T'); [congruence..|].
      exists c'. split; [|done]. rewrite T1, T0. f_equal. f_equal; [f_equal|]; lia. }
  destruct (Hgen steps c 0 0 eq_refl eq_refl) as (c' & E & S' & T').
  exists c'. by rewrite E.
Qed.

Lemma simulateSteps_tallies_witness :
  Forall keepsGrid [] /\ (forall tl, keepsGrid (idle tl)) /\ wellFormed fullTown /\
  exists c', simulateSteps [] idle 1 (fullTown, 0, 0)
             = Ok (c', Z.of_nat 1 * sumZ isHouse (mjoin (City.tiles fullTown)),
                       Z.of_nat 1 * sumZ isRoad (mjoin (City.tiles fullTown))) /\
    City.size c' = City.size fullTown /\ City.tiles c' = City.tiles fullTown.
Proof.
  assert (S : Forall keepsGrid []) by apply Forall_nil_2.
  assert (T : forall tl, keepsGrid (idle tl)) by (by intros tl c).
  assert (W : wellFormed fullTown) by (apply wellFormedb_true; by vm_compute).
  split; [exact S|]. split; [exact T|]. split; [exact W|].
  exact (simulateSteps_tallies [] idle fullTown 1 S T W).
Defined.

(** ** placeBuilding, bulldoze and destroy as operations on one tile *)

Lemma getTile_inBounds c x y tl : getTile c x y = Ok (Some tl) -> inBounds c x y.
Proof.
  unfold getTile. destruct x as [x|], y as [y|]; try discriminate.
  destruct (x <? 0) eqn:E1, (y <? 0) eqn:E2, (x >=? City.size c) eqn:E3,
    (y >=? City.size c) eqn:E4; simpl; try discriminate.
  intros _. exists x, y. repeat split; lia.
Qed.

(** Writing to the tile at [(x, y)] leaves the lookups elsewhere alone. *)
Lemma getTile_updateTileAt_other c x y f x' y' r :
  inBounds c x y -> (x', y') <> (x, y) ->
  getTile c x' y' = Ok r -> getTile (updateTileAt x y f c) x' y' = Ok r.
Proof.
  intros (p & q & -> & -> & Hp & Hq) Hne. unfold getTile, updateTileAt.
  destruct x' as [a|], y' as [b|]; try done. simpl.
  destruct (a <? 0) eqn:E1, (b <? 0) eqn:E2, (a >=? City.size c) eqn:E3,
    (b >=? City.size c) eqn:E4; simpl; try done.
  destruct (decide (a = p)) as [->|Hap].
  - rewrite list_lookup_alter_eq.
    destruct (City.tiles c !! Z.to_nat p) as [column|]; [|done]. simpl.
    intros [= Hr]. rewrite list_lookup_alter_ne; [by rewrite Hr|].
    intros Hc. apply Hne. f_equal. f_equal. lia.
  - rewrite list_lookup_alter_ne by lia.
    by destruct (City.tiles c !! Z.to_nat a).
Qed.

Lemma sameElsewhere_refl x y c : sameElsewhere x y c c.
Proof. by repeat split. Qed.

Lemma sameElsewhere_trans x y c1 c2 c3 :
  sameElsewhere x y c1 c2 -> sameElsewhere x y c2 c3 -> sameElsewhere x y c1 c3.
Proof.
  intros (S1 & T1 & L1 & Ls1 & M1 & G1) (S2 & T2 & L2 & Ls2 & M2 & G2).
  repeat split; try congruence. intros x' y' r Hne G. by apply G2, G1.
Qed.

Lemma onlyEmits_sameElsewhere x y c c' : onlyEmits c c' -> sameElsewhere x y c c'.
Proof.
  intros E. destruct (onlyEmits_fields _ _ E) as (S & T & _ & St & L & Ls & Mc).
  repeat split; try done. intros x' y' r _. by apply getTile_ext.
Qed.

Lemma set_money_sameElsewhere x y v c : sameElsewhere x y c (City.set_money v c).
Proof. repeat split. intros x' y' r _. by apply getTile_ext. Qed.

Lemma updateTileAt_sameElsewhere x y f c :
  inBounds c x y -> sameElsewhere x y c (updateTileAt x y f c).
Proof.
  intros Hb. destruct (updateTileAt_fields x y f c) as (S & _ & St & L & Ls & Mc).
  repeat split; try done. intros x' y' r Hne. by apply getTile_updateTileAt_other.
Qed.

(** The common tail again, this time with what it leaves alone. *)
Lemma clearTile_sameElsewhere x y tl b c :
  wellFormed c -> getTile c x y = Ok (Some tl) ->
  exists c', clearTile x y tl b c = Ok c' /\ sameElsewhere x y c c' /\
    City.money c' = City.money c /\ wellFormed c' /\
    getTile c' x y = Ok (Some (Tile.setBuilding None tl)).
Proof.
  intros Hwf Hget. pose proof (getTile_inBounds _ _ _ _ Hget) as Hb.
  unfold clearTile.
  set (c0 := City.emit (Dispose b) c).
  set (c1 := updateTileAt x y (Tile.setBuilding None) c0).
  set (c2 := City.emit (RefreshView _ _) c1).
  assert (W1 : wellFormed c1).
  { apply updateTileAt_wf; [done|]. by apply (onlyEmits_wf _ _ (onlyEmits_emit _ _)). }
  assert (W2 : wellFormed c2) by apply (onlyEmits_wf _ _ (onlyEmits_emit _ _) W1).
  destruct (refreshNeighbors_ok x y c2 W2) as (c3 & -> & E3).
  assert (E13 : onlyEmits c1 c3) by (eapply onlyEmits_trans; [apply onlyEmits_emit|done]).
  exists c3. split; [done|]. split.
  { eapply sameElsewhere_trans; [apply (onlyEmits_sameElsewhere x y c c0), onlyEmits_emit|].
    eapply sameElsewhere_trans; [|by apply onlyEmits_sameElsewhere].
    by apply updateTileAt_sameElsewhere. }
  destruct (onlyEmits_fields _ _ E13) as (S3 & T3 & M3 & _).
  destruct (updateTileAt_fields x y (Tile.setBuilding None) c0) as (S1 & M1 & _).
  split; [by rewrite M3; unfold c1; rewrite M1|].
  split; [by apply (onlyEmits_wf c1)|].
  apply (getTile_ext c1); [done..|]. apply getTile_updateTileAt.
  by apply (getTile_ext c).
Qed.

Lemma hasMoneyForBuild_pays c ty cost :
  buildCost ty = Some cost -> cost <= City.money c ->
  hasMoneyForBuild c ty = (true, City.set_money (City.money c - cost) c).
Proof.
  unfold hasMoneyForBuild. destruct ty; simpl; intros [= <-] H.
  - destruct (City.money c >=? 500) eqn:E; [done|lia].
  - destruct (City.money c >=? 100) eqn:E; [done|lia].
Qed.

Lemma hasMoneyForBuild_refuses c ty :
  (forall cost, buildCost ty = Some cost -> City.money c < cost) ->
  hasMoneyForBuild c ty = (false, c).
Proof.
  unfold hasMoneyForBuild. destruct ty; simpl; intros H; [| |done].
  - specialize (H 500 eq_refl). destruct (City.money c >=? 500) eqn:E; [lia|done].
  - specialize (H 100 eq_refl). destruct (City.money c >=? 100) eqn:E; [lia|done].
Qed.

(** Either the type has a cost the treasury covers, or it has none that the
    treasury covers. *)
Lemma buildCost_cases c ty :
  (exists cost, buildCost ty = Some cost /\ cost <= City.money c /\ 0 < cost) \/
  (forall cost, buildCost ty = Some cost -> City.money c < cost).
Proof.
  destruct ty; simpl.
  - destruct (decide (500 <= City.money c)); [left; exists 500; by repeat split|].
    right. intros cost [= <-]. lia.
  - destruct (decide (100 <= City.money c)); [left; exists 100; by repeat split|].
    right. intros cost [= <-]. lia.
  - right. by intros cost.
Qed.

Lemma placeBuilding_success createBuilding c x y ty tl cost :
  wellFormed c -> getTile c x y = Ok (Some tl) -> Tile.building tl = None ->
  buildCost ty = Some cost -> cost <= City.money c ->
  exists c', placeBuilding createBuilding c x y ty = Ok c' /\
    City.money c' = City.money c - cost /\
    getTile c' x y = Ok (Some (Tile.setBuilding (Some (createBuilding x y ty)) tl)) /\
    sameElsewhere x y c c' /\ wellFormed c'.
Proof.
  intros Hwf Hget Hempty Hcost Hmoney.
  pose proof (getTile_inBounds _ _ _ _ Hget) as Hb.
  unfold placeBuilding. rewrite Hget. res_simpl. rewrite Hempty.
  rewrite (hasMoneyForBuild_pays c ty cost Hcost Hmoney).
  set (b := createBuilding x y ty).
  set (ca := City.emit (SoundEffect "building") (City.set_money (City.money c - cost) c)).
  set (cb := updateTileAt x y (Tile.setBuilding (Some b)) ca).
  set (cc := City.emit (RefreshView (Tile.x tl) (Tile.y tl)) cb).
  assert (Wa : wellFormed ca) by (by destruct Hwf).
  assert (Wb : wellFormed cb) by (by apply updateTileAt_wf).
  assert (Wc : wellFormed cc) by apply (onlyEmits_wf _ _ (onlyEmits_emit _ _) Wb).
  destruct (refreshNeighbors_ok x y cc Wc) as (cd & -> & Ed). res_simpl.
  assert (Ebd : onlyEmits cb cd) by (eapply onlyEmits_trans; [apply onlyEmits_emit|done]).
  assert (Hfinal : forall c', onlyEmits cd c' ->
            City.money c' = City.money c - cost /\
            getTile c' x y = Ok (Some (Tile.setBuilding (Some b) tl)) /\
            sameElsewhere x y c c' /\ wellFormed c').
  { intros c' E'. assert (E : onlyEmits cb c') by (by eapply onlyEmits_trans).
    destruct (onlyEmits_fields _ _ E) as (S & T & M & _).
    destruct (updateTileAt_fields x y (Tile.setBuilding (Some b)) ca) as (_ & Mb & _).
    split; [by rewrite M; unfold cb; rewrite Mb|].
    split.
    { apply (getTile_ext cb); [done..|]. apply getTile_updateTileAt.
      by apply (getTile_ext c). }
    split; [|by apply (onlyEmits_wf cb)].
    eapply sameElsewhere_trans; [apply set_money_sameElsewhere|].
    eapply sameElsewhere_trans;
      [apply (onlyEmits_sameElsewhere x y _ ca), onlyEmits_emit|].
    eapply sameElsewhere_trans; [|by apply onlyEmits_sameElsewhere].
    apply updateTileAt_sameElsewhere.
    destruct Hb as (p & q & -> & -> & Hp & Hq). by exists p, q. }
  destruct (Building.type b); eexists; (split; [done|]); apply Hfinal.
  - apply onlyEmits_emit.
  - eapply onlyEmits_trans; apply onlyEmits_emit.
  - apply onlyEmits_emit.
Qed.

(** X4: on an empty tile of the grid, with a type that has a cost and a
    treasury that covers it, placeBuilding takes exactly the cost, puts the
    building of the factory on the tile, and leaves every other tile, the
    clock, the level and the missions as they were. *)
Theorem placeBuilding_builds (createBuilding : option Z -> option Z -> BuildingType.t -> Building.t)
  (c : City.t) (x y : option Z) (ty : BuildingType.t) (tl : Tile.t) (cost : Z) :
  wellFormed c -> getTile c x y = Ok (Some tl) -> Tile.building tl = None ->
  buildCost ty = Some cost -> cost <= City.money c ->
  exists c', placeBuilding createBuilding c x y ty = Ok c' /\
    City.money c' = City.money c - cost /\
    getTile c' x y = Ok (Some (Tile.setBuilding (Some (createBuilding x y ty)) tl)) /\
    sameElsewhere x y c c' /\ wellFormed c'.
Proof. apply placeBuilding_success. Qed.

Lemma placeBuilding_builds_witness :
  wellFormed fundedTown /\
  getTile fundedTown (Some 1) (Some 1) = Ok (Some (Tile.mk 3 1 1 None)) /\
  Tile.building (Tile.mk 3 1 1 None) = None /\
  buildCost BuildingType.road = Some 100 /\
  100 <= City.money fundedTown /\
  exists c', placeBuilding plainFactory fundedTown (Some 1) (Some 1) BuildingType.road
             = Ok c' /\
    City.money c' = City.money fundedTown - 100 /\
    getTile c' (Some 1) (Some 1)
      = Ok (Some (Tile.setBuilding
                    (Some (plainFactory (Some 1) (Some 1) BuildingType.road))
                    (Tile.mk 3 1 1 None))) /\
    sameElsewhere (Some 1) (Some 1) fundedTown c' /\ wellFormed c'.
Proof.
  assert (W : wellFormed fundedTown) by (apply wellFormedb_true; by vm_compute).
  assert (G : getTile fundedTown (Some 1) (Some 1) = Ok (Some (Tile.mk 3 1 1 None)))
    by (by vm_compute).
  assert (M : 100 <= City.money fundedTown) by (by vm_compute).
  split; [exact W|]. split; [exact G|].
  split; [reflexivity|]. split; [reflexivity|]. split; [exact M|].
  exact (placeBuilding_builds plainFactory fundedTown (Some 1) (Some 1)
           BuildingType.road (Tile.mk 3 1 1 None) 100 W G eq_refl eq_refl M).
Defined.

Lemma placeBuilding_declines (createBuilding : option Z -> option Z -> BuildingType.t -> Building.t)
  (c : City.t) (x y : option Z) (ty : BuildingType.t) :
  (forall tl b, getTile c x y = Ok (Some tl) -> Tile.building tl = Some b ->
     placeBuilding createBuilding c x y ty = Ok c) /\
  (getTile c x y = Ok None -> placeBuilding createBuilding c x y ty = Ok c) /\
  (forall tl, getTile c x y = Ok (Some tl) -> Tile.building tl = None ->
     (forall cost, buildCost ty = Some cost -> City.money c < cost) ->
     placeBuilding createBuilding c x y ty
     = Ok (City.emit (Notify "error" "Dinheiro Insuficiente.") c)).
Proof.
  unfold placeBuilding. repeat apply conj.
  - intros tl b -> Hb. res_simpl. by rewrite Hb.
  - by intros ->.
  - intros tl -> Hb Hcost. res_simpl. rewrite Hb.
    by rewrite (hasMoneyForBuild_refuses c ty Hcost).
Qed.

(** X5: placeBuilding never replaces a building and never builds without
    payment.  On an occupied tile, or outside the grid, it returns the city
    untouched.  On an empty tile, when the type has no cost the treasury
    covers (a type outside the schedule included), the only effect is the
    notification "Dinheiro Insuficiente.". *)
Theorem placeBuilding_refuses (createBuilding : option Z -> option Z -> BuildingType.t -> Building.t)
  (c : City.t) (x y : option Z) (ty : BuildingType.t) :
  (forall tl b, getTile c x y = Ok (Some tl) -> Tile.building tl = Some b ->
     placeBuilding createBuilding c x y ty = Ok c) /\
  (getTile c x y = Ok None -> placeBuilding createBuilding c x y ty = Ok c) /\
  (forall tl, getTile c x y = Ok (Some tl) -> Tile.building tl = None ->
     (forall cost, buildCost ty = Some cost -> City.money c < cost) ->
     placeBuilding createBuilding c x y ty
     = Ok (City.emit (Notify "error" "Dinheiro Insuficiente.") c)).
Proof. apply placeBuilding_declines. Qed.

(** bulldoze on a tile that holds a building: the refund of the type is
    paid, the tile is empty, the rest of the city is as before. *)
Lemma bulldoze_clears c x y tl b :
  wellFormed c -> getTile c x y = Ok (Some tl) -> Tile.building tl = Some b ->
  exists c', bulldoze c x y = Ok c' /\
    City.money c' = City.money c + refund (Building.type b) /\
    getTile c' x y = Ok (Some (Tile.setBuilding None tl)) /\
    sameElsewhere x y c c' /\ wellFormed c'.
Proof.
  intros Hwf Hget Hb. unfold bulldoze. rewrite Hget. res_simpl. rewrite Hb.
  set (c1 := City.emit (SoundEffect "bulldoze") _).
  assert (H1 : wellFormed c1 /\ getTile c1 x y = Ok (Some tl) /\
               City.money c1 = City.money c + refund (Building.type b) /\
               sameElsewhere x y c c1).
  { unfold c1. destruct (Building.type b); simpl.
    - split; [by destruct Hwf|]. split; [by apply (getTile_ext c)|]. split; [done|].
      eapply sameElsewhere_trans;
        [apply (onlyEmits_sameElsewhere x y c), onlyEmits_emit|].
      eapply sameElsewhere_trans; [apply set_money_sameElsewhere|].
      apply onlyEmits_sameElsewhere, onlyEmits_emit.
    - split; [by destruct Hwf|]. split; [by apply (getTile_ext c)|]. split; [done|].
      eapply sameElsewhere_trans; [apply set_money_sameElsewhere|].
      apply onlyEmits_sameElsewhere.
      eapply onlyEmits_trans; [apply onlyEmits_emit|].
      eapply onlyEmits_trans; apply onlyEmits_emit.
    - split; [by destruct Hwf|]. split; [by apply (getTile_ext c)|].
      split; [lia|]. apply onlyEmits_sameElsewhere, onlyEmits_emit. }
  destruct H1 as (W1 & G1 & M1 & F1).
  destruct (clearTile_sameElsewhere x y tl b c1 W1 G1) as (c' & -> & F & M & W & G).
  exists c'. split; [done|]. split; [by rewrite M|]. split; [done|].
  split; [by eapply sameElsewhere_trans|done].
Qed.

(** destroy on a tile that holds a residential building. *)
Lemma destroy_clears c x y tl b :
  wellFormed c -> getTile c x y = Ok (Some tl) -> Tile.building tl = Some b ->
  Building.type b = BuildingType.residential ->
  exists c', destroy c x y = Ok c' /\ City.money c' = City.money c /\
    getTile c' x y = Ok (Some (Tile.setBuilding None tl)) /\
    sameElsewhere x y c c' /\ wellFormed c'.
Proof.
  intros Hwf Hget Hb Hty. unfold destroy. rewrite Hget. res_simpl. rewrite Hb, Hty.
  set (c1 := City.emit (SoundEffect "explosion") _).
  assert (E : onlyEmits c c1).
  { eapply onlyEmits_trans; [apply onlyEmits_emit|].
    eapply onlyEmits_trans; [apply onlyEmits_emit|].
    eapply onlyEmits_trans; apply onlyEmits_emit. }
  destruct (onlyEmits_fields _ _ E) as (S1 & T1 & M1 & _).
  destruct (clearTile_sameElsewhere x y tl b c1) as (c' & -> & F & M & W & G).
  { by apply (onlyEmits_wf c). }
  { by apply (getTile_ext c). }
  exists c'. split; [done|]. split; [by rewrite M|]. split; [done|].
  split; [|done]. eapply sameElsewhere_trans; [by apply onlyEmits_sameElsewhere|done].
Qed.

(** X6: bulldoze changes one tile and the treasury and nothing else: a
    building of any type is removed, the refund of its type is paid (nothing
    for a type other than road and residential), every other tile, the
    clock, the level and the missions stay, and the grid stays well formed. *)
Theorem bulldoze_touches_one_tile (c : City.t) (x y : option Z) (tl : Tile.t)
  (b : Building.t) :
  wellFormed c -> getTile c x y = Ok (Some tl) -> Tile.building tl = Some b ->
  exists c', bulldoze c x y = Ok c' /\
    City.money c' = City.money c + refund (Building.type b) /\
    getTile c' x y = Ok (Some (Tile.setBuilding None tl)) /\
    sameElsewhere x y c c' /\ wellFormed c'.
Proof. apply bulldoze_clears. Qed.

Lemma bulldoze_touches_one_tile_witness :
  wellFormed smallTown /\
  getTile smallTown (Some 0) (Some 0) = Ok (Some (Tile.mk 0 0 0 (Some (house 4)))) /\
  Tile.building (Tile.mk 0 0 0 (Some (house 4))) = Some (house 4) /\
  exists c', bulldoze smallTown (Some 0) (Some 0) = Ok c' /\
    City.money c' = City.money smallTown + refund (Building.type (house 4)) /\
    getTile c' (Some 0) (Some 0)
      = Ok (Some (Tile.setBuilding None (Tile.mk 0 0 0 (Some (house 4))))) /\
    sameElsewhere (Some 0) (Some 0) smallTown c' /\ wellFormed c'.
Proof.
  assert (W : wellFormed smallTown) by (apply wellFormedb_true; by vm_compute).
  assert (G : getTile smallTown (Some 0) (Some 0)
              = Ok (Some (Tile.mk 0 0 0 (Some (house 4))))) by (by vm_compute).
  split; [exact W|]. split; [exact G|]. split; [reflexivity|].
  exact (bulldoze_touches_one_tile smallTown (Some 0) (Some 0)
           (Tile.mk 0 0 0 (Some (house 4))) (house 4) W G eq_refl).
Defined.

(** X7: destroy changes one tile and nothing else, the treasury included:
    a residential building is removed without refund, every other tile, the
    clock, the level and the missions stay, and the grid stays well formed. *)
Theorem destroy_touches_one_tile (c : City.t) (x y : option Z) (tl : Tile.t)
  (b : Building.t) :
  wellFormed c -> getTile c x y = Ok (Some tl) -> Tile.building tl = Some b ->
  Building.type b = BuildingType.residential ->
  exists c', destroy c x y = Ok c' /\ City.money c' = City.money c /\
    getTile c' x y = Ok (Some (Tile.setBuilding None tl)) /\
    sameElsewhere x y c c' /\ wellFormed c'.
Proof. apply destroy_clears. Qed.

Lemma destroy_touches_one_tile_witness :
  wellFormed smallTown /\
  getTile smallTown (Some 0) (Some 0) = Ok (Some (Tile.mk 0 0 0 (Some (house 4)))) /\
  Tile.building (Tile.mk 0 0 0 (Some (house 4))) = Some (house 4) /\
  Building.type (house 4) = BuildingType.residential /\
  exists c', destroy smallTown (Some 0) (Some 0) = Ok c' /\
    City.money c' = City.money smallTown /\
    getTile c' (Some 0) (Some 0)
      = Ok (Some (Tile.setBuilding None (Tile.mk 0 0 0 (Some (house 4))))) /\
    sameElsewhere (Some 0) (Some 0) smallTown c' /\ wellFormed c'.
Proof.
  assert (W : wellFormed smallTown) by (apply wellFormedb_true; by vm_compute).
  assert (G : getTile smallTown (Some 0) (Some 0)
              = Ok (Some (Tile.mk 0 0 0 (Some (house 4))))) by (by vm_compute).
  split; [exact W|]. split; [exact G|]. split; [reflexivity|]. split; [reflexivity|].
  exact (destroy_touches_one_tile smallTown (Some 0) (Some 0)
           (Tile.mk 0 0 0 (Some (house 4))) (house 4) W G eq_refl eq_refl).
Defined.

(** X8: building and then bulldozing the same tile gives the tile back
    empty and costs the difference between price and refund (250 for a
    residential building, 50 for a road), when the factory returns a building
    of the type asked for. *)
Theorem place_then_bulldoze (createBuilding : option Z -> option Z -> BuildingType.t -> Building.t)
  (c : City.t) (x y : option Z) (ty : BuildingType.t) (tl : Tile.t) (cost : Z) :
  wellFormed c -> getTile c x y = Ok (Some tl) -> Tile.building tl = None ->
  buildCost ty = Some cost -> cost <= City.money c ->
  Building.type (createBuilding x y ty) = ty ->
  exists c1 c2, placeBuilding createBuilding c x y ty = Ok c1 /\
    bulldoze c1 x y = Ok c2 /\
    City.money c2 = City.money c - cost + refund ty /\
    City.money c2 = City.money c - refund ty /\
    getTile c2 x y = Ok (Some tl) /\ sameElsewhere x y c c2 /\ wellFormed c2.
Proof.
  intros Hwf Hget Hempty Hcost Hmoney Hty.
  destruct (placeBuilding_success createBuilding c x y ty tl cost Hwf Hget Hempty Hcost Hmoney)
    as (c1 & E1 & M1 & G1 & F1 & W1).
  destruct (bulldoze_clears c1 x y _ (createBuilding x y ty) W1 G1 eq_refl)
    as (c2 & E2 & M2 & G2 & F2 & W2).
  exists c1, c2. split; [done|]. split; [done|].
  rewrite Hty in M2. split; [lia|].
  split; [destruct ty; simpl in *; [injection Hcost as <-; lia..|discriminate]|].
  split.
  - rewrite G2. f_equal. f_equal. destruct tl as [i a b0 bd]. simpl in *. by subst bd.
  - split; [by eapply sameElsewhere_trans|done].
Qed.

Lemma place_then_bulldoze_witness :
  wellFormed fundedTown /\
  getTile fundedTown (Some 1) (Some 1) = Ok (Some (Tile.mk 3 1 1 None)) /\
  Tile.building (Tile.mk 3 1 1 None) = None /\
  buildCost BuildingType.road = Some 100 /\ 100 <= City.money fundedTown /\
  Building.type (plainFactory (Some 1) (Some 1) BuildingType.road) = BuildingType.road /\
  exists c1 c2,
    placeBuilding plainFactory fundedTown (Some 1) (Some 1) BuildingType.road = Ok c1 /\
    bulldoze c1 (Some 1) (Some 1) = Ok c2 /\
    City.money c2 = City.money fundedTown - 100 + refund BuildingType.road /\
    City.money c2 = City.money fundedTown - refund BuildingType.road /\
    getTile c2 (Some 1) (Some 1) = Ok (Some (Tile.mk 3 1 1 None)) /\
    sameElsewhere (Some 1) (Some 1) fundedTown c2 /\ wellFormed c2.
Proof.
  assert (W : wellFormed fundedTown) by (apply wellFormedb_true; by vm_compute).
  assert (G : getTile fundedTown (Some 1) (Some 1) = Ok (Some (Tile.mk 3 1 1 None)))
    by (by vm_compute).
  assert (M : 100 <= City.money fundedTown) by (by vm_compute).
  split; [exact W|]. split; [exact G|]. split; [reflexivity|]. split; [reflexivity|].
  split; [exact M|]. split; [reflexivity|].
  exact (place_then_bulldoze plainFactory fundedTown (Some 1) (Some 1)
           BuildingType.road (Tile.mk 3 1 1 None) 100 W G eq_refl eq_refl M eq_refl).
Defined.

(** X9: a second bulldoze, or a destroy, of a tile that bulldoze has just
    emptied finds nothing to do and returns the city as it is. *)
Theorem bulldoze_twice (c c' : City.t) (x y : option Z) :
  wellFormed c -> bulldoze c x y = Ok c' ->
  bulldoze c' x y = Ok c' /\ destroy c' x y = Ok c'.
Proof.
  intros Hwf H.
  assert (Hempty : exists tl, getTile c' x y = Ok (Some tl) /\ Tile.building tl = None).
  { unfold bulldoze in H. destruct (getTile c x y) as [[tl|]|] eqn:G; try discriminate.
    revert H. res_simpl. destruct (Tile.building tl) as [b|] eqn:Hb.
    - intros H. destruct (bulldoze_clears c x y tl b Hwf G Hb) as (c2 & E & _ & G2 & _).
      unfold bulldoze in E. rewrite G in E. revert E. res_simpl. rewrite Hb. intros E.
      assert (c2 = c') as -> by congruence. by eexists.
    - intros [= <-]. by exists tl. }
  destruct Hempty as (tl & G & Hb). unfold bulldoze, destroy. rewrite G. res_simpl.
  by rewrite Hb.
Qed.

Lemma bulldoze_twice_witness :
  wellFormed smallTown /\
  exists c', bulldoze smallTown (Some 0) (Some 1) = Ok c' /\
    bulldoze c' (Some 0) (Some 1) = Ok c' /\ destroy c' (Some 0) (Some 1) = Ok c'.
Proof.
  assert (W : wellFormed smallTown) by (apply wellFormedb_true; by vm_compute).
  split; [exact W|]. eexists.
  assert (E : bulldoze smallTown (Some 0) (Some 1)
              = Ok (match bulldoze smallTown (Some 0) (Some 1) with
                    | Ok c' => c' | Throw _ c' => c' end)) by (by vm_compute).
  split; [exact E|].
  exact (bulldoze_twice smallTown _ (Some 0) (Some 1) W E).
Defined.

(** X10: on a well-formed grid placeBuilding returns for every coordinate
    pair and every type, never raises the treasury and never takes it below
    zero, and keeps the grid well formed. *)
Theorem placeBuilding_never_overdraws (createBuilding : option Z -> option Z -> BuildingType.t -> Building.t)
  (c : City.t) (x y : option Z) (ty : BuildingType.t) :
  wellFormed c -> 0 <= City.money c ->
  exists c', placeBuilding createBuilding c x y ty = Ok c' /\
    0 <= City.money c' <= City.money c /\ wellFormed c'.
Proof.
  intros Hwf Hm.
  destruct (placeBuilding_declines createBuilding c x y ty) as (Hocc & Hout & Hpoor).
  destruct (getTile_total c x y Hwf) as [[tl|] G].
  - destruct (Tile.building tl) as [b|] eqn:Hb.
    + exists c. rewrite (Hocc tl b G Hb). split; [done|]. split; [lia|done].
    + destruct (buildCost_cases c ty) as [(cost & Hc & Hle & Hpos)|Hno].
      * destruct (placeBuilding_success createBuilding c x y ty tl cost Hwf G Hb Hc Hle)
          as (c' & -> & M & _ & _ & W).
        exists c'. split; [done|]. split; [lia|done].
      * rewrite (Hpoor tl G Hb Hno). eexists. split; [done|]. simpl.
        split; [lia|]. apply (onlyEmits_wf c); [apply onlyEmits_emit|done].
  - exists c. rewrite (Hout G). split; [done|]. split; [lia|done].
Qed.

Lemma placeBuilding_never_overdraws_witness :
  wellFormed fundedTown /\ 0 <= City.money fundedTown /\
  exists c', placeBuilding plainFactory fundedTown (Some 1) (Some 0)
               BuildingType.residential = Ok c' /\
    0 <= City.money c' <= City.money fundedTown /\ wellFormed c'.
Proof.
  assert (W : wellFormed fundedTown) by (apply wellFormedb_true; by vm_compute).
  assert (M : 0 <= City.money fundedTown) by (by vm_compute).
  split; [exact W|]. split; [exact M|].
  exact (placeBuilding_never_overdraws plainFactory fundedTown (Some 1) (Some 0)
           BuildingType.residential W M).
Defined.

(** ** getTileNeighbors *)

(** One conditional push: when the guard says exactly whether [(x, y)] is
    inside the bounds, the list gains the tile at [(x, y)] and nothing else. *)
Lemma pushTile_exact c cond x y ns :
  wellFormed c ->
  (cond = true <-> 0 <= x < City.size c /\ 0 <= y < City.size c) ->
  exists ns', pushTile c cond x y ns = Ok ns' /\
    (length ns' <= S (length ns))%nat /\
    forall o, o ∈ ns' <->
      o ∈ ns \/ exists t, o = Some t /\ inGrid c t /\ Tile.x t = x /\ Tile.y t = y.
Proof.
  intros Hwf Hcond. unfold pushTile. destruct cond.
  - destruct Hcond as [[Hx Hy] _]; [done|].
    destruct (getTile_inside c x y Hwf Hx Hy) as (col & tl & _ & _ & G & Ex & Ey).
    rewrite G. res_simpl. eexists. split; [done|].
    split; [rewrite length_app; simpl; lia|].
    intros o. rewrite elem_of_app, list_elem_of_singleton. split.
    + intros [?| ->]; [by left|]. right. exists tl. repeat split; try done.
      by eapply getTile_elem.
    + intros [?|(t & -> & Hin & Hxt & Hyt)]; [by left|]. right.
      destruct (inGrid_getTile c t Hwf Hin) as (_ & _ & Gt).
      rewrite Hxt, Hyt in Gt. congruence.
  - exists ns. split; [done|]. split; [lia|]. intros o. split; [by left|].
    intros [?|(t & -> & Hin & Hxt & Hyt)]; [done|].
    destruct (inGrid_getTile c t Hwf Hin) as (Bx & By & _).
    rewrite Hxt, Hyt in *. destruct Hcond as [_ Hc]. by specialize (Hc (conj Bx By)).
Qed.

Lemma getTileNeighbors_adjacent (c : City.t) (tl : Tile.t) :
  wellFormed c -> inGrid c tl ->
  exists ns, getTileNeighbors c (Tile.x tl) (Tile.y tl) = Ok ns /\
    (length ns <= 4)%nat /\ (None ∉ ns) /\
    forall t, Some t ∈ ns <-> inGrid c t /\ Tile.distanceTo tl t = 1.
Proof.
  intros Hwf Hin. destruct (inGrid_getTile c tl Hwf Hin) as (Hx & Hy & _).
  unfold getTileNeighbors.
  destruct (pushTile_exact c (Tile.x tl >? 0) (Tile.x tl - 1) (Tile.y tl) [] Hwf)
    as (n1 & -> & L1 & M1); [split; lia|]. res_simpl.
  destruct (pushTile_exact c (Tile.x tl <? City.size c - 1) (Tile.x tl + 1) (Tile.y tl)
              n1 Hwf) as (n2 & -> & L2 & M2); [split; lia|]. res_simpl.
  destruct (pushTile_exact c (Tile.y tl >? 0) (Tile.x tl) (Tile.y tl - 1) n2 Hwf)
    as (n3 & -> & L3 & M3); [split; lia|]. res_simpl.
  destruct (pushTile_exact c (Tile.y tl <? City.size c - 1) (Tile.x tl) (Tile.y tl + 1)
              n3 Hwf) as (n4 & -> & L4 & M4); [split; lia|].
  exists n4. split; [done|]. split; [simpl in *; lia|].
  assert (Hall : forall o, o ∈ n4 <->
            exists t, o = Some t /\ inGrid c t /\
              ((Tile.x t = Tile.x tl - 1 /\ Tile.y t = Tile.y tl) \/
               (Tile.x t = Tile.x tl + 1 /\ Tile.y t = Tile.y tl) \/
               (Tile.x t = Tile.x tl /\ Tile.y t = Tile.y tl - 1) \/
               (Tile.x t = Tile.x tl /\ Tile.y t = Tile.y tl + 1))).
  { intros o. rewrite M4, M3, M2, M1. split.
    - intros [[[[H|H]|H]|H]|H].
      + by apply not_elem_of_nil in H.
      + destruct H as (t & ? & ? & ? & ?). exists t. by eauto 10.
      + destruct H as (t & ? & ? & ? & ?). exists t. by eauto 10.
      + destruct H as (t & ? & ? & ? & ?). exists t. by eauto 10.
      + destruct H as (t & ? & ? & ? & ?). exists t. by eauto 10.
    - intros (t & -> & Ht & [[? ?]|[[? ?]|[[? ?]|[? ?]]]]).
      + left. left. left. right. by exists t.
      + left. left. right. by exists t.
      + left. right. by exists t.
      + right. by exists t. }
  split.
  - intros Hnone. apply Hall in Hnone as (t & ? & _). discriminate.
  - intros t. rewrite Hall. unfold Tile.distanceTo. split.
    + intros (t' & [= <-] & Ht & Hc). split; [done|]. lia.
    + intros [Ht Hd]. exists t. split; [done|]. split; [done|]. lia.
Qed.

(** X11: on a well-formed grid, the neighbours of a tile are exactly the
    tiles of the grid at Manhattan distance 1 from it: at most four, none of
    them null, so a corner has two and the only tile of a 1 x 1 grid none. *)
Theorem getTileNeighbors_are_adjacent_tiles (c : City.t) (tl : Tile.t) :
  wellFormed c -> inGrid c tl ->
  exists ns, getTileNeighbors c (Tile.x tl) (Tile.y tl) = Ok ns /\
    (length ns <= 4)%nat /\ (None ∉ ns) /\
    forall t, Some t ∈ ns <-> inGrid c t /\ Tile.distanceTo tl t = 1.
Proof. apply getTileNeighbors_adjacent. Qed.

Lemma getTileNeighbors_are_adjacent_tiles_witness :
  wellFormed smallTown /\ inGrid smallTown (Tile.mk 3 1 1 None) /\
  exists ns, getTileNeighbors smallTown (Tile.x (Tile.mk 3 1 1 None))
               (Tile.y (Tile.mk 3 1 1 None)) = Ok ns /\
    (length ns <= 4)%nat /\ (None ∉ ns) /\
    forall t, Some t ∈ ns <->
      inGrid smallTown t /\ Tile.distanceTo (Tile.mk 3 1 1 None) t = 1.
Proof.
  assert (W : wellFormed smallTown) by (apply wellFormedb_true; by vm_compute).
  assert (G : inGrid smallTown (Tile.mk 3 1 1 None)).
  { apply (getTile_elem smallTown (Some 1) (Some 1)). by vm_compute. }
  split; [exact W|]. split; [exact G|].
  exact (getTileNeighbors_are_adjacent_tiles smallTown (Tile.mk 3 1 1 None) W G).
Defined.

(** ** findTile: what it finds *)

Lemma NoDup_fmap_eq {A B : Type} (f : A -> B) (l : list A) x y :
  NoDup (f <$> l) -> x ∈ l -> y ∈ l -> f x = f y -> x = y.
Proof.
  induction l as [|a l IH]; intros Hnd Hx Hy Hf; [by apply not_elem_of_nil in Hx|].
  rewrite fmap_cons in Hnd. apply NoDup_cons in Hnd as [Ha Hnd].
  apply elem_of_cons in Hx as [->|Hx]; apply elem_of_cons in Hy as [->|Hy]; try done.
  - exfalso. apply Ha. rewrite Hf. by apply list_elem_of_fmap_2.
  - exfalso. apply Ha. rewrite <- Hf. by apply list_elem_of_fmap_2.
  - by apply IH.
Qed.

Lemma uniqueIds_eq c t t' :
  uniqueIds c -> inGrid c t -> inGrid c t' -> Tile.id t = Tile.id t' -> t = t'.
Proof. intros Hu Ht Ht'. by apply (NoDup_fmap_eq Tile.id (mjoin (City.tiles c))). Qed.

(** Two tiles of a well-formed grid with the same coordinates are the same. *)
Lemma inGrid_same_position c t t' :
  wellFormed c -> inGrid c t -> inGrid c t' ->
  Tile.x t = Tile.x t' -> Tile.y t = Tile.y t' -> t = t'.
Proof.
  intros Hwf Ht Ht' Hx Hy.
  destruct (inGrid_getTile c t Hwf Ht) as (_ & _ & G).
  destruct (inGrid_getTile c t' Hwf Ht') as (_ & _ & G').
  rewrite Hx, Hy in G. congruence.
Qed.

(** From any tile other than the start there is a tile of the grid one step
    nearer to the start. *)
Lemma step_toward c st t :
  wellFormed c -> inGrid c st -> inGrid c t -> 0 < Tile.distanceTo st t ->
  exists t', inGrid c t' /\ Tile.distanceTo st t' = Tile.distanceTo st t - 1 /\
             Tile.distanceTo t' t = 1.
Proof.
  intros Hwf Hst Ht Hd.
  destruct (inGrid_getTile c st Hwf Hst) as (Bxs & Bys & _).
  destruct (inGrid_getTile c t Hwf Ht) as (Bxt & Byt & _).
  unfold Tile.distanceTo in *.
  assert (Hpos : exists x' y', 0 <= x' < City.size c /\ 0 <= y' < City.size c /\
            Z.abs (Tile.x st - x') + Z.abs (Tile.y st - y')
              = Z.abs (Tile.x st - Tile.x t) + Z.abs (Tile.y st - Tile.y t) - 1 /\
            Z.abs (x' - Tile.x t) + Z.abs (y' - Tile.y t) = 1).
  { destruct (decide (Tile.x t < Tile.x st)); [exists (Tile.x t + 1), (Tile.y t); lia|].
    destruct (decide (Tile.x st < Tile.x t)); [exists (Tile.x t - 1), (Tile.y t); lia|].
    destruct (decide (Tile.y t < Tile.y st)); [exists (Tile.x t), (Tile.y t + 1); lia|].
    exists (Tile.x t), (Tile.y t - 1). lia. }
  destruct Hpos as (x' & y' & Bx & By & D1 & D2).
  destruct (getTile_inside c x' y' Hwf Bx By) as (col & t' & _ & _ & G & Ex & Ey).
  exists t'. rewrite Ex, Ey. split; [by eapply getTile_elem|done].
Qed.

(** When the queue is empty, every tile within the distance has been
    tested. *)
Lemma searchInv_closed c st filter maxDistance visited tested :
  wellFormed c -> inGrid c st ->
  searchInv c st filter maxDistance [] visited tested ->
  forall t, inGrid c t -> Tile.distanceTo st t <= maxDistance -> t ∈ tested.
Proof.
  intros Hwf Hst (Ha & Hb & Hc & Hd & _).
  assert (Hvis : forall t, Some t ∈ ([] : list (option Tile.t)) -> False)
    by (intros t H; by apply not_elem_of_nil in H).
  assert (Hn : forall n t, inGrid c t -> Tile.distanceTo st t = Z.of_nat n ->
            Tile.distanceTo st t <= maxDistance -> t ∈ tested).
  { induction n as [|n IH]; intros t Ht Hdist Hle.
    - assert (t = st) as ->.
      { unfold Tile.distanceTo in Hdist.
        apply (inGrid_same_position c); [done..|lia|lia]. }
      destruct Hd as [Hv|Hq]; [by apply Ha|by apply Hvis in Hq].
    - destruct (step_toward c st t Hwf Hst Ht) as (t' & Ht' & D1 & D2); [lia|].
      assert (Hin' : t' ∈ tested) by (apply IH; [done|lia|lia]).
      destruct (Hc t' t Hin' Ht D2) as [Hv|Hq]; [by apply Ha|by apply Hvis in Hq]. }
  intros t Ht Hle. apply (Hn (Z.to_nat (Tile.distanceTo st t))); [done| |done].
  unfold Tile.distanceTo. lia.
Qed.

(** A search that ends without a tile has tested, and found wanting, every
    tile within the distance. *)
Lemma searchLoop_none_complete c st filter maxDistance :
  wellFormed c -> uniqueIds c -> inGrid c st ->
  forall fuel tilesToSearch visited tested tested',
    searchLoop fuel c (Some st) filter maxDistance tilesToSearch visited tested
      = Some (Ok (None, tested')) ->
    searchInv c st filter maxDistance tilesToSearch visited tested ->
    forall t, inGrid c t -> Tile.distanceTo st t <= maxDistance -> filter t = false.
Proof.
  intros Hwf Hu Hst. induction fuel as [|fuel IH];
    intros queue visited tested tested' H Hinv; [discriminate|].
  simpl in H. destruct queue as [|o rest].
  { intros t Ht Hle. destruct Hinv as (Ha & Hb & Hrest).
    apply Hb. by apply (searchInv_closed c st filter maxDistance visited tested). }
  destruct Hinv as (Ha & Hb & Hc & Hd & He).
  apply Forall_cons in He as [(tile & -> & Htile) Hrest].
  assert (Hq : forall n, Some n ∈ Some tile :: rest -> n = tile \/ Some n ∈ rest).
  { intros n [[= ->]|?]%elem_of_cons; [by left|by right]. }
  destruct (decide (Tile.id tile ∈ visited)) as [Hin|Hnin].
  { apply (IH _ _ _ _ H). repeat apply conj; try done.
    - intros t n Ht Hn Hdist. destruct (Hc t n Ht Hn Hdist) as [?|[->|?]%Hq]; auto.
    - destruct Hd as [?|[->|?]%Hq]; auto. }
  destruct (Tile.distanceTo st tile >? maxDistance) eqn:Hfar.
  { apply (IH _ _ _ _ H). repeat apply conj; try done.
    - intros t Ht [Hid%elem_of_singleton|Hv]%elem_of_union Hle; [|by apply Ha].
      assert (t = tile) as -> by (by apply (uniqueIds_eq c)). lia.
    - intros t n Ht Hn Hdist. destruct (Hc t n Ht Hn Hdist) as [?|[->|?]%Hq].
      + left. apply elem_of_union. by right.
      + left. apply elem_of_union. left. by apply elem_of_singleton.
      + by right.
    - destruct Hd as [?|[->|?]%Hq].
      + left. apply elem_of_union. by right.
      + left. apply elem_of_union. left. by apply elem_of_singleton.
      + by right. }
  destruct (getTileNeighbors_allTiles c tile Hwf Htile) as (ns & Hns & Hall).
  assert (Hadj : forall n, inGrid c n -> Tile.distanceTo tile n = 1 -> Some n ∈ ns).
  { intros n Hn Hdist.
    destruct (getTileNeighbors_adjacent c tile Hwf Htile) as (ns' & Hns' & _ & _ & Hiff).
    assert (ns' = ns) as -> by congruence. by apply Hiff. }
  rewrite Hns in H. destruct (filter tile) eqn:Hf; [discriminate|].
  apply (IH _ _ _ _ H). repeat apply conj.
  - intros t Ht [Hid%elem_of_singleton|Hv]%elem_of_union Hle.
    + assert (t = tile) as -> by (by apply (uniqueIds_eq c)).
      apply elem_of_app. right. by left.
    + apply elem_of_app. left. by apply Ha.
  - intros t [Ht| ->%list_elem_of_singleton]%elem_of_app; [by apply Hb|done].
  - intros t n [Ht| ->%list_elem_of_singleton]%elem_of_app Hn Hdist.
    + destruct (Hc t n Ht Hn Hdist) as [?|[->|?]%Hq].
      * left. apply elem_of_union. by right.
      * left. apply elem_of_union. left. by apply elem_of_singleton.
      * right. apply elem_of_app. by left.
    + right. apply elem_of_app. right. by apply Hadj.
  - destruct Hd as [?|[->|?]%Hq].
    + left. apply elem_of_union. by right.
    + left. apply elem_of_union. left. by apply elem_of_singleton.
    + right. apply elem_of_app. by left.
  - by apply Forall_app.
Qed.

Lemma searchInv_start c st filter maxDistance :
  inGrid c st -> searchInv c st filter maxDistance [Some st] ∅ [].
Proof.
  intros Hst. repeat apply conj.
  - intros t _ Hv. by apply not_elem_of_empty in Hv.
  - intros t Ht. by apply not_elem_of_nil in Ht.
  - intros t n Ht. by apply not_elem_of_nil in Ht.
  - right. by left.
  - apply Forall_singleton. by exists st.
Qed.

(** X12: on a well-formed grid with distinct tile identities, findTile from
    a start inside the bounds returns a tile exactly when some tile of the
    grid within maxDistance of the start satisfies the filter.  A returned
    tile is a tile of the grid, satisfies the filter and lies within
    maxDistance; a null result means that no tile within maxDistance
    satisfies the filter. *)
Theorem findTile_finds_iff_match_in_range (c : City.t) (start : option Z * option Z)
  (st : Tile.t) (filter : Tile.t -> bool) (maxDistance : Z) :
  wellFormed c -> uniqueIds c -> getTile c start.1 start.2 = Ok (Some st) ->
  exists r, findTile c start filter maxDistance = Some (Ok r) /\
    (forall t, r = Some t ->
       inGrid c t /\ filter t = true /\ Tile.distanceTo st t <= maxDistance) /\
    (r = None ->
       forall t, inGrid c t -> Tile.distanceTo st t <= maxDistance -> filter t = false) /\
    (is_Some r <->
       exists t, inGrid c t /\ Tile.distanceTo st t <= maxDistance /\ filter t = true).
Proof.
  intros Hwf Hu G. pose proof (getTile_inBounds _ _ _ _ G) as Hb.
  destruct (findTile_traced_ok c start filter maxDistance Hwf Hb)
    as (st' & r & tested & G' & Hst & F & Hfuel & Ht & _ & Hr).
  assert (st' = st) as -> by congruence.
  assert (Hsome : forall t, r = Some t ->
            inGrid c t /\ filter t = true /\ Tile.distanceTo st t <= maxDistance).
  { intros t Hrt. destruct (Hr t Hrt) as [Hf Hin]. destruct (Ht t Hin) as [Hg Hd]. done. }
  assert (Hnone : r = None ->
            forall t, inGrid c t -> Tile.distanceTo st t <= maxDistance -> filter t = false).
  { intros ->.
    apply (searchLoop_none_complete c st filter maxDistance Hwf Hu Hst
             (searchFuel c) [Some st] ∅ [] tested); [by apply Hfuel|].
    by apply searchInv_start. }
  exists r. split; [unfold findTile; by rewrite F|]. split; [done|]. split; [done|].
  split.
  - intros [t ->]. exists t. destruct (Hsome t eq_refl) as (? & ? & ?). done.
  - intros (t & Hg & Hd & Hf). destruct r as [t'|]; [by eexists|].
    rewrite (Hnone eq_refl t Hg Hd) in Hf. discriminate.
Qed.

Lemma findTile_finds_iff_match_in_range_witness :
  wellFormed smallTown /\ uniqueIds smallTown /\
  getTile smallTown (Some 1, Some 1).1 (Some 1, Some 1).2 = Ok (Some (Tile.mk 3 1 1 None)) /\
  exists r, findTile smallTown (Some 1, Some 1)
              (fun t => bool_decide (Tile.building t = Some street)) 1 = Some (Ok r) /\
    (forall t, r = Some t ->
       inGrid smallTown t /\ bool_decide (Tile.building t = Some street) = true /\
       Tile.distanceTo (Tile.mk 3 1 1 None) t <= 1) /\
    (r = None ->
       forall t, inGrid smallTown t -> Tile.distanceTo (Tile.mk 3 1 1 None) t <= 1 ->
         bool_decide (Tile.building t = Some street) = false) /\
    (is_Some r <->
       exists t, inGrid smallTown t /\ Tile.distanceTo (Tile.mk 3 1 1 None) t <= 1 /\
         bool_decide (Tile.building t = Some street) = true).
Proof.
  assert (W : wellFormed smallTown) by (apply wellFormedb_true; by vm_compute).
  assert (U : uniqueIds smallTown).
  { apply (bool_decide_unpack (NoDup (Tile.id <$> mjoin (City.tiles smallTown)))).
    by vm_compute. }
  assert (G : getTile smallTown (Some 1, Some 1).1 (Some 1, Some 1).2
              = Ok (Some (Tile.mk 3 1 1 None))) by (by vm_compute).
  split; [exact W|]. split; [exact U|]. split; [exact G|].
  exact (findTile_finds_iff_match_in_range smallTown (Some 1, Some 1) (Tile.mk 3 1 1 None)
           (fun t => bool_decide (Tile.building t = Some street)) 1 W U G).
Defined.

(** X13: when the start tile itself satisfies the filter and maxDistance is
    not negative, findTile returns the start tile, and the start tile is the
    only tile the filter is called on. *)
Theorem findTile_start_matches (c : City.t) (start : option Z * option Z)
  (st : Tile.t) (filter : Tile.t -> bool) (maxDistance : Z) :
  wellFormed c -> getTile c start.1 start.2 = Ok (Some st) ->
  filter st = true -> 0 <= maxDistance ->
  findTile_traced c start filter maxDistance = Some (Ok (Some st, [st])) /\
  findTile c start filter maxDistance = Some (Ok (Some st)).
Proof.
  intros Hwf G Hf Hd.
  assert (Hst : inGrid c st) by (by eapply getTile_elem).
  assert (F : findTile_traced c start filter maxDistance = Some (Ok (Some st, [st]))).
  { unfold findTile_traced. rewrite G.
    replace (searchFuel c) with (S (searchFuel c - 1)) by (unfold searchFuel; lia).
    simpl. destruct (decide (Tile.id st ∈ (∅ : gset nat))) as [Hin|_];
      [by apply not_elem_of_empty in Hin|].
    assert (Hz : Tile.distanceTo st st = 0) by (unfold Tile.distanceTo; lia).
    rewrite Hz. destruct (0 >? maxDistance) eqn:E; [lia|].
    destruct (getTileNeighbors_allTiles c st Hwf Hst) as (ns & -> & _).
    by rewrite Hf. }
  split; [done|]. unfold findTile. by rewrite F.
Qed.

Lemma findTile_start_matches_witness :
  wellFormed smallTown /\
  getTile smallTown (Some 0, Some 1).1 (Some 0, Some 1).2
    = Ok (Some (Tile.mk 1 0 1 (Some street))) /\
  bool_decide (Tile.building (Tile.mk 1 0 1 (Some street)) = Some street) = true /\
  0 <= 3 /\
  findTile_traced smallTown (Some 0, Some 1)
    (fun t => bool_decide (Tile.building t = Some street)) 3
    = Some (Ok (Some (Tile.mk 1 0 1 (Some street)), [Tile.mk 1 0 1 (Some street)])) /\
  findTile smallTown (Some 0, Some 1)
    (fun t => bool_decide (Tile.building t = Some street)) 3
    = Some (Ok (Some (Tile.mk 1 0 1 (Some street)))).
Proof.
  assert (W : wellFormed smallTown) by (apply wellFormedb_true; by vm_compute).
  assert (G : getTile smallTown (Some 0, Some 1).1 (Some 0, Some 1).2
              = Ok (Some (Tile.mk 1 0 1 (Some street)))) by (by vm_compute).
  assert (F : bool_decide (Tile.building (Tile.mk 1 0 1 (Some street)) = Some street) = true)
    by (by vm_compute).
  assert (D : 0 <= 3) by lia.
  split; [exact W|]. split; [exact G|]. split; [exact F|]. split; [exact D|].
  exact (findTile_start_matches smallTown (Some 0, Some 1) (Tile.mk 1 0 1 (Some street))
           (fun t => bool_decide (Tile.building t = Some street)) 3 W G F D).
Defined.

(** X14: with a negative maxDistance findTile returns null without ever
    calling the filter, from any start that is a tile. *)
Theorem findTile_negative_distance (c : City.t) (start : option Z * option Z)
  (st : Tile.t) (filter : Tile.t -> bool) (maxDistance : Z) :
  getTile c start.1 start.2 = Ok (Some st) -> maxDistance < 0 ->
  findTile_traced c start filter maxDistance = Some (Ok (None, [])) /\
  findTile c start filter maxDistance = Some (Ok None).
Proof.
  intros G Hd.
  assert (F : findTile_traced c start filter maxDistance = Some (Ok (None, []))).
  { unfold findTile_traced. rewrite G.
    replace (searchFuel c) with (S (S (searchFuel c - 2))) by (unfold searchFuel; lia).
    simpl. destruct (decide (Tile.id st ∈ (∅ : gset nat))) as [Hin|_];
      [by apply not_elem_of_empty in Hin|].
    assert (Hz : Tile.distanceTo st st = 0) by (unfold Tile.distanceTo; lia).
    rewrite Hz. by destruct (0 >? maxDistance) eqn:E; [|lia]. }
  split; [done|]. unfold findTile. by rewrite F.
Qed.

Lemma findTile_negative_distance_witness :
  getTile smallTown (Some 0, Some 1).1 (Some 0, Some 1).2
    = Ok (Some (Tile.mk 1 0 1 (Some street))) /\ -1 < 0 /\
  findTile_traced smallTown (Some 0, Some 1) (fun _ => true) (-1) = Some (Ok (None, [])) /\
  findTile smallTown (Some 0, Some 1) (fun _ => true) (-1) = Some (Ok None).
Proof.
  assert (G : getTile smallTown (Some 0, Some 1).1 (Some 0, Some 1).2
              = Ok (Some (Tile.mk 1 0 1 (Some street)))) by (by vm_compute).
  assert (D : -1 < 0) by lia.
  split; [exact G|]. split; [exact D|].
  exact (findTile_negative_distance smallTown (Some 0, Some 1)
           (Tile.mk 1 0 1 (Some street)) (fun _ => true) (-1) G D).
Defined.

(** ** The mission engine, continued *)

Lemma doneCount_bounds ms : 0 <= doneCount ms <= Z.of_nat (length ms).
Proof.
  induction ms as [|km ms IH]; [done|].
  rewrite doneCount_cons. simpl length. destruct (Mission.done km.2); lia.
Qed.

Lemma doneCount_all ms :
  Forall (fun km : Z * Mission.t => Mission.done km.2 = true) ms ->
  doneCount ms = Z.of_nat (length ms).
Proof.
  induction 1 as [|km ms Hd _ IH]; [done|].
  rewrite doneCount_cons, Hd, IH. simpl. lia.
Qed.

Lemma checkedAll_length p buildCount roadCount ms :
  length (checkedAll p buildCount roadCount ms) = length ms.
Proof. unfold checkedAll. by rewrite length_fmap. Qed.

Lemma checkedAll_all_done p buildCount roadCount ms :
  Forall (fun km : Z * Mission.t => Mission.done km.2 = true) ms ->
  Forall (fun km : Z * Mission.t => Mission.done km.2 = true)
         (checkedAll p buildCount roadCount ms).
Proof.
  intros H. unfold checkedAll. apply Forall_fmap. eapply Forall_impl; [exact H|].
  intros [k m] Hd. simpl in *. by apply checked_done.
Qed.

Lemma sameMissions_length ms ms0 : sameMissions ms ms0 -> length ms = length ms0.
Proof. apply Forall2_length. Qed.

(** X15: once the three missions of level 2 are done, every further mission
    evaluation reports the end of the campaign again: it emits the success
    notification and calls toggleFinished once more, whatever the tallies
    are, and leaves level, treasury and flags as they are. *)
Theorem campaign_end_fires_on_every_call (c : City.t) (buildCount roadCount p : Z)
  (ms : list (Z * Mission.t)) :
  City.level c = 2 -> City.levels c !! 2 = Some ms -> length ms = 3%nat ->
  Forall (fun km : Z * Mission.t => Mission.done km.2 = true) ms ->
  population c = Ok p ->
  exists c' ms', evaluateMissions buildCount roadCount c = Ok c' /\
    City.events c' = City.events c
      ++ [Notify "success" "Parabéns! Concluiste as Missões!"; ToggleFinished] /\
    City.level c' = 2 /\ City.money c' = City.money c /\ City.missionCounter c' = 3 /\
    City.levels c' !! 2 = Some ms' /\ length ms' = 3%nat /\
    Forall (fun km : Z * Mission.t => Mission.done km.2 = true) ms'.
Proof.
  intros Hlev Hl Hlen Hdone Hp. rewrite <- Hlev in Hl.
  destruct (evaluateMissions_checked buildCount roadCount c p ms Hp Hl)
    as (c1 & -> & Hls & Hmc & Hlv & Hmo & _ & _ & _ & Hev).
  pose proof (checkedAll_all_done p buildCount roadCount ms Hdone) as Hall.
  assert (Hcount : doneCount (checkedAll p buildCount roadCount ms) = 3).
  { rewrite (doneCount_all _ Hall), checkedAll_length, Hlen. done. }
  rewrite Hcount in *.
  exists (levelUp 3 c1), (checkedAll p buildCount roadCount ms).
  split; [done|]. unfold levelUp. simpl. rewrite Hlv, Hlev. simpl.
  rewrite Hev, Hmo, Hmc, Hls, Hlev, lookup_insert_eq, checkedAll_length.
  repeat split; try done; [by rewrite <- app_assoc|congruence].
Qed.

Lemma campaign_end_fires_on_every_call_witness :
  City.level finishedTown = 2 /\ City.levels finishedTown !! 2 = Some finishedMissions /\
  length finishedMissions = 3%nat /\
  Forall (fun km : Z * Mission.t => Mission.done km.2 = true) finishedMissions /\
  population finishedTown = Ok 4 /\
  exists c' ms', evaluateMissions 0 0 finishedTown = Ok c' /\
    City.events c' = City.events finishedTown
      ++ [Notify "success" "Parabéns! Concluiste as Missões!"; ToggleFinished] /\
    City.level c' = 2 /\ City.money c' = City.money finishedTown /\
    City.missionCounter c' = 3 /\
    City.levels c' !! 2 = Some ms' /\ length ms' = 3%nat /\
    Forall (fun km : Z * Mission.t => Mission.done km.2 = true) ms'.
Proof.
  assert (L : City.level finishedTown = 2) by reflexivity.
  assert (T : City.levels finishedTown !! 2 = Some finishedMissions) by (by vm_compute).
  assert (N : length finishedMissions = 3%nat) by reflexivity.
  assert (D : Forall (fun km : Z * Mission.t => Mission.done km.2 = true) finishedMissions)
    by (repeat constructor).
  assert (P : population finishedTown = Ok 4) by (by vm_compute).
  split; [exact L|]. split; [exact T|]. split; [exact N|]. split; [exact D|].
  split; [exact P|].
  exact (campaign_end_fires_on_every_call finishedTown 0 0 4 finishedMissions L T N D P).
Defined.

Lemma doneCount_flags ms :
  doneCount ms
  = sumZ (fun b : bool => if b then 1 else 0)
         ((fun km : Z * Mission.t => Mission.done km.2) <$> ms).
Proof.
  induction ms as [|km ms IH]; [done|].
  rewrite doneCount_cons, IH. simpl. by destruct (Mission.done km.2).
Qed.

Section MissionEngineDetail.

Variable services : list (City.t -> City.t).
Variable tileSimulate : Tile.t -> City.t -> City.t.
Hypothesis services_frame : Forall keepsFrame services.
Hypothesis tileSimulate_frame : forall tl, keepsFrame (tileSimulate tl).

(** One call of simulate, with what it does to the mission table, the
    counter and the level. *)
Lemma simulate_detail c steps :
  wellFormed c -> missionsOk c ->
  exists c' p buildCount roadCount ms,
    simulate services tileSimulate c steps = Ok c' /\
    City.levels c !! City.level c = Some ms /\ length ms = 3%nat /\
    City.levels c'
      = <[City.level c := checkedAll p buildCount roadCount ms]> (City.levels c) /\
    City.missionCounter c' = doneCount (checkedAll p buildCount roadCount ms) /\
    ((City.missionCounter c' = 3 /\ City.level c = 1 /\ City.level c' = 2) \/
     (~ (City.missionCounter c' = 3 /\ City.level c = 1) /\ City.level c' = City.level c)).
Proof.
  intros Hwf [Htab Hlev]. unfold simulate.
  destruct (simulateSteps_framed services tileSimulate services_frame tileSimulate_frame
              c (Z.to_nat steps) (c, 0, 0))
    as ([[c1 bc] rc] & -> & (W1 & S1 & T1 & L1 & Ls1)); [by split|].
  simpl in *. res_simpl.
  destruct (population_total c1 W1) as [p Hp].
  assert (Hms : exists ms, City.levels c !! City.level c = Some ms /\ length ms = 3%nat).
  { destruct Hlev as [-> | ->].
    - destruct (Htab 1 _ eq_refl) as (ms & ? & Hs). exists ms. split; [done|].
      by rewrite (sameMissions_length _ _ Hs).
    - destruct (Htab 2 _ eq_refl) as (ms & ? & Hs). exists ms. split; [done|].
      by rewrite (sameMissions_length _ _ Hs). }
  destruct Hms as (ms & Hl & Hlen).
  assert (Hl1 : City.levels c1 !! City.level c1 = Some ms) by (by rewrite L1, Ls1).
  destruct (evaluateMissions_checked bc rc c1 p ms Hp Hl1)
    as (c2 & -> & Hls2 & Hmc2 & Hlv2 & _).
  res_simpl.
  destruct (levelUp_frame (doneCount (checkedAll p bc rc ms)) c2) as (_ & _ & _ & Fls & Fmc).
  eexists _, p, bc, rc, ms. split; [done|]. split; [done|]. split; [done|]. simpl.
  split; [by rewrite Fls, Hls2, L1, Ls1|].
  split; [by rewrite Fmc|].
  rewrite Fmc, Hmc2.
  destruct (levelUp_level (doneCount (checkedAll p bc rc ms)) c2)
    as [(H3 & H1 & H2 & _)|(Hn & Hsame & _)].
  - left. split; [done|]. split; [congruence|done].
  - right. split; [|congruence]. intros [H3 H1]. apply Hn. split; [done|congruence].
Qed.

(** X16: one call of simulate leaves [missionCounter] at the number of set
    flags of the level it evaluated, a number between 0 and 3.  The level
    changes only from 1 to 2 and only when that number is 3; at level 1 with
    fewer set flags, and at level 2 always, the level stays. *)
Theorem simulate_counts_flags_and_steps_level (c : City.t) (steps : Z) :
  wellFormed c -> missionsOk c ->
  exists c' fl, simulate services tileSimulate c steps = Ok c' /\
    flags c' (City.level c) = Some fl /\
    City.missionCounter c' = sumZ (fun b : bool => if b then 1 else 0) fl /\
    0 <= City.missionCounter c' <= 3 /\
    ((City.missionCounter c' = 3 /\ City.level c = 1 /\ City.level c' = 2) \/
     (~ (City.missionCounter c' = 3 /\ City.level c = 1) /\ City.level c' = City.level c)) /\
    (City.level c = 2 -> City.level c' = 2).
Proof.
  intros Hwf Hm.
  destruct (simulate_detail c steps Hwf Hm)
    as (c' & p & bc & rc & ms & E & Hl & Hlen & Hls & Hmc & Hlev).
  exists c', ((fun km : Z * Mission.t => Mission.done km.2) <$> checkedAll p bc rc ms).
  split; [done|].
  split; [unfold flags; by rewrite Hls, lookup_insert_eq|].
  split; [by rewrite Hmc, doneCount_flags|].
  split.
  { rewrite Hmc. pose proof (doneCount_bounds (checkedAll p bc rc ms)) as Hb.
    rewrite checkedAll_length, Hlen in Hb. lia. }
  split; [done|]. intros H2. destruct Hlev as [(_ & H1 & _)|[_ ->]]; [lia|done].
Qed.

End MissionEngineDetail.

Lemma simulate_counts_flags_and_steps_level_witness :
  Forall keepsFrame [] /\ (forall tl, keepsFrame (moveIn tl)) /\
  wellFormed fullTown /\ missionsOk fullTown /\
  exists c' fl, simulate [] moveIn fullTown 1 = Ok c' /\
    flags c' (City.level fullTown) = Some fl /\
    City.missionCounter c' = sumZ (fun b : bool => if b then 1 else 0) fl /\
    0 <= City.missionCounter c' <= 3 /\
    ((City.missionCounter c' = 3 /\ City.level fullTown = 1 /\ City.level c' = 2) \/
     (~ (City.missionCounter c' = 3 /\ City.level fullTown = 1) /\
      City.level c' = City.level fullTown)) /\
    (City.level fullTown = 2 -> City.level c' = 2).
Proof.
  assert (S : Forall keepsFrame []) by apply Forall_nil_2.
  assert (W : wellFormed fullTown) by (apply wellFormedb_true; by vm_compute).
  split; [exact S|]. split; [exact moveIn_keepsFrame|].
  split; [exact W|]. split; [exact fullTown_missionsOk|].
  exact (simulate_counts_flags_and_steps_level [] moveIn S moveIn_keepsFrame fullTown 1 W
           fullTown_missionsOk).
Defined.

(** ** The constructor *)

Lemma fmap_bind_list {A B C : Type} (f : B -> C) (g : A -> list B) (l : list A) :
  f <$> (l ≫= g) = l ≫= (fun a => f <$> g a).
Proof.
  induction l as [|a l IH]; [done|]. csimpl. by rewrite fmap_app, IH.
Qed.

Lemma join_fmap_bind {A B : Type} (g : A -> list B) (l : list A) :
  mjoin (g <$> l) = l ≫= g.
Proof. induction l as [|a l IH]; [done|]. csimpl. by rewrite IH. Qed.

Lemma sumZ_zero {A : Type} (f : A -> Z) l : (forall a, a ∈ l -> f a = 0) -> sumZ f l = 0.
Proof.
  induction l as [|a l IH]; intros H; simpl; [done|].
  rewrite (H a) by (by left). rewrite IH; [done|]. intros b Hb. apply H. by right.
Qed.

Lemma length_bind_const {A B : Type} (g : A -> list B) (l : list A) n :
  (forall a, a ∈ l -> length (g a) = n) -> length (l ≫= g) = (length l * n)%nat.
Proof.
  induction l as [|a l IH]; intros H; [done|]. csimpl.
  rewrite length_app, (H a) by (by left). rewrite IH; [lia|].
  intros b Hb. apply H. by right.
Qed.

(** X17: a new city has size x size tiles, all empty and each at its own
    position, with pairwise distinct identities; its population is 0, its
    level 1, its clock 0, its treasury the money given, and its mission table
    the initial one. *)
Theorem newCity_is_fresh (size money : Z) :
  wellFormed (newCity size money) /\ uniqueIds (newCity size money) /\
  missionsOk (newCity size money) /\
  length (mjoin (City.tiles (newCity size money))) = (Z.to_nat size * Z.to_nat size)%nat /\
  (forall t, inGrid (newCity size money) t -> Tile.building t = None) /\
  population (newCity size money) = Ok 0 /\
  City.money (newCity size money) = money /\ City.level (newCity size money) = 1 /\
  City.simTime (newCity size money) = 0.
Proof.
  assert (Hjoin : mjoin (City.tiles (newCity size money))
                  = seqZ 0 size ≫= (fun x => (fun y => newTile size x y) <$> seqZ 0 size)).
  { simpl. apply join_fmap_bind. }
  assert (Hempty : forall t, inGrid (newCity size money) t -> Tile.building t = None).
  { intros t. unfold inGrid. rewrite Hjoin.
    intros (x & (y & -> & _)%list_elem_of_fmap & _)%list_elem_of_bind. done. }
  split; [apply newCity_wellFormed|]. split; [|split; [by apply initial_missionsOk|]].
  - unfold uniqueIds. rewrite Hjoin, fmap_bind_list. apply NoDup_bind.
    + intros x1 x2 i Hx1%elem_of_seqZ Hx2%elem_of_seqZ
        (j1 & -> & (y1 & -> & Hy1%elem_of_seqZ)%list_elem_of_fmap)%list_elem_of_fmap
        (j2 & Hi & (y2 & -> & Hy2%elem_of_seqZ)%list_elem_of_fmap)%list_elem_of_fmap.
      simpl in Hi. nia.
    + intros x Hx%elem_of_seqZ. rewrite <- list_fmap_compose.
      apply NoDup_fmap_2_strong; [|apply NoDup_seqZ].
      intros y1 y2 Hy1%elem_of_seqZ Hy2%elem_of_seqZ Hi. simpl in Hi. nia.
    + apply NoDup_seqZ.
  - split.
    { rewrite Hjoin. rewrite (length_bind_const _ _ (Z.to_nat size)).
      - by rewrite length_seqZ.
      - intros x _. by rewrite length_fmap, length_seqZ. }
    split; [done|]. split; [|done].
    rewrite (population_sum _ (newCity_wellFormed size money)). f_equal.
    apply sumZ_zero. intros t Ht. unfold residentCount. by rewrite (Hempty t Ht).
Qed.

(** ** Population and buildings *)

Lemma sumZ_alter {A : Type} (f : A -> Z) (g : A -> A) l i a :
  l !! i = Some a -> sumZ f (alter g i l) = sumZ f l - f a + f (g a).
Proof.
  revert i. induction l as [|b l IH]; intros i Hi; [done|].
  destruct i as [|i].
  - simpl in *. injection Hi as ->. lia.
  - change (alter g (S i) (b :: l)) with (b :: alter g i l).
    simpl in *. rewrite (IH i Hi). lia.
Qed.

(** Replacing the tile at [(x, y)] changes the sum over the grid by the
    difference between the new and the old tile. *)
Lemma sumZ_updateTileAt (f : Tile.t -> Z) c x y g tl :
  getTile c x y = Ok (Some tl) ->
  sumZ f (mjoin (City.tiles (updateTileAt x y g c)))
  = sumZ f (mjoin (City.tiles c)) - f tl + f (g tl).
Proof.
  unfold getTile, updateTileAt. destruct x as [x|], y as [y|]; try discriminate.
  destruct (_ || _); [discriminate|].
  destruct (City.tiles c !! Z.to_nat x) as [column|] eqn:Hc; [|discriminate].
  intros [= Hy]. simpl. rewrite !sumZ_join.
  rewrite (sumZ_alter (sumZ f) _ _ _ column Hc).
  rewrite (sumZ_alter f g column _ tl Hy). lia.
Qed.

Lemma population_after_update c c' x y g tl :
  wellFormed c' -> getTile c x y = Ok (Some tl) ->
  City.tiles c' = City.tiles (updateTileAt x y g c) ->
  population c'
  = Ok (sumZ residentCount (mjoin (City.tiles c)) - residentCount tl + residentCount (g tl)).
Proof.
  intros W G T. rewrite (population_sum c' W), T.
  by rewrite (sumZ_updateTileAt residentCount c x y g tl G).
Qed.

Lemma bulldoze_tiles c x y tl b c' :
  wellFormed c -> getTile c x y = Ok (Some tl) -> Tile.building tl = Some b ->
  bulldoze c x y = Ok c' ->
  City.tiles c' = City.tiles (updateTileAt x y (Tile.setBuilding None) c) /\ wellFormed c'.
Proof.
  intros Hwf Hget Hb. unfold bulldoze. rewrite Hget. res_simpl. rewrite Hb.
  set (c1 := City.emit (SoundEffect "bulldoze") _).
  assert (H1 : wellFormed c1 /\ City.size c1 = City.size c /\ City.tiles c1 = City.tiles c).
  { unfold c1. destruct (Building.type b); simpl; (split; [by destruct Hwf|done]). }
  destruct H1 as (W1 & S1 & T1).
  destruct (clearTile_ok x y tl b c1 W1) as (c2 & -> & T2 & _ & _ & _ & _ & _ & _ & _ & W2).
  { by apply (getTile_ext c). }
  intros [= <-]. split; [|done]. rewrite T2. by apply updateTileAt_tiles_ext.
Qed.

Lemma destroy_tiles c x y tl b c' :
  wellFormed c -> getTile c x y = Ok (Some tl) -> Tile.building tl = Some b ->
  Building.type b = BuildingType.residential -> destroy c x y = Ok c' ->
  City.tiles c' = City.tiles (updateTileAt x y (Tile.setBuilding None) c) /\ wellFormed c'.
Proof.
  intros Hwf Hget Hb Hty. unfold destroy. rewrite Hget. res_simpl. rewrite Hb, Hty.
  set (c1 := City.emit (SoundEffect "explosion") _).
  assert (H1 : wellFormed c1 /\ City.size c1 = City.size c /\ City.tiles c1 = City.tiles c).
  { unfold c1. simpl. split; [by destruct Hwf|done]. }
  destruct H1 as (W1 & S1 & T1).
  destruct (clearTile_ok x y tl b c1 W1) as (c2 & -> & T2 & _ & _ & _ & _ & _ & _ & _ & W2).
  { by apply (getTile_ext c). }
  intros [= <-]. split; [|done]. rewrite T2. by apply updateTileAt_tiles_ext.
Qed.

Lemma placeBuilding_tiles createBuilding c x y ty tl cost c' :
  wellFormed c -> getTile c x y = Ok (Some tl) -> Tile.building tl = None ->
  buildCost ty = Some cost -> cost <= City.money c ->
  placeBuilding createBuilding c x y ty = Ok c' ->
  City.tiles c'
  = City.tiles (updateTileAt x y (Tile.setBuilding (Some (createBuilding x y ty))) c).
Proof.
  intros Hwf Hget Hempty Hcost Hmoney.
  unfold placeBuilding. rewrite Hget. res_simpl. rewrite Hempty.
  rewrite (hasMoneyForBuild_pays c ty cost Hcost Hmoney).
  set (b := createBuilding x y ty).
  set (ca := City.emit (SoundEffect "building") (City.set_money (City.money c - cost) c)).
  set (cb := updateTileAt x y (Tile.setBuilding (Some b)) ca).
  set (cc := City.emit (RefreshView (Tile.x tl) (Tile.y tl)) cb).
  assert (Wa : wellFormed ca) by (by destruct Hwf).
  assert (Wb : wellFormed cb) by (by apply updateTileAt_wf).
  assert (Wc : wellFormed cc) by apply (onlyEmits_wf _ _ (onlyEmits_emit _ _) Wb).
  destruct (refreshNeighbors_ok x y cc Wc) as (cd & -> & Ed). res_simpl.
  destruct (onlyEmits_fields _ _ Ed) as (_ & Td & _).
  assert (Tb : City.tiles cb = City.tiles (updateTileAt x y (Tile.setBuilding (Some b)) c))
    by (by apply updateTileAt_tiles_ext).
  destruct (Building.type b); intros [= <-]; simpl; by rewrite Td.
Qed.

(** X18: the population follows the buildings.  Bulldozing a building, or
    destroying a residential one, lowers the population by the residents of
    that building; placing a building raises it by the residents the factory
    gave the new building. *)
Theorem population_follows_buildings (createBuilding : option Z -> option Z -> BuildingType.t -> Building.t)
  (c : City.t) (x y : option Z) (tl : Tile.t) :
  wellFormed c -> getTile c x y = Ok (Some tl) ->
  exists p, population c = Ok p /\
    (forall b, Tile.building tl = Some b ->
       exists c', bulldoze c x y = Ok c' /\ population c' = Ok (p - residentCount tl)) /\
    (forall b, Tile.building tl = Some b -> Building.type b = BuildingType.residential ->
       exists c', destroy c x y = Ok c' /\ population c' = Ok (p - residentCount tl)) /\
    (forall ty cost, Tile.building tl = None -> buildCost ty = Some cost ->
       cost <= City.money c ->
       exists c', placeBuilding createBuilding c x y ty = Ok c' /\
         population c'
         = Ok (p + default 0 (Building.residents (createBuilding x y ty)))).
Proof.
  intros Hwf G. exists (sumZ residentCount (mjoin (City.tiles c))).
  split; [by apply population_sum|]. repeat apply conj.
  - intros b Hb. destruct (bulldoze_clears c x y tl b Hwf G Hb) as (c' & E & _).
    exists c'. split; [done|].
    destruct (bulldoze_tiles c x y tl b c' Hwf G Hb E) as [T W].
    rewrite (population_after_update c c' x y _ tl W G T). f_equal.
    unfold residentCount at 3. simpl. lia.
  - intros b Hb Hty. destruct (destroy_clears c x y tl b Hwf G Hb Hty) as (c' & E & _).
    exists c'. split; [done|].
    destruct (destroy_tiles c x y tl b c' Hwf G Hb Hty E) as [T W].
    rewrite (population_after_update c c' x y _ tl W G T). f_equal.
    unfold residentCount at 3. simpl. lia.
  - intros ty cost He Hc Hm.
    destruct (placeBuilding_success createBuilding c x y ty tl cost Hwf G He Hc Hm)
      as (c' & E & _ & _ & _ & W).
    exists c'. split; [done|].
    pose proof (placeBuilding_tiles createBuilding c x y ty tl cost c' Hwf G He Hc Hm E) as T.
    rewrite (population_after_update c c' x y _ tl W G T). f_equal.
    unfold residentCount at 2 3. rewrite He. simpl. lia.
Qed.

Lemma population_follows_buildings_witness :
  wellFormed smallTown /\
  getTile smallTown (Some 0) (Some 0) = Ok (Some (Tile.mk 0 0 0 (Some (house 4)))) /\
  exists p, population smallTown = Ok p /\
    (forall b, Tile.building (Tile.mk 0 0 0 (Some (house 4))) = Some b ->
       exists c', bulldoze smallTown (Some 0) (Some 0) = Ok c' /\
         population c' = Ok (p - residentCount (Tile.mk 0 0 0 (Some (house 4))))) /\
    (forall b, Tile.building (Tile.mk 0 0 0 (Some (house 4))) = Some b ->
       Building.type b = BuildingType.residential ->
       exists c', destroy smallTown (Some 0) (Some 0) = Ok c' /\
         population c' = Ok (p - residentCount (Tile.mk 0 0 0 (Some (house 4))))) /\
    (forall ty cost, Tile.building (Tile.mk 0 0 0 (Some (house 4))) = None ->
       buildCost ty = Some cost -> cost <= City.money smallTown ->
       exists c', placeBuilding plainFactory smallTown (Some 0) (Some 0) ty = Ok c' /\
         population c'
         = Ok (p + default 0 (Building.residents (plainFactory (Some 0) (Some 0) ty)))).
Proof.
  assert (W : wellFormed smallTown) by (apply wellFormedb_true; by vm_compute).
  assert (G : getTile smallTown (Some 0) (Some 0)
              = Ok (Some (Tile.mk 0 0 0 (Some (house 4))))) by (by vm_compute).
  split; [exact W|]. split; [exact G|].
  exact (population_follows_buildings plainFactory smallTown (Some 0) (Some 0)
           (Tile.mk 0 0 0 (Some (house 4))) W G).
Defined.

(** ** findTile: the order of the search *)

Lemma queue_head_cases (tile : Tile.t) rest n :
  Some n ∈ Some tile :: rest -> n = tile \/ Some n ∈ rest.
Proof. intros [[= ->]|?]%elem_of_cons; [by left|by right]. Qed.

Lemma searchInv_skip c st filter maxDistance tile rest visited tested :
  searchInv c st filter maxDistance (Some tile :: rest) visited tested ->
  Tile.id tile ∈ visited ->
  searchInv c st filter maxDistance rest visited tested.
Proof.
  intros (Ha & Hb & Hc & Hd & He) Hin.
  apply Forall_cons in He as [_ Hrest]. repeat apply conj; try done.
  - intros t n Ht Hn Hdist.
    destruct (Hc t n Ht Hn Hdist) as [?|[->|?]%queue_head_cases]; auto.
  - destruct Hd as [?|[->|?]%queue_head_cases]; auto.
Qed.

Lemma searchInv_far c st filter maxDistance tile rest visited tested :
  uniqueIds c -> inGrid c tile ->
  searchInv c st filter maxDistance (Some tile :: rest) visited tested ->
  maxDistance < Tile.distanceTo st tile ->
  searchInv c st filter maxDistance rest ({[Tile.id tile]} ∪ visited) tested.
Proof.
  intros Hu Htile (Ha & Hb & Hc & Hd & He) Hfar.
  apply Forall_cons in He as [_ Hrest]. repeat apply conj; try done.
  - intros t Ht [Hid%elem_of_singleton|Hv]%elem_of_union Hle; [|by apply Ha].
    assert (t = tile) as -> by (by apply (uniqueIds_eq c)). lia.
  - intros t n Ht Hn Hdist.
    destruct (Hc t n Ht Hn Hdist) as [?|[->|?]%queue_head_cases].
    + left. apply elem_of_union. by right.
    + left. apply elem_of_union. left. by apply elem_of_singleton.
    + by right.
  - destruct Hd as [?|[->|?]%queue_head_cases].
    + left. apply elem_of_union. by right.
    + left. apply elem_of_union. left. by apply elem_of_singleton.
    + by right.
Qed.

Lemma searchInv_expand c st filter maxDistance tile rest visited tested ns :
  wellFormed c -> uniqueIds c -> inGrid c tile ->
  searchInv c st filter maxDistance (Some tile :: rest) visited tested ->
  getTileNeighbors c (Tile.x tile) (Tile.y tile) = Ok ns -> filter tile = false ->
  searchInv c st filter maxDistance (rest ++ ns) ({[Tile.id tile]} ∪ visited)
    (tested ++ [tile]).
Proof.
  intros Hwf Hu Htile (Ha & Hb & Hc & Hd & He) Hns Hf.
  apply Forall_cons in He as [_ Hrest].
  destruct (getTileNeighbors_adjacent c tile Hwf Htile) as (ns' & Hns' & _ & _ & Hiff).
  assert (ns' = ns) as -> by congruence.
  destruct (getTileNeighbors_allTiles c tile Hwf Htile) as (ns' & Hns2 & Hall).
  assert (ns' = ns) as -> by congruence.
  repeat apply conj.
  - intros t Ht [Hid%elem_of_singleton|Hv]%elem_of_union Hle.
    + assert (t = tile) as -> by (by apply (uniqueIds_eq c)).
      apply elem_of_app. right. by left.
    + apply elem_of_app. left. by apply Ha.
  - intros t [Ht| ->%list_elem_of_singleton]%elem_of_app; [by apply Hb|done].
  - intros t n [Ht| ->%list_elem_of_singleton]%elem_of_app Hn Hdist.
    + destruct (Hc t n Ht Hn Hdist) as [?|[->|?]%queue_head_cases].
      * left. apply elem_of_union. by right.
      * left. apply elem_of_union. left. by apply elem_of_singleton.
      * right. apply elem_of_app. by left.
    + right. apply elem_of_app. right. by apply Hiff.
  - destruct Hd as [?|[->|?]%queue_head_cases].
    + left. apply elem_of_union. by right.
    + left. apply elem_of_union. left. by apply elem_of_singleton.
    + right. apply elem_of_app. by left.
  - by apply Forall_app.
Qed.

Lemma layerInv_start c st maxDistance :
  wellFormed c -> inGrid c st -> layerInv c st maxDistance 0 [Some st] ∅ [].
Proof.
  intros Hwf Hst. repeat apply conj.
  - intros q [= ->]%list_elem_of_singleton _. unfold Tile.distanceTo. lia.
  - intros l1 q l2 Heq _ _ q' Hq'. exfalso. destruct l1 as [|o l1].
    + simpl in Heq. injection Heq as _ <-. by apply not_elem_of_nil in Hq'.
    + simpl in Heq. injection Heq as _ Heq. by destruct l1.
  - intros t _ Hneg. unfold Tile.distanceTo in Hneg. lia.
  - intros t Ht Hz _. right. assert (t = st) as ->; [|by left].
    unfold Tile.distanceTo in Hz. apply (inGrid_same_position c); [done..|lia|lia].
  - intros t Ht. by apply not_elem_of_nil in Ht.
Qed.

(** When the first entry of the queue is an unvisited tile of the next
    layer, the layer being worked on is finished. *)
Lemma layerInv_next c st filter maxDistance k tile rest visited tested :
  wellFormed c -> inGrid c st ->
  searchInv c st filter maxDistance (Some tile :: rest) visited tested ->
  layerInv c st maxDistance k (Some tile :: rest) visited tested ->
  Tile.id tile ∉ visited -> Tile.distanceTo st tile = k + 1 ->
  Tile.distanceTo st tile <= maxDistance ->
  layerInv c st maxDistance (k + 1) (Some tile :: rest) visited tested.
Proof.
  intros Hwf Hst (Ha & Hb & Hc & Hd & He) (N1 & N2 & N3 & N4 & Nf) Hnin Hk Hle.
  assert (M1 : forall q, Some q ∈ Some tile :: rest -> Tile.id q ∉ visited ->
            Tile.distanceTo st q = k + 1).
  { intros q [->|Hq]%queue_head_cases Hv; [done|].
    by apply (N2 [] tile rest eq_refl Hnin Hk q). }
  assert (M3 : forall t, inGrid c t -> Tile.distanceTo st t < k + 1 ->
            Tile.distanceTo st t <= maxDistance -> t ∈ tested).
  { intros t Ht Hlt Hd'. destruct (decide (Tile.distanceTo st t < k)); [by apply N3|].
    assert (Hk' : Tile.distanceTo st t = k) by lia.
    destruct (N4 t Ht Hk' Hd') as [Hv|Hq]; [by apply Ha|].
    destruct (decide (Tile.id t ∈ visited)) as [Hv|Hv]; [by apply Ha|].
    pose proof (M1 t Hq Hv). lia. }
  repeat apply conj; try done.
  - intros q Hq Hv. rewrite (M1 q Hq Hv). lia.
  - intros l1 q l2 Heq Hv Hq. exfalso.
    assert (Hin : Some q ∈ Some tile :: rest).
    { rewrite Heq. apply elem_of_app. right. by left. }
    pose proof (M1 q Hin Hv). lia.
  - intros t Ht Hk' Hd'.
    destruct (decide (Tile.distanceTo st t = 0)) as [Hz|Hnz].
    { assert (t = st) as ->; [|done].
      unfold Tile.distanceTo in Hz. apply (inGrid_same_position c); [done..|lia|lia]. }
    assert (Hpos : 0 < Tile.distanceTo st t) by (unfold Tile.distanceTo in *; lia).
    destruct (step_toward c st t Hwf Hst Ht Hpos) as (t' & Ht' & D1 & D2).
    apply (Hc t' t); [|done|done]. apply M3; [done|lia|lia].
Qed.

(** The first tile a search returns is at least as near to the start as any
    tile of the grid that satisfies the filter. *)
Lemma searchLoop_nearest c st filter maxDistance :
  wellFormed c -> uniqueIds c -> inGrid c st ->
  forall fuel tilesToSearch visited tested k r tested',
    searchLoop fuel c (Some st) filter maxDistance tilesToSearch visited tested
      = Some (Ok (Some r, tested')) ->
    searchInv c st filter maxDistance tilesToSearch visited tested ->
    layerInv c st maxDistance k tilesToSearch visited tested ->
    forall m, inGrid c m -> filter m = true ->
      Tile.distanceTo st r <= Tile.distanceTo st m.
Proof.
  intros Hwf Hu Hst. induction fuel as [|fuel IH];
    intros queue visited tested k r tested' H Hinv Hlay; [discriminate|].
  simpl in H. destruct queue as [|[tile|] rest]; try discriminate.
  assert (Htile : inGrid c tile).
  { destruct Hinv as (_ & _ & _ & _ & He).
    apply Forall_cons in He as [(t & [= <-] & Ht) _]. done. }
  destruct (decide (Tile.id tile ∈ visited)) as [Hin|Hnin].
  { apply (IH _ _ _ k _ _ H); [by eapply searchInv_skip|].
    destruct Hlay as (N1 & N2 & N3 & N4 & Nf). repeat apply conj; try done.
    - intros q Hq. apply N1. by right.
    - intros l1 q l2 Heq. apply (N2 (Some tile :: l1) q l2). by rewrite Heq.
    - intros t Ht Hk Hd. destruct (N4 t Ht Hk Hd) as [?|[->|?]%queue_head_cases]; auto. }
  destruct (Tile.distanceTo st tile >? maxDistance) eqn:Hfar.
  { apply (IH _ _ _ k _ _ H); [apply searchInv_far; [done..|lia]|].
    destruct Hlay as (N1 & N2 & N3 & N4 & Nf).
    assert (Hsub : forall q, Tile.id q ∉ {[Tile.id tile]} ∪ visited -> Tile.id q ∉ visited).
    { intros q Hq Hv. apply Hq, elem_of_union. by right. }
    repeat apply conj; try done.
    - intros q Hq Hv. apply N1; [by right|by apply Hsub].
    - intros l1 q l2 Heq Hv Hk q' Hq' Hv'.
      apply (N2 (Some tile :: l1) q l2); [by rewrite Heq|by apply Hsub|done|done|].
      by apply Hsub.
    - intros t Ht Hk Hd. destruct (N4 t Ht Hk Hd) as [?|[->|?]%queue_head_cases].
      + left. apply elem_of_union. by right.
      + left. apply elem_of_union. left. by apply elem_of_singleton.
      + by right.
    - intros t Ht. apply elem_of_union. right. by apply Nf. }
  assert (Hnear : Tile.distanceTo st tile <= maxDistance) by lia.
  (* the layer of [tile] *)
  assert (Hk : exists k', layerInv c st maxDistance k' (Some tile :: rest) visited tested
                 /\ Tile.distanceTo st tile = k').
  { pose proof Hlay as (N1 & _). destruct (N1 tile) as [Hlo Hhi]; [by left|done|].
    destruct (decide (Tile.distanceTo st tile = k)) as [Hk|Hk]; [by exists k|].
    exists (k + 1). split; [|lia].
    apply (layerInv_next c st filter maxDistance k); try done. lia. }
  clear k Hlay. destruct Hk as (k & (N1 & N2 & N3 & N4 & Nf) & Hk).
  destruct (getTileNeighbors c (Tile.x tile) (Tile.y tile)) as [ns|] eqn:Hns;
    [|discriminate].
  destruct (filter tile) eqn:Hf.
  { injection H as <- <-. intros m Hm Hfm.
    destruct (decide (Tile.distanceTo st tile <= Tile.distanceTo st m)) as [|Hlt]; [done|].
    exfalso. destruct Hinv as (_ & Hb & _).
    rewrite (Hb m) in Hfm; [discriminate|]. apply N3; [done|lia|lia]. }
  destruct (getTileNeighbors_adjacent c tile Hwf Htile) as (ns' & Hns' & _ & _ & Hiff).
  assert (ns' = ns) as -> by congruence.
  assert (Hsub : forall q, Tile.id q ∉ {[Tile.id tile]} ∪ visited -> Tile.id q ∉ visited).
  { intros q Hq Hv. apply Hq, elem_of_union. by right. }
  assert (Hnew : forall q, Some q ∈ ns -> Tile.id q ∉ {[Tile.id tile]} ∪ visited ->
            Tile.distanceTo st q = k + 1).
  { intros q Hq Hv. apply Hiff in Hq as [Hg Hone].
    assert (Hcases : Tile.distanceTo st q = k + 1 \/ Tile.distanceTo st q = k - 1)
      by (unfold Tile.distanceTo in *; lia).
    destruct Hcases as [|Hless]; [done|]. exfalso. apply (Hsub q Hv), Nf.
    apply N3; [done|lia|lia]. }
  apply (IH _ _ _ k _ _ H); [by apply searchInv_expand|].
  repeat apply conj.
  - intros q [Hq|Hq]%elem_of_app Hv.
    + apply N1; [by right|by apply Hsub].
    + rewrite (Hnew q Hq Hv). lia.
  - intros l1 q l2 Heq Hv Hq q' Hq' Hv'.
    destruct (decide (Some q' ∈ ns)) as [Hin|Hout]; [by apply Hnew|].
    apply app_eq_app in Heq as [l [[E1 E2]|[E1 E2]]].
    + destruct l as [|o l].
      * simpl in E2. exfalso. apply Hout. rewrite <- E2. by right.
      * simpl in E2. injection E2 as <- ->.
        apply elem_of_app in Hq' as [Hq'|Hq']; [|done].
        apply (N2 (Some tile :: l1) q l); [by rewrite E1|by apply Hsub|done|done|].
        by apply Hsub.
    + exfalso. apply Hout. rewrite E2. apply elem_of_app. right. by right.
  - intros t Ht Hlt Hd. apply elem_of_app. left. by apply N3.
  - intros t Ht Hk' Hd. destruct (N4 t Ht Hk' Hd) as [?|[->|?]%queue_head_cases].
    + left. apply elem_of_union. by right.
    + left. apply elem_of_union. left. by apply elem_of_singleton.
    + right. apply elem_of_app. by left.
  - intros t [Ht| ->%list_elem_of_singleton]%elem_of_app.
    + apply elem_of_union. right. by apply Nf.
    + apply elem_of_union. left. by apply elem_of_singleton.
Qed.

(** X19: on a well-formed grid with distinct tile identities, the tile that
    findTile returns is a nearest match: no tile of the grid that satisfies
    the filter is nearer to the start (in Manhattan distance) than the one
    returned. *)
Theorem findTile_returns_nearest_match (c : City.t) (start : option Z * option Z)
  (st r : Tile.t) (filter : Tile.t -> bool) (maxDistance : Z) :
  wellFormed c -> uniqueIds c -> getTile c start.1 start.2 = Ok (Some st) ->
  findTile c start filter maxDistance = Some (Ok (Some r)) ->
  forall m, inGrid c m -> filter m = true ->
    Tile.distanceTo st r <= Tile.distanceTo st m.
Proof.
  intros Hwf Hu G F. assert (Hst : inGrid c st) by (by eapply getTile_elem).
  unfold findTile, findTile_traced in F. rewrite G in F.
  destruct (searchLoop (searchFuel c) c (Some st) filter maxDistance [Some st] ∅ [])
    as [[[r' tested]|e c']|] eqn:E; try discriminate.
  simpl in F. injection F as ->.
  apply (searchLoop_nearest c st filter maxDistance Hwf Hu Hst _ _ _ _ 0 _ _ E).
  - by apply searchInv_start.
  - by apply layerInv_start.
Qed.

Lemma findTile_returns_nearest_match_witness :
  wellFormed fullTown /\ uniqueIds fullTown /\
  getTile fullTown (Some 2, Some 0).1 (Some 2, Some 0).2 = Ok (Some (Tile.mk 6 2 0 None)) /\
  findTile fullTown (Some 2, Some 0)
    (fun t => bool_decide (Tile.building t = Some (house 7))) 4
  = Some (Ok (Some (Tile.mk 3 1 0 (Some (house 7))))) /\
  forall m, inGrid fullTown m ->
    bool_decide (Tile.building m = Some (house 7)) = true ->
    Tile.distanceTo (Tile.mk 6 2 0 None) (Tile.mk 3 1 0 (Some (house 7)))
    <= Tile.distanceTo (Tile.mk 6 2 0 None) m.
Proof.
  assert (W : wellFormed fullTown) by (apply wellFormedb_true; by vm_compute).
  assert (U : uniqueIds fullTown).
  { apply (bool_decide_unpack (NoDup (Tile.id <$> mjoin (City.tiles fullTown)))).
    by vm_compute. }
  assert (G : getTile fullTown (Some 2, Some 0).1 (Some 2, Some 0).2
              = Ok (Some (Tile.mk 6 2 0 None))) by (by vm_compute).
  assert (F : findTile fullTown (Some 2, Some 0)
                (fun t => bool_decide (Tile.building t = Some (house 7))) 4
              = Some (Ok (Some (Tile.mk 3 1 0 (Some (house 7)))))) by (by vm_compute).
  split; [exact W|]. split; [exact U|]. split; [exact G|]. split; [exact F|].
  exact (findTile_returns_nearest_match fullTown (Some 2, Some 0) (Tile.mk 6 2 0 None)
           (Tile.mk 3 1 0 (Some (house 7)))
           (fun t => bool_decide (Tile.building t = Some (house 7))) 4 W U G F).
Defined.

(** X20: findTile ends on every city, also one whose grid is ragged or whose
    tiles share identities or coordinates: the loop stops, with a value or
    with an exception, within the fuel findTile gives it, and more fuel
    gives the same outcome. *)
Theorem findTile_always_ends (c : City.t) (start : option Z * option Z)
  (filter : Tile.t -> bool) (maxDistance : Z) :
  exists outcome, findTile_traced c start filter maxDistance = Some outcome /\
    forall startTile fuel,
      getTile c start.1 start.2 = Ok startTile -> (searchFuel c <= fuel)%nat ->
      searchLoop fuel c startTile filter maxDistance [startTile] ∅ [] = Some outcome.
Proof.
  unfold findTile_traced.
  destruct (getTile c start.1 start.2) as [startTile|e c'] eqn:G.
  - destruct (searchLoop_fuel c startTile filter maxDistance (searchFuel c)
                [startTile] ∅ []) as [outcome E].
    + intros tl H%list_elem_of_singleton. subst startTile. by eapply getTile_elem.
    + apply searchFuel_enough.
    + exists outcome. split; [done|]. intros st' fuel [= <-] Hf.
      by eapply searchLoop_more_fuel.
  - eexists. split; [done|]. by intros st' fuel.
Qed.

(** ** findTile: what a search tests *)

(** A queue of tiles that are all visited already or too far from the start
    is drained without a call of [filter]. *)
Lemma searchLoop_drain c st filter maxDistance :
  forall tilesToSearch fuel visited tested,
    (length tilesToSearch < fuel)%nat ->
    Forall (fun o => exists tl, o = Some tl /\
              (Tile.id tl ∈ visited \/ maxDistance < Tile.distanceTo st tl))
           tilesToSearch ->
    searchLoop fuel c (Some st) filter maxDistance tilesToSearch visited tested
    = Some (Ok (None, tested)).
Proof.
  induction tilesToSearch as [|o rest IH]; intros fuel visited tested Hlen Hq;
    (destruct fuel as [|fuel]; [simpl in Hlen; lia|]); simpl; [done|].
  apply Forall_cons in Hq as [(tile & -> & Htile) Hrest]. simpl in Hlen.
  destruct (decide (Tile.id tile ∈ visited)) as [Hin|Hnin]; [apply IH; [lia|done]|].
  destruct Htile as [?|Hfar]; [done|].
  destruct (Tile.distanceTo st tile >? maxDistance) eqn:E; [|lia].
  apply IH; [lia|]. eapply Forall_impl; [exact Hrest|].
  intros o (tl & -> & [Hv|Hd]); exists tl; (split; [done|]); [left|by right].
  apply elem_of_union. by right.
Qed.

(** A search that ends without a tile has handed every tile within the
    distance to [filter]. *)
Lemma searchLoop_none_exhausts c st filter maxDistance :
  wellFormed c -> uniqueIds c -> inGrid c st ->
  forall fuel tilesToSearch visited tested tested',
    searchLoop fuel c (Some st) filter maxDistance tilesToSearch visited tested
      = Some (Ok (None, tested')) ->
    searchInv c st filter maxDistance tilesToSearch visited tested ->
    forall t, inGrid c t -> Tile.distanceTo st t <= maxDistance -> t ∈ tested'.
Proof.
  intros Hwf Hu Hst. induction fuel as [|fuel IH];
    intros queue visited tested tested' H Hinv; [discriminate|].
  simpl in H. destruct queue as [|o rest].
  { injection H as <-. by apply (searchInv_closed c st filter maxDistance visited tested). }
  pose proof Hinv as (_ & _ & _ & _ & He).
  apply Forall_cons in He as [(tile & -> & Htile) _].
  destruct (decide (Tile.id tile ∈ visited)) as [Hin|Hnin].
  { apply (IH _ _ _ _ H). by apply (searchInv_skip _ _ _ _ tile). }
  destruct (Tile.distanceTo st tile >? maxDistance) eqn:Hfar.
  { apply (IH _ _ _ _ H). apply (searchInv_far _ _ _ _ tile); [done..|lia]. }
  destruct (getTileNeighbors c (Tile.x tile) (Tile.y tile)) as [ns|] eqn:Hns;
    [|discriminate].
  destruct (filter tile) eqn:Hf; [discriminate|].
  apply (IH _ _ _ _ H). by apply searchInv_expand.
Qed.

(** C8: findTile from (0, 0) with maxDistance 0 hands the start tile, and no
    other tile, to the filter: it returns the start tile when the filter
    accepts it and null otherwise.  With a filter that no tile of the grid
    satisfies, findTile from any start inside the grid, for any distance,
    returns null, and has by then handed to the filter every tile within the
    distance (the tiles have distinct identities, as the constructor gives
    them), each once, and no other.  On a grid without tiles there is no
    start tile and the call throws before any tile is tested. *)
Theorem findTile_distance_zero_and_no_match (c : City.t) (filter : Tile.t -> bool) :
  wellFormed c ->
  (0 < City.size c ->
     exists startTile,
       getTile c (Some 0) (Some 0) = Ok (Some startTile) /\
       findTile_traced c (Some 0, Some 0) filter 0
         = Some (Ok (if filter startTile then Some startTile else None, [startTile])) /\
       findTile c (Some 0, Some 0) filter 0
         = Some (Ok (if filter startTile then Some startTile else None))) /\
  (City.size c <= 0 ->
     findTile_traced c (Some 0, Some 0) filter 0 = Some (Throw TypeError c) /\
     findTile c (Some 0, Some 0) filter 0 = Some (Throw TypeError c)) /\
  (forall start maxDistance,
     inBounds c start.1 start.2 ->
     (forall t, inGrid c t -> filter t = false) ->
     exists st tested,
       getTile c start.1 start.2 = Ok (Some st) /\
       findTile_traced c start filter maxDistance = Some (Ok (None, tested)) /\
       findTile c start filter maxDistance = Some (Ok None) /\
       NoDup (Tile.id <$> tested) /\
       (forall t, t ∈ tested -> inGrid c t /\ Tile.distanceTo st t <= maxDistance) /\
       (uniqueIds c ->
        forall t, inGrid c t -> Tile.distanceTo st t <= maxDistance -> t ∈ tested)).
Proof.
  intros Hwf. split; [|split].
  - intros Hsize.
    destruct (getTile_inside c 0 0 Hwf) as (col & st & _ & _ & G & _); [lia|lia|].
    assert (Hst : inGrid c st) by (by eapply getTile_elem).
    assert (F : findTile_traced c (Some 0, Some 0) filter 0
                = Some (Ok (if filter st then Some st else None, [st]))).
    { unfold findTile_traced. cbn [fst snd]. rewrite G.
      assert (Hlen : (1 <= length (mjoin (City.tiles c)))%nat).
      { unfold inGrid in Hst.
        destruct (mjoin (City.tiles c)); [by apply not_elem_of_nil in Hst|simpl; lia]. }
      destruct (getTileNeighbors_allTiles c st Hwf Hst) as (ns & Hns & Hall).
      destruct (getTileNeighbors_spec _ _ _ _ Hns) as [Hl4 _].
      replace (searchFuel c) with (S (searchFuel c - 1)) by (unfold searchFuel; lia).
      simpl. destruct (decide (Tile.id st ∈ (∅ : gset nat))) as [Hin|_];
        [by apply not_elem_of_empty in Hin|].
      assert (Hz : Tile.distanceTo st st = 0) by (unfold Tile.distanceTo; lia).
      rewrite Hz, Hns. simpl. destruct (filter st); [done|].
      apply searchLoop_drain; [unfold searchFuel; lia|].
      eapply Forall_impl; [exact Hall|]. intros o (tl & -> & Htl).
      exists tl. split; [done|].
      destruct (decide (0 < Tile.distanceTo st tl)); [by right|left].
      assert (tl = st) as ->.
      { apply (inGrid_same_position c); [done..| |]; unfold Tile.distanceTo in *; lia. }
      apply elem_of_union. left. by apply elem_of_singleton. }
    exists st. split; [done|]. split; [done|]. unfold findTile. by rewrite F.
  - intros Hsize.
    assert (G : getTile c (Some 0) (Some 0) = Ok None) by (apply getTile_outside; lia).
    assert (F : findTile_traced c (Some 0, Some 0) filter 0 = Some (Throw TypeError c)).
    { unfold findTile_traced. cbn [fst snd]. rewrite G.
      by replace (searchFuel c) with (S (searchFuel c - 1)) by (unfold searchFuel; lia). }
    split; [done|]. unfold findTile. by rewrite F.
  - intros start maxDistance Hb Hnone.
    destruct (findTile_traced_ok c start filter maxDistance Hwf Hb)
      as (st & r & tested & G & Hst & F & Hfuel & Ht & Hnd & Hr).
    assert (r = None) as ->.
    { destruct r as [t|]; [|done]. destruct (Hr t eq_refl) as [Hf Hin].
      destruct (Ht t Hin) as [Hg _]. rewrite (Hnone t Hg) in Hf. discriminate. }
    exists st, tested. split; [done|]. split; [done|].
    split; [unfold findTile; by rewrite F|]. split; [done|]. split; [done|].
    intros Hu.
    apply (searchLoop_none_exhausts c st filter maxDistance Hwf Hu Hst
             (searchFuel c) [Some st] ∅ [] tested); [by apply Hfuel|].
    by apply searchInv_start.
Qed.

Lemma findTile_distance_zero_and_no_match_witness :
  wellFormed smallTown /\ 0 < City.size smallTown /\
  inBounds smallTown (Some 1, Some 1).1 (Some 1, Some 1).2 /\
  (forall t, inGrid smallTown t -> (fun _ : Tile.t => false) t = false) /\
  uniqueIds smallTown /\
  (exists startTile,
     getTile smallTown (Some 0) (Some 0) = Ok (Some startTile) /\
     findTile_traced smallTown (Some 0, Some 0)
       (fun t => bool_decide (Tile.building t = Some (house 4))) 0
       = Some (Ok (if bool_decide (Tile.building startTile = Some (house 4))
                   then Some startTile else None, [startTile])) /\
     findTile smallTown (Some 0, Some 0)
       (fun t => bool_decide (Tile.building t = Some (house 4))) 0
       = Some (Ok (if bool_decide (Tile.building startTile = Some (house 4))
                   then Some startTile else None))) /\
  (exists startTile,
     getTile smallTown (Some 0) (Some 0) = Ok (Some startTile) /\
     findTile_traced smallTown (Some 0, Some 0) (fun _ => false) 0
       = Some (Ok (None, [startTile])) /\
     findTile smallTown (Some 0, Some 0) (fun _ => false) 0 = Some (Ok None)) /\
  (exists st tested,
     getTile smallTown (Some 1, Some 1).1 (Some 1, Some 1).2 = Ok (Some st) /\
     findTile_traced smallTown (Some 1, Some 1) (fun _ => false) 1
       = Some (Ok (None, tested)) /\
     findTile smallTown (Some 1, Some 1) (fun _ => false) 1 = Some (Ok None) /\
     NoDup (Tile.id <$> tested) /\
     (forall t, t ∈ tested -> inGrid smallTown t /\ Tile.distanceTo st t <= 1) /\
     (forall t, inGrid smallTown t -> Tile.distanceTo st t <= 1 -> t ∈ tested)).
Proof.
  assert (W : wellFormed smallTown) by (apply wellFormedb_true; by vm_compute).
  assert (S : 0 < City.size smallTown) by (by vm_compute).
  assert (B : inBounds smallTown (Some 1, Some 1).1 (Some 1, Some 1).2).
  { exists 1, 1. repeat split; by vm_compute. }
  assert (N : forall t, inGrid smallTown t -> (fun _ : Tile.t => false) t = false)
    by (intros t _; reflexivity).
  assert (U : uniqueIds smallTown).
  { apply (bool_decide_unpack (NoDup (Tile.id <$> mjoin (City.tiles smallTown)))).
    by vm_compute. }
  split; [exact W|]. split; [exact S|]. split; [exact B|]. split; [exact N|].
  split; [exact U|].
  destruct (findTile_distance_zero_and_no_match smallTown
              (fun t => bool_decide (Tile.building t = Some (house 4))) W) as (A1 & _ & _).
  destruct (findTile_distance_zero_and_no_match smallTown (fun _ => false) W)
    as (A2 & _ & B2).
  split; [exact (A1 S)|]. split; [exact (A2 S)|].
  destruct (B2 (Some 1, Some 1) 1 B N) as (st & tested & G & F & F' & Hnd & Hin & Hall).
  exists st, tested. split; [exact G|]. split; [exact F|]. split; [exact F'|].
  split; [exact Hnd|]. split; [exact Hin|]. exact (Hall U).
Defined.

(** ** What a call of simulate keeps *)

Section SimulationInvariants.

Variable services : list (City.t -> City.t).
Variable tileSimulate : Tile.t -> City.t -> City.t.

(** X21: on a well-formed city with a sound mission table simulate returns
    (it does not throw), both invariants hold again afterwards, the size is
    the same, and the missions of the level that was not evaluated are
    exactly as before. *)
Theorem simulate_keeps_invariants (c : City.t) (steps : Z) :
  Forall keepsFrame services -> (forall tl, keepsFrame (tileSimulate tl)) ->
  wellFormed c -> missionsOk c ->
  exists c', simulate services tileSimulate c steps = Ok c' /\
    wellFormed c' /\ missionsOk c' /\
    forall l, l <> City.level c -> City.levels c' !! l = City.levels c !! l.
Proof.
  intros Hs Ht Hwf Hm.
  destruct (simulate_ok services tileSimulate Hs Ht c steps Hwf Hm)
    as (c' & E & W & M & _).
  destruct (simulate_detail services tileSimulate Hs Ht c steps Hwf Hm)
    as (c2 & p & bc & rc & ms & E2 & _ & _ & Hls & _).
  assert (c2 = c') as -> by congruence.
  exists c'. split; [done|]. split; [done|]. split; [done|].
  intros l Hl. rewrite Hls. by rewrite lookup_insert_ne.
Qed.

End SimulationInvariants.

Lemma simulate_keeps_invariants_witness :
  Forall keepsFrame [] /\ (forall tl, keepsFrame (moveIn tl)) /\
  wellFormed smallTown /\ missionsOk smallTown /\
  exists c', simulate [] moveIn smallTown 2 = Ok c' /\
    wellFormed c' /\ missionsOk c' /\
    forall l, l <> City.level smallTown -> City.levels c' !! l = City.levels smallTown !! l.
Proof.
  assert (S : Forall keepsFrame []) by apply Forall_nil_2.
  assert (W : wellFormed smallTown) by (apply wellFormedb_true; by vm_compute).
  split; [exact S|]. split; [exact moveIn_keepsFrame|].
  split; [exact W|]. split; [exact smallTown_missionsOk|].
  exact (simulate_keeps_invariants [] moveIn smallTown 2 S moveIn_keepsFrame W
           smallTown_missionsOk).
Defined.

(** ** Calls to the vehicle graph *)

Lemma graphCalls_app evs1 evs2 : graphCalls (evs1 ++ evs2) = graphCalls evs1 ++ graphCalls evs2.
Proof. apply List.filter_app. Qed.

Lemma refreshViewAt_graphCalls x y c c' :
  refreshViewAt x y c = Ok c' -> graphCalls (City.events c') = graphCalls (City.events c).
Proof.
  unfold refreshViewAt. destruct (getTile c x y) as [[tl|]|]; res_simpl; intros [= <-];
    [|done].
  simpl. by rewrite graphCalls_app, app_nil_r.
Qed.

Lemma refreshNeighbors_graphCalls x y c c' :
  refreshNeighbors x y c = Ok c' -> graphCalls (City.events c') = graphCalls (City.events c).
Proof.
  unfold refreshNeighbors.
  destruct (refreshViewAt (shift (-1) x) y c) as [c1|] eqn:E1; [|discriminate]. res_simpl.
  destruct (refreshViewAt (shift 1 x) y c1) as [c2|] eqn:E2; [|discriminate]. res_simpl.
  destruct (refreshViewAt x (shift (-1) y) c2) as [c3|] eqn:E3; [|discriminate]. res_simpl.
  intros E4.
  rewrite (refreshViewAt_graphCalls _ _ _ _ E4), (refreshViewAt_graphCalls _ _ _ _ E3),
    (refreshViewAt_graphCalls _ _ _ _ E2). by apply (refreshViewAt_graphCalls _ _ _ _ E1).
Qed.

Lemma clearTile_graphCalls x y tl b c c' :
  clearTile x y tl b c = Ok c' -> graphCalls (City.events c') = graphCalls (City.events c).
Proof.
  unfold clearTile. intros E. rewrite (refreshNeighbors_graphCalls _ _ _ _ E). simpl.
  assert (Hev : City.events (updateTileAt x y (Tile.setBuilding None)
                               (City.emit (Dispose b) c)) = City.events c ++ [Dispose b]).
  { unfold updateTileAt. by destruct x, y. }
  rewrite Hev, !graphCalls_app. simpl. by rewrite !app_nil_r.
Qed.

Lemma graphCalls_of_operations (createBuilding : option Z -> option Z -> BuildingType.t -> Building.t)
  (c c' : City.t) (x y : option Z) (tl : Tile.t) :
  getTile c x y = Ok (Some tl) ->
  (forall b, Tile.building tl = Some b -> bulldoze c x y = Ok c' ->
     graphCalls (City.events c')
     = graphCalls (City.events c)
       ++ (if bool_decide (Building.type b = BuildingType.road)
           then [UpdateTile x y None] else [])) /\
  (forall b, Tile.building tl = Some b -> destroy c x y = Ok c' ->
     graphCalls (City.events c')
     = graphCalls (City.events c)
       ++ (if bool_decide (Building.type b = BuildingType.residential)
           then [UpdateTile x y None] else [])) /\
  (forall ty cost, Tile.building tl = None -> buildCost ty = Some cost ->
     cost <= City.money c -> placeBuilding createBuilding c x y ty = Ok c' ->
     graphCalls (City.events c')
     = graphCalls (City.events c)
       ++ (if bool_decide (Building.type (createBuilding x y ty) = BuildingType.road)
           then [UpdateTile x y (Some (createBuilding x y ty))] else [])).
Proof.
  intros G. repeat apply conj.
  - intros b Hb. unfold bulldoze. rewrite G. res_simpl. rewrite Hb.
    intros E. rewrite (clearTile_graphCalls _ _ _ _ _ _ E).
    destruct (Building.type b); simpl; rewrite !graphCalls_app; simpl;
      by rewrite ?app_nil_r.
  - intros b Hb. unfold destroy. rewrite G. res_simpl. rewrite Hb.
    destruct (Building.type b); simpl; try (intros [= <-]; by rewrite app_nil_r).
    intros E. rewrite (clearTile_graphCalls _ _ _ _ _ _ E). simpl.
    rewrite !graphCalls_app. simpl. by rewrite ?app_nil_r.
  - intros ty cost He Hc Hm. unfold placeBuilding. rewrite G. res_simpl. rewrite He.
    rewrite (hasMoneyForBuild_pays c ty cost Hc Hm).
    set (b := createBuilding x y ty).
    destruct (refreshNeighbors x y _) as [cd|] eqn:En; [|discriminate]. res_simpl.
    pose proof (refreshNeighbors_graphCalls _ _ _ _ En) as Hg. simpl in Hg.
    assert (Hev : City.events (updateTileAt x y (Tile.setBuilding (Some b))
                     (City.emit (SoundEffect "building")
                        (City.set_money (City.money c - cost) c)))
                  = City.events c ++ [SoundEffect "building"]).
    { unfold updateTileAt. by destruct x, y. }
    rewrite Hev, !graphCalls_app in Hg. simpl in Hg. rewrite !app_nil_r in Hg.
    destruct (Building.type b); intros [= <-]; simpl; rewrite !graphCalls_app, Hg; simpl;
      by rewrite ?app_nil_r.
Qed.

(** X22: which removals and placements reach the vehicle graph.  bulldoze
    calls [vehicleGraph.updateTile(x, y, null)] exactly when the building is
    a road; destroy calls it for the residential building it removes;
    placeBuilding calls [updateTile(x, y, building)] exactly when the new
    building is a road.  No operation makes any other call to the graph. *)
Theorem vehicle_graph_calls (createBuilding : option Z -> option Z -> BuildingType.t -> Building.t)
  (c : City.t) (x y : option Z) (tl : Tile.t) :
  wellFormed c -> getTile c x y = Ok (Some tl) ->
  (forall b, Tile.building tl = Some b ->
     exists c', bulldoze c x y = Ok c' /\
       graphCalls (City.events c')
       = graphCalls (City.events c)
         ++ (if bool_decide (Building.type b = BuildingType.road)
             then [UpdateTile x y None] else [])) /\
  (forall b, Tile.building tl = Some b ->
     exists c', destroy c x y = Ok c' /\
       graphCalls (City.events c')
       = graphCalls (City.events c)
         ++ (if bool_decide (Building.type b = BuildingType.residential)
             then [UpdateTile x y None] else [])) /\
  (forall ty cost, Tile.building tl = None -> buildCost ty = Some cost ->
     cost <= City.money c ->
     exists c', placeBuilding createBuilding c x y ty = Ok c' /\
       graphCalls (City.events c')
       = graphCalls (City.events c)
         ++ (if bool_decide (Building.type (createBuilding x y ty) = BuildingType.road)
             then [UpdateTile x y (Some (createBuilding x y ty))] else [])).
Proof.
  intros Hwf G. repeat apply conj.
  - intros b Hb. destruct (bulldoze_clears c x y tl b Hwf G Hb) as (c' & E & _).
    exists c'. split; [done|].
    by apply (graphCalls_of_operations createBuilding c c' x y tl G).
  - intros b Hb.
    assert (Hd : exists c', destroy c x y = Ok c').
    { destruct (decide (Building.type b = BuildingType.residential)) as [Hty|Hty].
      - destruct (destroy_clears c x y tl b Hwf G Hb Hty) as (c' & E & _). by exists c'.
      - exists c. unfold destroy. rewrite G. res_simpl. rewrite Hb.
        by destruct (Building.type b). }
    destruct Hd as [c' E]. exists c'. split; [done|].
    by apply (graphCalls_of_operations createBuilding c c' x y tl G).
  - intros ty cost He Hc Hm.
    destruct (placeBuilding_success createBuilding c x y ty tl cost Hwf G He Hc Hm)
      as (c' & E & _).
    exists c'. split; [done|].
    by apply (graphCalls_of_operations createBuilding c c' x y tl G) with (cost := cost).
Qed.

Lemma vehicle_graph_calls_witness :
  wellFormed smallTown /\
  getTile smallTown (Some 0) (Some 1) = Ok (Some (Tile.mk 1 0 1 (Some street))) /\
  (forall b, Tile.building (Tile.mk 1 0 1 (Some street)) = Some b ->
     exists c', bulldoze smallTown (Some 0) (Some 1) = Ok c' /\
       graphCalls (City.events c')
       = graphCalls (City.events smallTown)
         ++ (if bool_decide (Building.type b = BuildingType.road)
             then [UpdateTile (Some 0) (Some 1) None] else [])) /\
  (forall b, Tile.building (Tile.mk 1 0 1 (Some street)) = Some b ->
     exists c', destroy smallTown (Some 0) (Some 1) = Ok c' /\
       graphCalls (City.events c')
       = graphCalls (City.events smallTown)
         ++ (if bool_decide (Building.type b = BuildingType.residential)
             then [UpdateTile (Some 0) (Some 1) None] else [])) /\
  (forall ty cost, Tile.building (Tile.mk 1 0 1 (Some street)) = None ->
     buildCost ty = Some cost -> cost <= City.money smallTown ->
     exists c', placeBuilding plainFactory smallTown (Some 0) (Some 1) ty = Ok c' /\
       graphCalls (City.events c')
       = graphCalls (City.events smallTown)
         ++ (if bool_decide (Building.type (plainFactory (Some 0) (Some 1) ty)
                             = BuildingType.road)
             then [UpdateTile (Some 0) (Some 1) (Some (plainFactory (Some 0) (Some 1) ty))]
             else [])).
Proof.
  assert (W : wellFormed smallTown) by (apply wellFormedb_true; by vm_compute).
  assert (G : getTile smallTown (Some 0) (Some 1) = Ok (Some (Tile.mk 1 0 1 (Some street))))
    by (by vm_compute).
  split; [exact W|]. split; [exact G|].
  exact (vehicle_graph_calls plainFactory smallTown (Some 0) (Some 1)
           (Tile.mk 1 0 1 (Some street)) W G).
Defined.

(** ** The thresholds of the missions *)

Lemma checked_flag_citizens p buildCount roadCount m n :
  Mission.citizens m = Some n -> n <> 0 ->
  Mission.done (checked p buildCount roadCount m) = Mission.done m || (p >=? n).
Proof.
  intros Hc Hn. unfold checked. rewrite Hc. simpl.
  destruct (n =? 0) eqn:E; [lia|]. simpl.
  destruct (p >=? n), (Mission.done m); done.
Qed.

Lemma checked_flag_buildings p buildCount roadCount m n :
  Mission.citizens m = None -> Mission.buildings m = Some n -> n <> 0 ->
  Mission.done (checked p buildCount roadCount m) = Mission.done m || (buildCount >=? n).
Proof.
  intros Hc Hb Hn. unfold checked. rewrite Hc, Hb. simpl.
  destruct (n =? 0) eqn:E; [lia|]. simpl.
  destruct (buildCount >=? n), (Mission.done m); done.
Qed.

Lemma checked_flag_road p buildCount roadCount m n :
  Mission.citizens m = None -> Mission.buildings m = None -> Mission.road m = Some n ->
  n <> 0 ->
  Mission.done (checked p buildCount roadCount m) = Mission.done m || (roadCount >=? n).
Proof.
  intros Hc Hb Hr Hn. unfold checked. rewrite Hc, Hb, Hr. simpl.
  destruct (n =? 0) eqn:E; [lia|]. simpl.
  destruct (roadCount >=? n), (Mission.done m); done.
Qed.

(** X23: what one mission evaluation does to the flags.  With the mission
    table of the constructor (up to flags), the three flags of the current
    level become: the old flag or population >= 35 (75 at level 2), the old
    flag or buildCount >= 5 (10), the old flag or roadCount >= 1 (5). *)
Theorem evaluateMissions_thresholds (c : City.t) (buildCount roadCount p : Z) :
  missionsOk c -> population c = Ok p ->
  exists c' d1 d2 d3,
    flags c (City.level c) = Some [d1; d2; d3] /\
    evaluateMissions buildCount roadCount c = Ok c' /\
    flags c' (City.level c)
    = Some [d1 || (p >=? (thresholds (City.level c)).1.1);
            d2 || (buildCount >=? (thresholds (City.level c)).1.2);
            d3 || (roadCount >=? (thresholds (City.level c)).2)].
Proof.
  intros [Htab Hlev] Hp.
  assert (Hms : exists ms ms0, City.levels c !! City.level c = Some ms /\
            initialLevels !! City.level c = Some ms0 /\ sameMissions ms ms0).
  { destruct Hlev as [-> | ->].
    - destruct (Htab 1 _ eq_refl) as (ms & ? & ?). by eexists _, _.
    - destruct (Htab 2 _ eq_refl) as (ms & ? & ?). by eexists _, _. }
  destruct Hms as (ms & ms0 & Hl & Hl0 & Hsame).
  destruct (evaluateMissions_checked buildCount roadCount c p ms Hp Hl)
    as (c1 & E & Hls & _).
  destruct (levelUp_frame (doneCount (checkedAll p buildCount roadCount ms)) c1)
    as (_ & _ & _ & Fls & _).
  assert (Hflags : forall T1 T2 T3 s1 s2 s3,
            ms0 = [(1, Mission.mk s1 (Some T1) None None false);
                   (2, Mission.mk s2 None (Some T2) None false);
                   (3, Mission.mk s3 None None (Some T3) false)] ->
            T1 <> 0 -> T2 <> 0 -> T3 <> 0 ->
            exists d1 d2 d3,
              (fun km : Z * Mission.t => Mission.done km.2) <$> ms = [d1; d2; d3] /\
              (fun km : Z * Mission.t => Mission.done km.2)
                <$> checkedAll p buildCount roadCount ms
              = [d1 || (p >=? T1); d2 || (buildCount >=? T2); d3 || (roadCount >=? T3)]).
  { intros T1 T2 T3 s1 s2 s3 -> N1 N2 N3. unfold sameMissions in Hsame.
    apply Forall2_cons_inv_r in Hsame as ([k1 m1] & ms1 & (_ & _ & C1 & _) & Hsame & ->).
    apply Forall2_cons_inv_r in Hsame as ([k2 m2] & ms2 & (_ & _ & C2 & B2 & _) & Hsame & ->).
    apply Forall2_cons_inv_r in Hsame
      as ([k3 m3] & ms3 & (_ & _ & C3 & B3 & R3) & Hsame & ->).
    apply Forall2_nil_inv_r in Hsame as ->. simpl in *.
    exists (Mission.done m1), (Mission.done m2), (Mission.done m3). split; [done|].
    rewrite (checked_flag_citizens _ _ _ _ _ C1 N1).
    rewrite (checked_flag_buildings _ _ _ _ _ C2 B2 N2).
    by rewrite (checked_flag_road _ _ _ _ _ C3 B3 R3 N3). }
  assert (Hd : exists d1 d2 d3,
            (fun km : Z * Mission.t => Mission.done km.2) <$> ms = [d1; d2; d3] /\
            (fun km : Z * Mission.t => Mission.done km.2)
              <$> checkedAll p buildCount roadCount ms
            = [d1 || (p >=? (thresholds (City.level c)).1.1);
               d2 || (buildCount >=? (thresholds (City.level c)).1.2);
               d3 || (roadCount >=? (thresholds (City.level c)).2)]).
  { destruct Hlev as [Hv|Hv]; rewrite Hv in Hl0 |- *.
    - eapply Hflags; [|done..]. by vm_compute in Hl0; injection Hl0 as <-.
    - eapply Hflags; [|done..]. by vm_compute in Hl0; injection Hl0 as <-. }
  destruct Hd as (d1 & d2 & d3 & F0 & F1).
  exists (levelUp (doneCount (checkedAll p buildCount roadCount ms)) c1), d1, d2, d3.
  split; [unfold flags; by rewrite Hl; simpl; rewrite F0|]. split; [done|].
  unfold flags. rewrite Fls, Hls, lookup_insert_eq. simpl. by rewrite F1.
Qed.

Lemma evaluateMissions_thresholds_witness :
  missionsOk smallTown /\ population smallTown = Ok 4 /\
  exists c' d1 d2 d3,
    flags smallTown (City.level smallTown) = Some [d1; d2; d3] /\
    evaluateMissions 6 1 smallTown = Ok c' /\
    flags c' (City.level smallTown)
    = Some [d1 || (4 >=? (thresholds (City.level smallTown)).1.1);
            d2 || (6 >=? (thresholds (City.level smallTown)).1.2);
            d3 || (1 >=? (thresholds (City.level smallTown)).2)].
Proof.
  assert (P : population smallTown = Ok 4) by (by vm_compute).
  split; [exact smallTown_missionsOk|]. split; [exact P|].
  exact (evaluateMissions_thresholds smallTown 6 1 4 smallTown_missionsOk P).
Defined.
